(** * Port scanner and process closer ([src/tools/port_scanner/scan.py])

    A shallow embedding of the tool's five functions ([scan_port],
    [get_process_info], [close_port], [scan_ports], [main]) together with
    the fragment of Python they rely on, followed by the properties of the
    specification that concern them.

    Modelling conventions.
    - A Python [str] is a [string] whose characters are the code points
      below 256; JSON numbers are integers ([Z]); a Python [dict] is an
      association list in insertion order, looked up by first match.
    - The operating system (sockets, child processes, signals, the clock)
      and the library routines the source imports are fields of a
      [platform] record.  Every system call is answered as a function of
      the whole history of earlier calls, so a platform can describe any
      deterministic environment, including one that changes as processes
      are killed.
    - Code runs in the monad [M]: it reads the history, returns a value or
      raises an exception, and emits the events it performed, oldest
      first. *)

From Stdlib Require Import ZArith List String Ascii Bool Lia PrimFloat.
From Stdlib Require Import DecimalString Sorted.
Import ListNotations.

Open Scope list_scope.
Open Scope string_scope.
Open Scope Z_scope.

Set Implicit Arguments.
Set Warnings "-register-all".

(* ================================================================== *)
(** ** Python values *)

(** What [json.loads] can produce (numbers restricted to integers). *)
Inductive value : Type :=
| VNone
| VBool (b : bool)
| VInt (z : Z)
| VStr (s : string)
| VList (l : list value)
| VDict (d : list (string * value)).

(** Classes of [Exception] the program can meet or names in an [except]
    clause. *)
Inductive exn_class : Type :=
| JSONDecodeError | ValueError | TypeError | KeyError | IndexError
| AttributeError | OverflowError | ProcessLookupError | PermissionError
| FileNotFoundError | CalledProcessError | OSError | RuntimeError.

(** A raised instance of [Exception]: its class and its [str(e)]. *)
Inductive exn : Type :=
| Exn (c : exn_class) (text : string).

Inductive outcome (A : Type) : Type :=
| Ok (a : A)
| Raise (e : exn).
Arguments Ok {A} a.
Arguments Raise {A} e.

(** Places where the interpreter or a library routine builds the message
    of an exception; the wording is theirs, not the program's. *)
Inductive fault : Type :=
| FaultIn (container : value)
| FaultSubscript (container key : value)
| FaultAttr (obj : value) (attr : string)
| FaultLen (obj : value)
| FaultCompare (a b : value)
| FaultArith (op : string) (a b : value)
| FaultAssign (container : value)
| FaultIndexArg (v : value)
| FaultInt (s : string)
| FaultExitStatus (argv : list string) (status : Z).

(* ================================================================== *)
(** ** String builtins *)

Module PyStr.

Definition code (c : ascii) : Z := Z.of_nat (nat_of_ascii c).

(** [str.isspace] on one character (code points below 256). *)
Definition is_space (c : ascii) : bool :=
  let n := code c in
  ((9 <=? n) && (n <=? 13)) || ((28 <=? n) && (n <=? 32))
  || (n =? 133) || (n =? 160).

Definition is_empty (s : string) : bool :=
  match s with EmptyString => true | String _ _ => false end.

Fixpoint lstrip (s : string) : string :=
  match s with
  | EmptyString => EmptyString
  | String c r => if is_space c then lstrip r else s
  end.

Fixpoint rstrip (s : string) : string :=
  match s with
  | EmptyString => EmptyString
  | String c r =>
      let r' := rstrip r in
      if is_space c && is_empty r' then EmptyString else String c r'
  end.

(** [s.strip()] *)
Definition strip (s : string) : string := rstrip (lstrip s).

(** [s.split(sep)] for a one-character separator: empty pieces are kept. *)
Fixpoint split_on (sep : ascii) (s : string) : list string :=
  match s with
  | EmptyString => [EmptyString]
  | String c r =>
      if Ascii.eqb c sep then EmptyString :: split_on sep r
      else match split_on sep r with
           | piece :: rest => String c piece :: rest
           | [] => [String c EmptyString]
           end
  end.

(** [s.split()]: pieces between runs of whitespace, none of them empty. *)
Fixpoint split (s : string) : list string :=
  match s with
  | EmptyString => []
  | String c r =>
      if is_space c then split r
      else match r with
           | EmptyString => [String c EmptyString]
           | String c' _ =>
               if is_space c' then String c EmptyString :: split r
               else match split r with
                    | piece :: rest => String c piece :: rest
                    | [] => [String c EmptyString]
                    end
           end
  end.

(** [sub in s] *)
Fixpoint contains (sub s : string) : bool :=
  if String.prefix sub s then true
  else match s with
       | EmptyString => false
       | String _ r => contains sub r
       end.

(** [s.split(sep, 1)] when [sep in s]: the text before and after the
    first separator. *)
Fixpoint split_once (sep : ascii) (s : string) : option (string * string) :=
  match s with
  | EmptyString => None
  | String c r =>
      if Ascii.eqb c sep then Some (EmptyString, r)
      else match split_once sep r with
           | Some (a, b) => Some (String c a, b)
           | None => None
           end
  end.

(** [parts[-1]] of a non-empty list. *)
Definition last_item (parts : list string) : string := last parts EmptyString.

(** [str(n)] for an integer. *)
Definition of_Z (n : Z) : string := NilZero.string_of_int (Z.to_int n).

Definition is_digit (c : ascii) : bool := (48 <=? code c) && (code c <=? 57).

(** Digits with single underscores between them, as [int] accepts. *)
Fixpoint digits (s : string) (acc : Z) (need_digit : bool) : option Z :=
  match s with
  | EmptyString => if need_digit then None else Some acc
  | String c r =>
      if is_digit c then digits r (10 * acc + (code c - 48)) false
      else if Ascii.eqb c "_"%char && negb need_digit then digits r acc true
      else None
  end.

(** Whitespace that [int] skips around the literal. *)
Definition is_int_space (c : ascii) : bool :=
  let n := code c in
  ((9 <=? n) && (n <=? 13)) || (n =? 32) || (n =? 133) || (n =? 160).

Fixpoint lstrip_int (s : string) : string :=
  match s with
  | EmptyString => EmptyString
  | String c r => if is_int_space c then lstrip_int r else s
  end.

Fixpoint rstrip_int (s : string) : string :=
  match s with
  | EmptyString => EmptyString
  | String c r =>
      let r' := rstrip_int r in
      if is_int_space c && is_empty r' then EmptyString else String c r'
  end.

(** [int(s)] in base ten: [None] where Python raises [ValueError].  (The
    interpreter's cap on the number of digits is not modelled.) *)
Definition to_Z (s : string) : option Z :=
  match rstrip_int (lstrip_int s) with
  | String "-" r => option_map Z.opp (digits r 0 true)
  | String "+" r => digits r 0 true
  | body => digits body 0 true
  end.

Definition hex_digit (n : Z) : ascii :=
  ascii_of_nat (Z.to_nat (if n <? 10 then 48 + n else 87 + n)).

(** Is the character shown as itself by [repr]? *)
Definition printable (c : ascii) : bool :=
  let n := code c in
  ((32 <=? n) && (n <? 127)) || ((161 <=? n) && negb (n =? 173)).

Fixpoint has_char (c : ascii) (s : string) : bool :=
  match s with
  | EmptyString => false
  | String c' r => Ascii.eqb c c' || has_char c r
  end.

Fixpoint repr_body (quote : ascii) (s : string) : string :=
  match s with
  | EmptyString => EmptyString
  | String c r =>
      let rest := repr_body quote r in
      if Ascii.eqb c quote || Ascii.eqb c "\"%char then String "\"%char (String c rest)
      else if code c =? 9 then String "\"%char (String "t"%char rest)
      else if code c =? 10 then String "\"%char (String "n"%char rest)
      else if code c =? 13 then String "\"%char (String "r"%char rest)
      else if printable c then String c rest
      else String "\"%char (String "x"%char
             (String (hex_digit (code c / 16)) (String (hex_digit (code c mod 16)) rest)))
  end.

Definition dquote : ascii := ascii_of_nat 34.

(** [repr(s)] *)
Definition repr (s : string) : string :=
  let quote := if has_char "'"%char s && negb (has_char dquote s)
               then dquote else "'"%char in
  String quote (repr_body quote s ++ String quote EmptyString).

End PyStr.

(* ================================================================== *)
(** ** Operators and builtins on values *)

Module Py.

Section WithMessages.

(** [str(e)] of an exception the interpreter raises at a given fault. *)
Variable fault_text : fault -> string.

Definition fail {A : Type} (c : exn_class) (f : fault) : outcome A :=
  Raise (Exn c (fault_text f)).

(** [bool(v)] *)
Definition truth (v : value) : bool :=
  match v with
  | VNone => false
  | VBool b => b
  | VInt z => negb (z =? 0)
  | VStr s => negb (PyStr.is_empty s)
  | VList l => match l with [] => false | _ :: _ => true end
  | VDict d => match d with [] => false | _ :: _ => true end
  end.

(** The integer a [bool] or [int] stands for in arithmetic. *)
Definition as_number (v : value) : option Z :=
  match v with
  | VBool b => Some (if b then 1 else 0)
  | VInt z => Some z
  | _ => None
  end.

(** [d.get(k)] on the association list of a dict. *)
Fixpoint lookup (k : string) (d : list (string * value)) : option value :=
  match d with
  | [] => None
  | (k', v) :: rest => if String.eqb k k' then Some v else lookup k rest
  end.

(** [a == b] *)
Fixpoint eq (a b : value) {struct a} : bool :=
  match a, b with
  | VNone, VNone => true
  | VBool x, VBool y => Bool.eqb x y
  | VBool x, VInt y => (if x then 1 else 0) =? y
  | VInt x, VBool y => x =? (if y then 1 else 0)
  | VInt x, VInt y => x =? y
  | VStr s, VStr t => String.eqb s t
  | VList l, VList m =>
      (fix items (l m : list value) {struct l} : bool :=
         match l, m with
         | [], [] => true
         | x :: l', y :: m' => eq x y && items l' m'
         | _, _ => false
         end) l m
  | VDict d, VDict e =>
      Nat.eqb (List.length d) (List.length e)
      && (fix entries (d : list (string * value)) {struct d} : bool :=
            match d with
            | [] => true
            | (k, v) :: d' =>
                match lookup k e with
                | Some w => eq v w && entries d'
                | None => false
                end
            end) d
  | _, _ => false
  end.

(** Three-way comparison behind [<], [<=], [>], [>=]: numbers by value,
    strings by code points, lists by their first unequal items;
    anything else is a [TypeError]. *)
Fixpoint cmp (a b : value) {struct a} : outcome comparison :=
  match a, b with
  | VStr s, VStr t => Ok (String.compare s t)
  | VList l, VList m =>
      (fix items (l m : list value) {struct l} : outcome comparison :=
         match l, m with
         | [], [] => Ok Eq
         | [], _ :: _ => Ok Lt
         | _ :: _, [] => Ok Gt
         | x :: l', y :: m' => if eq x y then items l' m' else cmp x y
         end) l m
  | _, _ =>
      match as_number a, as_number b with
      | Some x, Some y => Ok (Z.compare x y)
      | _, _ => fail TypeError (FaultCompare a b)
      end
  end.

(** [a > b] *)
Definition gt (a b : value) : outcome bool :=
  match cmp a b with
  | Ok Gt => Ok true
  | Ok _ => Ok false
  | Raise e => Raise e
  end.

(** [a <= b] *)
Definition le (a b : value) : outcome bool :=
  match cmp a b with
  | Ok Gt => Ok false
  | Ok _ => Ok true
  | Raise e => Raise e
  end.

(** [a - b] *)
Definition sub (a b : value) : outcome value :=
  match as_number a, as_number b with
  | Some x, Some y => Ok (VInt (x - y))
  | _, _ => fail TypeError (FaultArith "-" a b)
  end.

(** [a + b] *)
Definition add (a b : value) : outcome value :=
  match a, b with
  | VStr s, VStr t => Ok (VStr (s ++ t))
  | VList l, VList m => Ok (VList (l ++ m))
  | _, _ =>
      match as_number a, as_number b with
      | Some x, Some y => Ok (VInt (x + y))
      | _, _ => fail TypeError (FaultArith "+" a b)
      end
  end.

(** [min(a, b)]: the first argument unless the second is smaller. *)
Definition min (a b : value) : outcome value :=
  match cmp b a with
  | Ok Lt => Ok b
  | Ok _ => Ok a
  | Raise e => Raise e
  end.

(** [len(v)] *)
Definition len (v : value) : outcome Z :=
  match v with
  | VStr s => Ok (Z.of_nat (String.length s))
  | VList l => Ok (Z.of_nat (List.length l))
  | VDict d => Ok (Z.of_nat (List.length d))
  | _ => fail TypeError (FaultLen v)
  end.

(** [k in v] for a string [k]. *)
Definition contains (k : string) (v : value) : outcome bool :=
  match v with
  | VDict d => Ok (match lookup k d with Some _ => true | None => false end)
  | VList l => Ok (existsb (eq (VStr k)) l)
  | VStr s => Ok (PyStr.contains k s)
  | _ => fail TypeError (FaultIn v)
  end.

(** [v[k]] for a string [k]. *)
Definition getitem (v : value) (k : string) : outcome value :=
  match v with
  | VDict d =>
      match lookup k d with
      | Some x => Ok x
      | None => fail KeyError (FaultSubscript v (VStr k))
      end
  | _ => fail TypeError (FaultSubscript v (VStr k))
  end.

(** [v.get(k, default)] *)
Definition get (v : value) (k : string) (default : value) : outcome value :=
  match v with
  | VDict d => Ok (match lookup k d with Some x => x | None => default end)
  | _ => fail AttributeError (FaultAttr v "get")
  end.

(** Position of index [i] in a sequence of length [n] (negative indices
    count from the end). *)
Definition position (i : Z) (n : nat) : option nat :=
  let j := if i <? 0 then i + Z.of_nat n else i in
  if (0 <=? j) && (j <? Z.of_nat n) then Some (Z.to_nat j) else None.

(** [v[i]] for an integer [i]. *)
Definition index (v : value) (i : Z) : outcome value :=
  match v with
  | VList l =>
      match position i (List.length l) with
      | Some j => match nth_error l j with
                  | Some x => Ok x
                  | None => fail IndexError (FaultSubscript v (VInt i))
                  end
      | None => fail IndexError (FaultSubscript v (VInt i))
      end
  | VStr s =>
      match position i (String.length s) with
      | Some j => match String.get j s with
                  | Some c => Ok (VStr (String c EmptyString))
                  | None => fail IndexError (FaultSubscript v (VInt i))
                  end
      | None => fail IndexError (FaultSubscript v (VInt i))
      end
  | VDict _ => fail KeyError (FaultSubscript v (VInt i))
  | _ => fail TypeError (FaultSubscript v (VInt i))
  end.

Fixpoint replace_nth (l : list value) (j : nat) (x : value) : list value :=
  match l, j with
  | [], _ => []
  | _ :: l', O => x :: l'
  | y :: l', S j' => y :: replace_nth l' j' x
  end.

(** [v[i] = x]: the container after the assignment. *)
Definition setitem (v : value) (i : Z) (x : value) : outcome value :=
  match v with
  | VList l =>
      match position i (List.length l) with
      | Some j => Ok (VList (replace_nth l j x))
      | None => fail IndexError (FaultSubscript v (VInt i))
      end
  | VDict _ => fail TypeError (FaultAssign v)
  | _ => fail TypeError (FaultAssign v)
  end.

(** The integers [lo, lo+1, ..., hi-1]. *)
Definition interval (lo hi : Z) : list Z :=
  List.map (fun k => lo + Z.of_nat k) (seq 0 (Z.to_nat (hi - lo))).

(** [range(a, b)] *)
Definition range (a b : value) : outcome (list Z) :=
  match as_number a with
  | Some lo =>
      match as_number b with
      | Some hi => Ok (interval lo hi)
      | None => fail TypeError (FaultIndexArg b)
      end
  | None => fail TypeError (FaultIndexArg a)
  end.

(** [int(s)] for a string. *)
Definition int (s : string) : outcome Z :=
  match PyStr.to_Z s with
  | Some n => Ok n
  | None => fail ValueError (FaultInt s)
  end.

(** [repr(v)] *)
Fixpoint repr (v : value) : string :=
  match v with
  | VNone => "None"
  | VBool true => "True"
  | VBool false => "False"
  | VInt z => PyStr.of_Z z
  | VStr s => PyStr.repr s
  | VList l =>
      "[" ++ (fix items (l : list value) : string :=
                match l with
                | [] => ""
                | [x] => repr x
                | x :: l' => repr x ++ ", " ++ items l'
                end) l ++ "]"
  | VDict d =>
      "{" ++ (fix entries (d : list (string * value)) : string :=
                match d with
                | [] => ""
                | [(k, x)] => PyStr.repr k ++ ": " ++ repr x
                | (k, x) :: d' => PyStr.repr k ++ ": " ++ repr x ++ ", " ++ entries d'
                end) d ++ "}"
  end.

(** [str(v)], which is also how an f-string renders [{v}]. *)
Definition str (v : value) : string :=
  match v with
  | VStr s => s
  | _ => repr v
  end.

End WithMessages.

End Py.

(* ================================================================== *)
(** ** Records the program builds *)

(** The dict [get_process_info] returns. *)
Record process_info : Type := {
  info_process_id : string;
  info_process_name : string;
  info_process_command : string
}.

(** One entry of [open_ports]. *)
Record port_info : Type := {
  port : Z;
  protocol : string;
  process_name : string;
  process_id : string;
  process_command : string
}.

(** [port_info.update(process_info)] *)
Definition update (p : port_info) (i : process_info) : port_info :=
  {| port := port p;
     protocol := protocol p;
     process_name := info_process_name i;
     process_id := info_process_id i;
     process_command := info_process_command i |}.

(** The three dict literals [main] serialises, each with its keys in
    source order. *)
Inductive response : Type :=
| ScanResult (success : bool) (action : string) (open_ports : list port_info)
             (scan_range : value) (total_scanned : value) (scan_time : float)
             (common_ports_only : value)
| CloseResult (success : bool) (action : string) (port : value) (message : string)
| ErrorResult (success : bool) (message : string).

(* ================================================================== *)
(** ** The platform and the monad *)

(** A child process: [shell=True] with a command line, or an argument
    vector. *)
Inductive command : Type :=
| Shell (line : string)
| Argv (args : list string).

Inductive signal : Type := SIGTERM | SIGKILL.

(** What the program did to the outside world, with the answer it got. *)
Inductive event : Type :=
| EvRun (c : command) (r : outcome (Z * string))
| EvConnect (host : string) (port : value) (timeout : float) (r : outcome Z)
| EvKill (pid : Z) (sig : signal) (r : outcome unit)
| EvSleep (seconds : Z)
| EvClock (t : float)
| EvPrint (r : response).

Definition history : Type := list event.

Record platform : Type := {
  (** [os.name == 'nt'] *)
  os_name_nt : bool;
  (** [subprocess.run]: return code and captured standard output *)
  subprocess_run : history -> command -> outcome (Z * string);
  (** a fresh TCP socket, [settimeout], then [connect_ex((host, port))] *)
  socket_connect_ex : history -> string -> value -> float -> outcome Z;
  (** [os.kill] *)
  os_kill : history -> Z -> signal -> outcome unit;
  (** [time.time] *)
  time_time : history -> float;
  (** [json.loads] *)
  json_loads : string -> outcome value;
  (** [round(x, ndigits)] *)
  round : float -> Z -> float;
  (** messages of interpreter-raised exceptions *)
  fault_text : fault -> string
}.

(** How a piece of code ends: with a value, with a raised [Exception], or
    by [sys.exit] (a [SystemExit], which [except Exception] lets through). *)
Inductive result (A : Type) : Type :=
| Return (a : A)
| Throw (e : exn)
| Exit (code : Z).
Arguments Return {A} a.
Arguments Throw {A} e.
Arguments Exit {A} code.

Definition M (A : Type) : Type := history -> result A * list event.

Definition ret {A : Type} (a : A) : M A := fun _ => (Return a, []).

Definition throw {A : Type} (e : exn) : M A := fun _ => (Throw e, []).

Definition bind {A B : Type} (m : M A) (k : A -> M B) : M B :=
  fun h =>
    match m h with
    | (Return a, ev) => let (r, ev') := k a (h ++ ev)%list in (r, (ev ++ ev')%list)
    | (Throw e, ev) => (Throw e, ev)
    | (Exit c, ev) => (Exit c, ev)
    end.

(** [try: m  except Exception as e: handler e] *)
Definition try_except {A : Type} (m : M A) (handler : exn -> M A) : M A :=
  fun h =>
    match m h with
    | (Throw e, ev) => let (r, ev') := handler e (h ++ ev)%list in (r, (ev ++ ev')%list)
    | other => other
    end.

Definition lift {A : Type} (o : outcome A) : M A :=
  fun _ => (match o with Ok a => Return a | Raise e => Throw e end, []).

(** A system call: ask the platform, record the event. *)
Definition syscall {A : Type} (ask : history -> outcome A)
    (record : outcome A -> event) : M A :=
  fun h => let r := ask h in
           (match r with Ok a => Return a | Raise e => Throw e end, [record r]).

Definition perform (e : event) : M unit := fun _ => (Return tt, [e]).

Declare Scope py_scope.
Delimit Scope py_scope with py.
Notation "x <- m ;; k" := (bind m (fun x => k))
  (at level 61, m at next level, right associativity) : py_scope.
Notation "m ;; k" := (bind m (fun _ => k))
  (at level 61, right associativity) : py_scope.
Open Scope py_scope.

Definition exn_str (e : exn) : string := match e with Exn _ text => text end.

Section Program.

Variable pf : platform.

Local Abbreviation ft := (fault_text pf).

(** *** System calls *)

Definition run (c : command) : M (Z * string) :=
  syscall (fun h => subprocess_run pf h c) (EvRun c).

(** [subprocess.run(argv, check=True)] *)
Definition run_checked (argv : list string) : M unit :=
  r <- run (Argv argv) ;;
  if fst r =? 0 then ret tt
  else throw (Exn CalledProcessError (ft (FaultExitStatus argv (fst r)))).

Definition connect_ex (host : string) (port : value) (timeout : float) : M Z :=
  syscall (fun h => socket_connect_ex pf h host port timeout)
          (EvConnect host port timeout).

Definition kill (pid : Z) (sig : signal) : M unit :=
  syscall (fun h => os_kill pf h pid sig) (EvKill pid sig).

Definition sleep (seconds : Z) : M unit := perform (EvSleep seconds).

Definition time : M float :=
  fun h => let t := time_time pf h in (Return t, [EvClock t]).

Definition print (r : response) : M unit := perform (EvPrint r).

Definition sys_exit {A : Type} (code : Z) : M A := fun _ => (Exit code, []).

(** *** Constants *)

Definition COMMON_PORTS : list Z :=
  [ 21; 22; 23; 25; 53; 80; 110; 143; 443; 993; 995;
    1433; 1521; 3306; 5432; 6379; 27017;
    3000; 3001; 4000; 5000; 5173; 8000; 8080; 8443;
    9000; 9001; 9090; 3030; 4200; 5500; 8888; 9999 ].

(** The default [timeout=0.1] of [scan_port], as the double Python reads. *)
Definition default_timeout : float := 0x1.999999999999ap-4%float.

Definition unknown : string := "unknown".

Definition newline : ascii := "010"%char.

(** *** [scan_port] *)

Definition scan_port (host : string) (port : value) (timeout : float) : M bool :=
  try_except
    (result <- connect_ex host port timeout ;;
     ret (result =? 0))
    (fun _ => ret false).

(** *** [get_process_info] *)

Definition ps_comm (pid : string) : command := Argv ["ps"; "-p"; pid; "-o"; "comm="].
Definition ps_args (pid : string) : command := Argv ["ps"; "-p"; pid; "-o"; "args="].

(** Lines 91-119: the name and command line of [pid], once a line of the
    listener table has given [pid] and perhaps a name.  The source has one
    [try] around both [ps] calls whose handler reads [process_name] as it
    stands when the exception arrives; the two nested handlers below give
    the first call's failure the name from the table and the second
    call's failure the name the first call may have assigned. *)
Definition listener_details (pid process_name : string) : M process_info :=
  if negb (os_name_nt pf) then
    try_except
      (ps_result <- run (ps_comm pid) ;;
       let process_name :=
         if fst ps_result =? 0 then PyStr.strip (snd ps_result) else process_name in
       try_except
         (ps_cmd_result <- run (ps_args pid) ;;
          let command :=
            if fst ps_cmd_result =? 0 then PyStr.strip (snd ps_cmd_result) else unknown in
          ret {| info_process_id := pid;
                 info_process_name := process_name;
                 info_process_command := command |})
         (fun _ => ret {| info_process_id := pid;
                          info_process_name := process_name;
                          info_process_command := unknown |}))
      (fun _ => ret {| info_process_id := pid;
                       info_process_name := process_name;
                       info_process_command := unknown |})
  else
    ret {| info_process_id := pid;
           info_process_name := process_name;
           info_process_command := unknown |}.

(** Lines 78-119: the loop over the lines of the listener table; it
    returns at the first line that names the port and has more than six
    columns. *)
Fixpoint listener_lines (needle : string) (lines : list string)
    : M (option process_info) :=
  match lines with
  | [] => ret None
  | line :: rest =>
      if PyStr.contains needle line then
        let parts := PyStr.split line in
        if 6 <? Z.of_nat (List.length parts) then
          let pid_info := PyStr.last_item parts in
          let '(pid, process_name) :=
            match PyStr.split_once "/" pid_info with
            | Some (pid, process_name) => (pid, process_name)
            | None => (pid_info, unknown)
            end in
          info <- listener_details pid process_name ;;
          ret (Some info)
        else listener_lines needle rest
      else listener_lines needle rest
  end.

(** Lines 122-151: the [lsof] fallback, inside its own [try]. *)
Definition lsof_lookup (port : value) : M (option process_info) :=
  lsof_result <- run (Argv ["lsof"; "-i"; ":" ++ Py.str port; "-t"]) ;;
  if (fst lsof_result =? 0) && negb (PyStr.is_empty (PyStr.strip (snd lsof_result))) then
    let pid := hd EmptyString (PyStr.split_on newline (PyStr.strip (snd lsof_result))) in
    ps_result <- run (ps_comm pid) ;;
    let process_name :=
      if fst ps_result =? 0 then PyStr.strip (snd ps_result) else unknown in
    ps_cmd_result <- run (ps_args pid) ;;
    let command :=
      if fst ps_cmd_result =? 0 then PyStr.strip (snd ps_cmd_result) else unknown in
    ret (Some {| info_process_id := pid;
                 info_process_name := process_name;
                 info_process_command := command |})
  else ret None.

Definition get_process_info (port : value) : M (option process_info) :=
  try_except
    (let cmd :=
       if os_name_nt pf then "netstat -ano | findstr :" ++ Py.str port
       else "netstat -tlnp 2>/dev/null | grep :" ++ Py.str port in
     result <- run (Shell cmd) ;;
     found <-
       (if (fst result =? 0) && negb (PyStr.is_empty (PyStr.strip (snd result))) then
          listener_lines (":" ++ Py.str port)
                         (PyStr.split_on newline (PyStr.strip (snd result)))
        else ret None) ;;
     match found with
     | Some info => ret (Some info)
     | None =>
         if negb (os_name_nt pf) then
           try_except (lsof_lookup port) (fun _ => ret None)
         else ret None
     end)
    (fun _ => ret None).

(** *** [close_port] *)

(** Lines 169-192: the body of the inner [try]. *)
Definition terminate (port : value) (pid : Z) (process_name : string)
    : M (bool * string) :=
  (if os_name_nt pf then run_checked ["taskkill"; "/PID"; PyStr.of_Z pid]
   else kill pid SIGTERM) ;;
  sleep 1 ;;
  still_open <- scan_port "127.0.0.1" port default_timeout ;;
  if negb still_open then
    ret (true, "Successfully closed port " ++ Py.str port ++ " (terminated "
               ++ process_name ++ ", PID: " ++ PyStr.of_Z pid ++ ")")
  else
    (if os_name_nt pf then run_checked ["taskkill"; "/F"; "/PID"; PyStr.of_Z pid]
     else kill pid SIGKILL) ;;
    sleep 1 ;;
    still_open <- scan_port "127.0.0.1" port default_timeout ;;
    if negb still_open then
      ret (true, "Successfully closed port " ++ Py.str port ++ " (force killed "
                 ++ process_name ++ ", PID: " ++ PyStr.of_Z pid ++ ")")
    else
      ret (false, "Failed to close port " ++ Py.str port ++ " - process may be protected").

(** Lines 194-199: what the three [except] clauses of the inner [try]
    return. *)
Definition terminate_failed (port : value) (e : exn) : bool * string :=
match e with
| Exn ProcessLookupError _ =>
    (true, "Process using port " ++ Py.str port ++ " was already terminated")
| Exn PermissionError _ =>
    (false, "Permission denied - cannot terminate process using port " ++ Py.str port)
| Exn _ text =>
    (false, "Failed to terminate process using port " ++ Py.str port ++ ": " ++ text)
end.

Definition close_port (port : value) : M (bool * string) :=
  try_except
    (process_info <- get_process_info port ;;
     match process_info with
     | None => ret (false, "No process found using port " ++ Py.str port)
     | Some info =>
         pid <- lift (Py.int ft (info_process_id info)) ;;
         let process_name := info_process_name info in
         try_except (terminate port pid process_name)
                (fun e => ret (terminate_failed port e))
     end)
    (fun e => ret (false, "Error closing port " ++ Py.str port ++ ": " ++ exn_str e)).

(** *** [scan_ports] *)

(** [[p for p in ports if port_range[0] <= p <= port_range[1]]] *)
Fixpoint ports_within (port_range : value) (ports : list Z) : M (list Z) :=
  match ports with
  | [] => ret []
  | p :: rest =>
      lo <- lift (Py.index ft port_range 0) ;;
      above <- lift (Py.le ft lo (VInt p)) ;;
      keep <- (if above then
                 hi <- lift (Py.index ft port_range 1) ;;
                 lift (Py.le ft (VInt p) hi)
               else ret false) ;;
      kept <- ports_within port_range rest ;;
      ret (if keep then p :: kept else kept)
  end.

(** Lines 213-228: the loop, with the list built so far. *)
Fixpoint scan_each (host : string) (ports_to_scan : list Z)
    (open_ports : list port_info) : M (list port_info) :=
  match ports_to_scan with
  | [] => ret open_ports
  | port :: rest =>
      is_open <- scan_port host (VInt port) default_timeout ;;
      if is_open then
        let port_info :=
          {| port := port;
             protocol := "tcp";
             process_name := unknown;
             process_id := unknown;
             process_command := unknown |} in
        process_info <- get_process_info (VInt port) ;;
        let port_info :=
          match process_info with
          | Some info => update port_info info
          | None => port_info
          end in
        scan_each host rest (open_ports ++ [port_info])%list
      else scan_each host rest open_ports
  end.

(** Lines 208-211: the ports the loop will visit. *)
Definition ports_to_scan (port_range common_ports_only : value) : M (list Z) :=
  if Py.truth common_ports_only then ports_within port_range COMMON_PORTS
  else
    lo <- lift (Py.index ft port_range 0) ;;
    hi <- lift (Py.index ft port_range 1) ;;
    stop <- lift (Py.add ft hi (VInt 1)) ;;
    lift (Py.range ft lo stop).

Definition scan_ports (host : string) (port_range common_ports_only : value)
    : M (list port_info) :=
  ports <- ports_to_scan port_range common_ports_only ;;
  scan_each host ports [].

(** *** [main] *)

(** Lines 252-253: is the range rejected? *)
Definition range_rejected (port_range : value) : M bool :=
  n <- lift (Py.len ft port_range) ;;
  if negb (n =? 2) then ret true
  else
    lo <- lift (Py.index ft port_range 0) ;;
    hi <- lift (Py.index ft port_range 1) ;;
    lift (Py.gt ft lo hi).

(** Lines 255-257: the safety limit; the list is changed in place. *)
Definition limit_range (port_range common_ports_only : value) : M value :=
  hi <- lift (Py.index ft port_range 1) ;;
  lo <- lift (Py.index ft port_range 0) ;;
  span <- lift (Py.sub ft hi lo) ;;
  wide <- lift (Py.gt ft span (VInt 10000)) ;;
  if wide && negb (Py.truth common_ports_only) then
    lo <- lift (Py.index ft port_range 0) ;;
    new_hi <- lift (Py.add ft lo (VInt 10000)) ;;
    lift (Py.setitem ft port_range 1 new_hi)
  else ret port_range.

(** Lines 263-266 *)
Definition count_scanned (port_range common_ports_only : value) : M value :=
  if Py.truth common_ports_only then
    ports <- ports_within port_range COMMON_PORTS ;;
    ret (VInt (Z.of_nat (List.length ports)))
  else
    hi <- lift (Py.index ft port_range 1) ;;
    lo <- lift (Py.index ft port_range 0) ;;
    span <- lift (Py.sub ft hi lo) ;;
    count <- lift (Py.add ft span (VInt 1)) ;;
    lift (Py.min ft count (VInt 10001)).

(** Lines 247-276: the [scan] action. *)
Definition scan_action (data : value) : M response :=
  port_range <- lift (Py.get ft data "port_range" (VList [VInt 1; VInt 65535])) ;;
  common_ports_only <- lift (Py.get ft data "common_ports_only" (VBool false)) ;;
  rejected <- range_rejected port_range ;;
  if rejected then
    throw (Exn ValueError "Invalid port_range: must be [start_port, end_port]")
  else
    port_range <- limit_range port_range common_ports_only ;;
    start_time <- time ;;
    open_ports <- scan_ports "127.0.0.1" port_range common_ports_only ;;
    end_time <- time ;;
    let scan_time := PrimFloat.sub end_time start_time in
    total_scanned <- count_scanned port_range common_ports_only ;;
    ret (ScanResult true "scan" open_ports port_range total_scanned
                    (round pf scan_time 2) common_ports_only).

(** Lines 278-290: the [close] action. *)
Definition close_action (data : value) : M response :=
  present <- lift (Py.contains ft "port_to_close" data) ;;
  if negb present then
    throw (Exn ValueError "Missing required field for close action: port_to_close")
  else
    port_to_close <- lift (Py.getitem ft data "port_to_close") ;;
    outcome <- close_port port_to_close ;;
    ret (CloseResult (fst outcome) "close" port_to_close (snd outcome)).

(** Lines 234-295: the body of the [try] in [main]. *)
Definition main_body (stdin : string) : M unit :=
  let input_data := PyStr.strip stdin in
  if PyStr.is_empty input_data then
    throw (Exn ValueError "No input data received")
  else
    data <- lift (json_loads pf input_data) ;;
    present <- lift (Py.contains ft "action" data) ;;
    if negb present then
      throw (Exn ValueError "Missing required field: action")
    else
      action <- lift (Py.getitem ft data "action") ;;
      result <-
        (if Py.eq action (VStr "scan") then scan_action data
         else if Py.eq action (VStr "close") then close_action data
         else throw (Exn ValueError ("Invalid action: " ++ Py.str action
                                     ++ ". Must be 'scan' or 'close'"))) ;;
      print result.

(** Lines 297-311: the two [except] clauses of [main]. *)
Definition main_failed (e : exn) : M unit :=
  match e with
  | Exn JSONDecodeError text =>
      print (ErrorResult false ("Invalid JSON input: " ++ text)) ;;
      sys_exit 1
  | Exn _ text =>
      print (ErrorResult false ("Error: " ++ text)) ;;
      sys_exit 1
  end.

Definition main (stdin : string) : M unit :=
  try_except (main_body stdin) main_failed.

End Program.

(* ================================================================== *)
(** ** Running the script and reading its trace *)

(** How the process ends. *)
Inductive termination : Type :=
| ExitStatus (code : Z)
| UnhandledFault (e : exn).

(** [python scan.py] with the given standard input: how the process ends
    and everything it did.  Falling off the end of [main] is status 0,
    [sys.exit(n)] is status [n]. *)
Definition run_script (pf : platform) (stdin : string) : termination * list event :=
  match main pf stdin [] with
  | (Return _, ev) => (ExitStatus 0, ev)
  | (Exit code, ev) => (ExitStatus code, ev)
  | (Throw e, ev) => (UnhandledFault e, ev)
  end.

(** What was written to standard output, one object per [print]. *)
Fixpoint stdout (ev : list event) : list response :=
  match ev with
  | [] => []
  | EvPrint r :: rest => r :: stdout rest
  | _ :: rest => stdout rest
  end.

(** The ports probed, in order, each with what the probe answered. *)
Fixpoint probes (ev : list event) : list (value * outcome Z) :=
  match ev with
  | [] => []
  | EvConnect _ p _ r :: rest => (p, r) :: probes rest
  | _ :: rest => probes rest
  end.

(** Did a probe find the port open?  ([connect_ex] returned 0.) *)
Definition answered_open (r : outcome Z) : bool :=
  match r with
  | Ok code => code =? 0
  | Raise _ => false
  end.

(* ================================================================== *)
(** ** Events by kind *)

(** An event of owner resolution: the listener table, [ps] or [lsof]. *)
Definition lookup_event (e : event) : Prop :=
  match e with
  | EvRun (Shell _) _ => True
  | EvRun (Argv (program :: _)) _ => program = "ps" \/ program = "lsof"
  | _ => False
  end.

(** A termination request of either strength: [os.kill], or [taskkill]. *)
Definition kill_call (e : event) : Prop :=
  match e with
  | EvKill _ _ _ => True
  | EvRun (Argv (program :: _)) _ => program = "taskkill"
  | _ => False
  end.

(** The graceful request: [SIGTERM], or [taskkill /PID]. *)
Definition graceful_request (pid : Z) (e : event) : Prop :=
  match e with
  | EvKill p SIGTERM _ => p = pid
  | EvRun (Argv args) _ => args = ["taskkill"; "/PID"; PyStr.of_Z pid]
  | _ => False
  end.

(** The forced kill: [SIGKILL], or [taskkill /F]. *)
Definition forced_kill (e : event) : Prop :=
  match e with
  | EvKill _ SIGKILL _ => True
  | EvRun (Argv args) _ => exists p, args = ["taskkill"; "/F"; "/PID"; p]
  | _ => False
  end.

(** The exception a system call raised, if it raised one. *)
Definition raised_by (e : event) : option exn :=
  match e with
  | EvRun _ (Raise x) => Some x
  | EvConnect _ _ _ (Raise x) => Some x
  | EvKill _ _ (Raise x) => Some x
  | _ => None
  end.

Definition class_of (e : exn) : exn_class := match e with Exn c _ => c end.

(** The forced kill of a given process. *)
Definition forced_request (pid : Z) (e : event) : Prop :=
  match e with
  | EvKill p SIGKILL _ => p = pid
  | EvRun (Argv args) _ => args = ["taskkill"; "/F"; "/PID"; PyStr.of_Z pid]
  | _ => False
  end.

(** A termination request that ended in exception [x]: the call raised it,
    or [taskkill] finished with a non-zero status and [check=True] turned
    that into a [CalledProcessError]. *)
Definition request_failed (e : event) (x : exn) : Prop :=
  raised_by e = Some x
  \/ (exists argv status out,
        e = EvRun (Argv argv) (Ok (status, out))
        /\ status <> 0 /\ class_of x = CalledProcessError).

(** A termination request that went through. *)
Definition request_sent (e : event) : Prop :=
  match e with
  | EvKill _ _ (Ok _) => True
  | EvRun _ (Ok (status, _)) => status = 0
  | _ => False
  end.

(** The re-probe of the port after a settle wait. *)
Definition reprobe (p : value) (answer : outcome Z) : event :=
  EvConnect "127.0.0.1" p default_timeout answer.

(* ================================================================== *)
(** ** The runs of the termination protocol *)

(** The four ways lines 168-199 can go for port [p], process [pid] named
    [name]: the outcome returned and the events performed. *)
Inductive protocol_run (p : value) (pid : Z) (name : string)
    : bool * string -> list event -> Prop :=
| graceful_failed g x :
    graceful_request pid g -> request_failed g x ->
    protocol_run p pid name (terminate_failed p x) [g]
| closed_gracefully g a :
    graceful_request pid g -> request_sent g -> answered_open a = false ->
    protocol_run p pid name
      (true, "Successfully closed port " ++ Py.str p ++ " (terminated "
             ++ name ++ ", PID: " ++ PyStr.of_Z pid ++ ")")
      [g; EvSleep 1; reprobe p a]
| forced_failed g a f x :
    graceful_request pid g -> request_sent g -> answered_open a = true ->
    forced_request pid f -> request_failed f x ->
    protocol_run p pid name (terminate_failed p x)
      [g; EvSleep 1; reprobe p a; f]
| forced_sent g a f a' :
    graceful_request pid g -> request_sent g -> answered_open a = true ->
    forced_request pid f -> request_sent f ->
    protocol_run p pid name
      (if answered_open a' then
         (false, "Failed to close port " ++ Py.str p ++ " - process may be protected")
       else
         (true, "Successfully closed port " ++ Py.str p ++ " (force killed "
                ++ name ++ ", PID: " ++ PyStr.of_Z pid ++ ")"))
      [g; EvSleep 1; reprobe p a; f; EvSleep 1; reprobe p a'].

(** The ways [close_port] can go: no owner, an owner whose pid is not a
    number, or the protocol after a resolution. *)
Inductive close_run (p : value) : bool * string -> list event -> Prop :=
| close_no_owner ev :
    Forall lookup_event ev ->
    close_run p (false, "No process found using port " ++ Py.str p) ev
| close_bad_pid ev text :
    Forall lookup_event ev ->
    close_run p (false, "Error closing port " ++ Py.str p ++ ": " ++ text) ev
| close_protocol ev pid name r ev' :
    Forall lookup_event ev ->
    protocol_run p pid name r ev' ->
    close_run p r (ev ++ ev')%list.

(* ================================================================== *)
(** ** What owner resolution may report *)

(** The command line reported for a process is the [unknown] placeholder
    unless [ps -o args=] succeeded for its pid during the resolution. *)
Definition command_or_placeholder (i : process_info) (ev : list event) : Prop :=
  info_process_command i = unknown
  \/ exists out, In (EvRun (ps_args (info_process_id i)) (Ok (0, out))) ev
                 /\ info_process_command i = PyStr.strip out.

(** The name reported for a process is the [unknown] placeholder unless
    [ps -o comm=] succeeded for its pid, or the last column of the line
    taken from the listener table had the form [pid/name]. *)
Definition name_or_placeholder (i : process_info) (ev : list event) : Prop :=
  info_process_name i = unknown
  \/ (exists out, In (EvRun (ps_comm (info_process_id i)) (Ok (0, out))) ev
                  /\ info_process_name i = PyStr.strip out)
  \/ (exists cmd out line,
         In (EvRun (Shell cmd) (Ok (0, out))) ev
         /\ In line (PyStr.split_on newline (PyStr.strip out))
         /\ PyStr.split_once "/" (PyStr.last_item (PyStr.split line))
            = Some (info_process_id i, info_process_name i)).

(** The entry [scan_ports] appends for an open port, given what owner
    resolution returned for it. *)
Definition entry_for (p : Z) (found : option process_info) : port_info :=
  let blank := {| port := p; protocol := "tcp"; process_name := unknown;
                  process_id := unknown; process_command := unknown |} in
  match found with
  | Some info => update blank info
  | None => blank
  end.

(* ================================================================== *)
(** ** Requests *)

(** [data.get('port_range', [1, 65535])] on the request object. *)
Definition requested_range (d : list (string * value)) : value :=
  match Py.lookup "port_range" d with
  | Some v => v
  | None => VList [VInt 1; VInt 65535]
  end.

(** [data.get('common_ports_only', False)] on the request object. *)
Definition requested_common (d : list (string * value)) : value :=
  match Py.lookup "common_ports_only" d with
  | Some v => v
  | None => VBool false
  end.

(** Is port [p] between [lo] and [hi], ends included? *)
Definition within (lo hi p : Z) : bool := (lo <=? p) && (p <=? hi).

(** Does the safety limit of lines 255-257 apply to the range from [a] to
    [b]? *)
Definition limit_applies (a b : Z) (common : value) : bool :=
  (b - a >? 10000) && negb (Py.truth common).

(** The end of the range after the safety limit. *)
Definition limited_end (a b : Z) (common : value) : Z :=
  if limit_applies a b common then a + 10000 else b.

(** The range list after the safety limit: its second item is overwritten
    when the limit applies. *)
Definition limited_range (x y : value) (a b : Z) (common : value) : value :=
  if limit_applies a b common then VList [x; VInt (a + 10000)] else VList [x; y].

(** The ports the loop visits for a range from [a] to [b']. *)
Definition planned_ports (a b' : Z) (common : value) : list Z :=
  if Py.truth common then filter (within a b') COMMON_PORTS
  else Py.interval a (b' + 1).

(** The [total_scanned] reported for a range from [a] to [b']. *)
Definition counted (a b' : Z) (common : value) : value :=
  if Py.truth common then VInt (Z.of_nat (List.length (filter (within a b') COMMON_PORTS)))
  else VInt (Z.min (b' - a + 1) 10001).

(** The input is not blank and [json.loads] turns it into [data]. *)
Definition parsed (pf : platform) (stdin : string) (data : value) : Prop :=
  PyStr.is_empty (PyStr.strip stdin) = false
  /\ json_loads pf (PyStr.strip stdin) = Ok data.

(** A two-element list of numbers, the first not above the second.  (JSON
    [true] and [false] are the numbers 1 and 0 to Python.) *)
Definition ascending_pair (v : value) : Prop :=
  exists x y a b,
    v = VList [x; y] /\ Py.as_number x = Some a /\ Py.as_number y = Some b /\ a <= b.

(** The invalid requests of the specification. *)
Inductive invalid_request (pf : platform) (stdin : string) : Prop :=
| malformed_json text :
    PyStr.is_empty (PyStr.strip stdin) = false ->
    json_loads pf (PyStr.strip stdin) = Raise (Exn JSONDecodeError text) ->
    invalid_request pf stdin
| missing_action d :
    parsed pf stdin (VDict d) ->
    Py.lookup "action" d = None ->
    invalid_request pf stdin
| bad_port_range d :
    parsed pf stdin (VDict d) ->
    Py.lookup "action" d = Some (VStr "scan") ->
    ~ ascending_pair (requested_range d) ->
    invalid_request pf stdin
| close_without_port d :
    parsed pf stdin (VDict d) ->
    Py.lookup "action" d = Some (VStr "close") ->
    Py.lookup "port_to_close" d = None ->
    invalid_request pf stdin
| unknown_action d action :
    parsed pf stdin (VDict d) ->
    Py.lookup "action" d = Some action ->
    action <> VStr "scan" -> action <> VStr "close" ->
    invalid_request pf stdin.

(** The [success] field of a response. *)
Definition response_success (r : response) : bool :=
  match r with
  | ScanResult success _ _ _ _ _ _ => success
  | CloseResult success _ _ _ => success
  | ErrorResult success _ => success
  end.

(** The failure shape: only [success] and [message]. *)
Definition failure_shape (r : response) : Prop :=
  exists message, r = ErrorResult false message.

(** The two shapes a completed action prints: the scan result, always
    with [success] true, and the close result. *)
Definition result_shape (r : response) : Prop :=
  match r with
  | ScanResult success action _ _ _ _ _ => success = true /\ action = "scan"
  | CloseResult _ action _ _ => action = "close"
  | ErrorResult _ _ => False
  end.

(** The message [main] reports for an exception that reached it. *)
Definition error_message (e : exn) : string :=
  match e with
  | Exn JSONDecodeError text => "Invalid JSON input: " ++ text
  | Exn _ text => "Error: " ++ text
  end.

(** The ports whose probe found them open, in probe order. *)
Definition found_open (ev : list event) : list value :=
  map fst (filter (fun pa => answered_open (snd pa)) (probes ev)).

(** Entry [r] of [open_ports] was appended during the events [ev] that
    followed history [h]: its port was probed and found open, owner
    resolution then ran (events [during]) and returned [found], and the
    entry is the blank entry updated with what was found. *)
Definition entry_resolved (pf : platform) (host : string) (h : history)
    (ev : list event) (r : port_info) : Prop :=
  exists before a during after found,
    ev = (before ++ EvConnect host (VInt (port r)) default_timeout a
                 :: during ++ after)%list
    /\ answered_open a = true
    /\ get_process_info pf (VInt (port r))
         (h ++ before ++ [EvConnect host (VInt (port r)) default_timeout a])%list
       = (Return found, during)
    /\ r = entry_for (port r) found
    /\ (forall i, found = Some i ->
          command_or_placeholder i during /\ name_or_placeholder i during).

(** A computation that prints nothing and does not exit the process, and
    whose value, when it returns one, satisfies [P]. *)
Definition behaves {A : Type} (P : A -> Prop) (m : M A) : Prop :=
  forall h,
    match m h with
    | (Return a, ev) => P a /\ stdout ev = []
    | (Throw _, ev) => stdout ev = []
    | (Exit _, _) => False
    end.

(* ================================================================== *)
(** ** Example platforms and requests *)

(** [s] between double quotes. *)
Definition quoted (s : string) : string :=
  String PyStr.dquote (s ++ String PyStr.dquote EmptyString).

(** A [json.loads] that knows the one request text of an example and
    rejects every other text. *)
Definition loads_only (text : string) (data : value) (s : string) : outcome value :=
  if String.eqb s text then Ok data
  else Raise (Exn JSONDecodeError "Expecting value: line 1 column 1 (char 0)").

(** A Unix platform with a still clock, given its JSON reader, child
    processes, sockets and signals. *)
Definition unix_platform
    (loads : string -> outcome value)
    (children : history -> command -> outcome (Z * string))
    (sockets : history -> string -> value -> float -> outcome Z)
    (signals : history -> Z -> signal -> outcome unit) : platform :=
  {| os_name_nt := false;
     subprocess_run := children;
     socket_connect_ex := sockets;
     os_kill := signals;
     time_time := fun _ => 0%float;
     json_loads := loads;
     round := fun x _ => x;
     fault_text := fun _ => "fault" |}.

(** No tool finds anything: every child ends with status 1 and prints
    nothing. *)
Definition no_tool_output (h : history) (c : command) : outcome (Z * string) :=
  Ok (1, "").

(** The listener table shows process 4242, [node], on port 8080; [ps] and
    [lsof] find nothing. *)
Definition node_on_8080 (h : history) (c : command) : outcome (Z * string) :=
  match c with
  | Shell _ =>
      Ok (0, "tcp        0      0 0.0.0.0:8080            0.0.0.0:*               LISTEN      4242/node"
             ++ String newline EmptyString)
  | Argv _ => Ok (1, "")
  end.

(** Every connection is refused ([ECONNREFUSED]). *)
Definition all_refused (h : history) (host : string) (p : value) (timeout : float)
    : outcome Z := Ok 111.

(** Only port 8080 accepts connections. *)
Definition only_8080_open (h : history) (host : string) (p : value) (timeout : float)
    : outcome Z :=
  match p with
  | VInt 8080 => Ok 0
  | _ => Ok 111
  end.

Definition signal_delivered (h : history) (pid : Z) (sig : signal) : outcome unit :=
  Ok tt.

(** The process is gone by the time it is signalled. *)
Definition no_such_process (h : history) (pid : Z) (sig : signal) : outcome unit :=
  Raise (Exn ProcessLookupError "[Errno 3] No such process").

(** The process belongs to someone else. *)
Definition not_permitted (h : history) (pid : Z) (sig : signal) : outcome unit :=
  Raise (Exn PermissionError "[Errno 1] Operation not permitted").

(** The request [{"action": "scan"}]. *)
Definition scan_all_text : string := "{" ++ quoted "action" ++ ": " ++ quoted "scan" ++ "}".
Definition scan_all_data : list (string * value) := [("action", VStr "scan")].

(** The request for the range from 8079 to 8081. *)
Definition scan_three_text : string :=
  "{" ++ quoted "action" ++ ": " ++ quoted "scan" ++ ", "
      ++ quoted "port_range" ++ ": [8079, 8081], "
      ++ quoted "common_ports_only" ++ ": false}".
Definition scan_three_data : list (string * value) :=
  [("action", VStr "scan"); ("port_range", VList [VInt 8079; VInt 8081]);
   ("common_ports_only", VBool false)].

(** The request for the common ports of the whole port space. *)
Definition scan_common_text : string :=
  "{" ++ quoted "action" ++ ": " ++ quoted "scan" ++ ", "
      ++ quoted "port_range" ++ ": [1, 65535], "
      ++ quoted "common_ports_only" ++ ": true}".
Definition scan_common_data : list (string * value) :=
  [("action", VStr "scan"); ("port_range", VList [VInt 1; VInt 65535]);
   ("common_ports_only", VBool true)].

(** A request with a descending range. *)
Definition scan_descending_text : string :=
  "{" ++ quoted "action" ++ ": " ++ quoted "scan" ++ ", "
      ++ quoted "port_range" ++ ": [5, 1]}".
Definition scan_descending_data : list (string * value) :=
  [("action", VStr "scan"); ("port_range", VList [VInt 5; VInt 1])].

(** The request to close port 65534. *)
Definition close_65534_text : string :=
  "{" ++ quoted "action" ++ ": " ++ quoted "close" ++ ", "
      ++ quoted "port_to_close" ++ ": 65534}".
Definition close_65534_data : list (string * value) :=
  [("action", VStr "close"); ("port_to_close", VInt 65534)].

(** The request to close port 8080. *)
Definition close_8080_text : string :=
  "{" ++ quoted "action" ++ ": " ++ quoted "close" ++ ", "
      ++ quoted "port_to_close" ++ ": 8080}".
Definition close_8080_data : list (string * value) :=
  [("action", VStr "close"); ("port_to_close", VInt 8080)].

(** A machine on which nothing listens. *)
Definition idle_machine (text : string) (data : list (string * value)) : platform :=
  unix_platform (loads_only text (VDict data)) no_tool_output all_refused signal_delivered.

(** A machine with one listener, on port 8080, whose owner no tool can
    name. *)
Definition machine_with_listener (text : string) (data : list (string * value))
    : platform :=
  unix_platform (loads_only text (VDict data)) no_tool_output only_8080_open
                signal_delivered.

(** A machine whose listener on 8080 exits at the first signal. *)
Definition machine_with_obedient_node : platform :=
  unix_platform (loads_only close_8080_text (VDict close_8080_data))
                node_on_8080 all_refused signal_delivered.

(** A machine whose listener on 8080 has exited before it is signalled. *)
Definition machine_with_vanished_node : platform :=
  unix_platform (loads_only close_8080_text (VDict close_8080_data))
                node_on_8080 all_refused no_such_process.

(** A machine whose listener on 8080 may not be signalled. *)
Definition machine_with_foreign_node : platform :=
  unix_platform (loads_only close_8080_text (VDict close_8080_data))
                node_on_8080 only_8080_open not_permitted.

(* ================================================================== *)
(** ** Further notions: blank input, kinds of events, the listener table *)

(** Is the text empty or made of whitespace only? *)
Fixpoint blank (s : string) : bool :=
  match s with
  | EmptyString => true
  | String c r => PyStr.is_space c && blank r
  end.

(** The prefix [main] puts before [str(e)], by the class of [e]. *)
Definition error_prefix (c : exn_class) : string :=
  match c with
  | JSONDecodeError => "Invalid JSON input: "
  | _ => "Error: "
  end.

(** The events a scan may perform: reading the clock, probing a port of
    the loopback address with the default timeout, running a tool of owner
    resolution, printing. *)
Definition scan_event (e : event) : Prop :=
  match e with
  | EvClock _ => True
  | EvConnect host _ timeout _ => host = "127.0.0.1" /\ timeout = default_timeout
  | EvRun _ _ => lookup_event e
  | EvPrint _ => True
  | _ => False
  end.

(** A probe of [host] with the default timeout, or a tool of owner
    resolution. *)
Definition probe_or_lookup (host : string) (e : event) : Prop :=
  lookup_event e
  \/ exists p answer, e = EvConnect host (VInt p) default_timeout answer.

(** Every event the computation performs is of kind [K], however it
    ends. *)
Definition emits {A : Type} (K : event -> Prop) (m : M A) : Prop :=
  forall h, Forall K (snd (m h)).

(** The seconds a run spent in [time.sleep]. *)
Fixpoint slept (ev : list event) : Z :=
  match ev with
  | [] => 0
  | EvSleep seconds :: rest => seconds + slept rest
  | _ :: rest => slept rest
  end.

(** Is the event a termination request ([os.kill] or [taskkill])? *)
Definition is_signal (e : event) : bool :=
  match e with
  | EvKill _ _ _ => true
  | EvRun (Argv (program :: _)) _ => String.eqb program "taskkill"
  | _ => false
  end.

(** A line of the listener table that [get_process_info] accepts for the
    port: it contains the needle and has more than six columns. *)
Definition accepted_line (needle line : string) : bool :=
  PyStr.contains needle line && (6 <? Z.of_nat (List.length (PyStr.split line))).

(** The pid [get_process_info] reads off the last column of a line: the
    text before the first slash, or the whole column. *)
Definition pid_column (line : string) : string :=
  match PyStr.split_once "/" (PyStr.last_item (PyStr.split line)) with
  | Some (pid, _) => pid
  | None => PyStr.last_item (PyStr.split line)
  end.

(** The listener table as [netstat -tlnp] prints it for a user who does
    not own the listening process: the last column is a dash. *)
Definition foreign_listener_on_8080 (h : history) (c : command) : outcome (Z * string) :=
  match c with
  | Shell _ =>
      Ok (0, "tcp        0      0 0.0.0.0:8080            0.0.0.0:*               LISTEN      -"
             ++ String newline EmptyString)
  | Argv _ => Ok (1, "")
  end.

(** A machine whose listener on 8080 belongs to another user. *)
Definition machine_with_unnamed_owner : platform :=
  unix_platform (loads_only close_8080_text (VDict close_8080_data))
                foreign_listener_on_8080 only_8080_open signal_delivered.

(** The listener table as [netstat -ano] prints it: five columns. *)
Definition windows_listener_on_8080 (h : history) (c : command) : outcome (Z * string) :=
  match c with
  | Shell _ =>
      Ok (0, "  TCP    0.0.0.0:8080           0.0.0.0:0              LISTENING       4242"
             ++ String newline EmptyString)
  | Argv _ => Ok (1, "")
  end.

(** A Windows machine with a listener on 8080. *)
Definition windows_machine : platform :=
  {| os_name_nt := true;
     subprocess_run := windows_listener_on_8080;
     socket_connect_ex := only_8080_open;
     os_kill := signal_delivered;
     time_time := fun _ => 0%float;
     json_loads := loads_only close_8080_text (VDict close_8080_data);
     round := fun x _ => x;
     fault_text := fun _ => "fault" |}.

(** Lines 69-72: the command that prints the listener table for a port. *)
Definition listener_table (pf : platform) (port : value) : command :=
  Shell (if os_name_nt pf then "netstat -ano | findstr :" ++ Py.str port
         else "netstat -tlnp 2>/dev/null | grep :" ++ Py.str port).

(* ================================================================== *)
(** ** Laws of the monad *)

Unset Implicit Arguments.

Section MonadLaws.

Context {A B : Type}.

Lemma bind_ret (a : A) (k : A -> M B) (h : history) :
  bind (ret a) k h = k a h.
Proof.
  unfold bind, ret. rewrite app_nil_r. now destruct (k a h).
Qed.

Lemma bind_lift_ok (a : A) (k : A -> M B) (h : history) :
  bind (lift (Ok a)) k h = k a h.
Proof.
  unfold bind, lift. rewrite app_nil_r. now destruct (k a h).
Qed.

Lemma bind_lift_raise (e : exn) (k : A -> M B) (h : history) :
  bind (lift (Raise e)) k h = (Throw e, []).
Proof. reflexivity. Qed.

Lemma bind_throw (e : exn) (k : A -> M B) (h : history) :
  bind (throw e) k h = (Throw e, []).
Proof. reflexivity. Qed.

Lemma bind_return (m : M A) (k : A -> M B) (h : history) a ev r ev' :
  m h = (Return a, ev) ->
  k a (h ++ ev)%list = (r, ev') ->
  bind m k h = (r, (ev ++ ev')%list).
Proof. intros Hm Hk. unfold bind. now rewrite Hm, Hk. Qed.

Lemma bind_stop_throw (m : M A) (k : A -> M B) (h : history) e ev :
  m h = (Throw e, ev) -> bind m k h = (Throw e, ev).
Proof. intros Hm. unfold bind. now rewrite Hm. Qed.

Lemma bind_stop_exit (m : M A) (k : A -> M B) (h : history) c ev :
  m h = (Exit c, ev) -> bind m k h = (Exit c, ev).
Proof. intros Hm. unfold bind. now rewrite Hm. Qed.

Lemma try_return (m : M A) (handler : exn -> M A) (h : history) a ev :
  m h = (Return a, ev) -> try_except m handler h = (Return a, ev).
Proof. intros Hm. unfold try_except. now rewrite Hm. Qed.

Lemma try_caught (m : M A) (handler : exn -> M A) (h : history) e ev r ev' :
  m h = (Throw e, ev) ->
  handler e (h ++ ev)%list = (r, ev') ->
  try_except m handler h = (r, (ev ++ ev')%list).
Proof. intros Hm Hh. unfold try_except. now rewrite Hm, Hh. Qed.

Lemma bind_return_quiet (m : M A) (k : A -> M B) (h : history) a ev r :
  m h = (Return a, ev) ->
  k a (h ++ ev)%list = (r, []) ->
  bind m k h = (r, ev).
Proof. intros Hm Hk. unfold bind. now rewrite Hm, Hk, app_nil_r. Qed.

Lemma try_caught_quiet (m : M A) (handler : exn -> M A) (h : history) e ev r :
  m h = (Throw e, ev) ->
  handler e (h ++ ev)%list = (r, []) ->
  try_except m handler h = (r, ev).
Proof. intros Hm Hh. unfold try_except. now rewrite Hm, Hh, app_nil_r. Qed.

Lemma bind_quiet (m : M A) (k : A -> M B) (h : history) a :
  m h = (Return a, []) -> bind m k h = k a h.
Proof.
  intros Hm. unfold bind. rewrite Hm, app_nil_r. now destruct (k a h).
Qed.

End MonadLaws.

(* ================================================================== *)
(** ** The port probe *)

Section Probe.

Variable pf : platform.

(** What [scan_port] does, in one equation. *)
Lemma scan_port_run host p timeout h :
  scan_port pf host p timeout h =
  (Return (answered_open (socket_connect_ex pf h host p timeout)),
   [EvConnect host p timeout (socket_connect_ex pf h host p timeout)]).
Proof.
  unfold scan_port, try_except, bind, connect_ex, syscall, ret.
  destruct (socket_connect_ex pf h host p timeout); reflexivity.
Qed.

End Probe.

(** C7.  For every host, port and timeout, and whatever happened before,
    the probe returns a boolean and never raises: it makes exactly one
    connection attempt, answers [true] exactly when [connect_ex] reported
    0 (the connection was established within the timeout), and answers
    [false] for every other code and for every exception the socket layer
    raises. *)
Theorem scan_port_total_boolean :
  forall (pf : platform) (host : string) (p : value) (timeout : float) (h : history),
    let answer := socket_connect_ex pf h host p timeout in
    exists b : bool,
      scan_port pf host p timeout h = (Return b, [EvConnect host p timeout answer])
      /\ (b = true <-> answer = Ok 0)
      /\ (forall e, answer = Raise e -> b = false)
      /\ (forall code, answer = Ok code -> code <> 0 -> b = false).
Proof.
  intros pf host p timeout h answer.
  exists (answered_open answer). split; [apply scan_port_run|].
  subst answer. destruct (socket_connect_ex pf h host p timeout) as [code|e]; cbn.
  - repeat split.
    + intros Hb. apply Z.eqb_eq in Hb. now subst.
    + intros Hc. injection Hc as ->. reflexivity.
    + discriminate.
    + intros c Hc Hn. injection Hc as ->. now apply Z.eqb_neq.
  - repeat split; try discriminate; auto.
Qed.

(* ================================================================== *)
(** ** Owner resolution *)

Ltac reduce := cbv beta iota zeta; cbn [fst snd app].
Ltac lookups := repeat (constructor; [cbn; auto|]); try constructor.
Ltac unmonad := unfold try_except, bind, run, syscall, ret, throw, lift, perform.

Section Resolver.

Variable pf : platform.

Lemma run_eq c h :
  run pf c h =
  (match subprocess_run pf h c with Ok a => Return a | Raise e => Throw e end,
   [EvRun c (subprocess_run pf h c)]).
Proof. reflexivity. Qed.

Lemma listener_details_run pid name h :
  exists i ev,
    listener_details pf pid name h = (Return i, ev)
    /\ Forall lookup_event ev
    /\ info_process_id i = pid
    /\ command_or_placeholder i ev
    /\ (info_process_name i = name
        \/ exists out, In (EvRun (ps_comm pid) (Ok (0, out))) ev
                       /\ info_process_name i = PyStr.strip out).
Proof.
  unfold listener_details, command_or_placeholder.
  destruct (os_name_nt pf); cbn [negb]; unmonad.
  - eexists _, _. repeat split; eauto.
  - destruct (subprocess_run pf h (ps_comm pid)) as [[rc out]|e] eqn:E1; reduce.
    + destruct (subprocess_run pf _ (ps_args pid)) as [[rc2 out2]|e2] eqn:E2; reduce.
      * eexists _, _. split; [reflexivity|]. cbn [info_process_id info_process_name info_process_command].
        split; [lookups|]. split; [reflexivity|]. split.
        -- destruct (rc2 =? 0) eqn:R2; [|now left].
           apply Z.eqb_eq in R2; subst rc2. right. exists out2. cbn. auto.
        -- destruct (rc =? 0) eqn:R1; [|now left].
           apply Z.eqb_eq in R1; subst rc. right. exists out. cbn. auto.
      * eexists _, _. split; [reflexivity|]. cbn [info_process_id info_process_name info_process_command].
        split; [lookups|]. split; [reflexivity|]. split; [now left|].
        destruct (rc =? 0) eqn:R1; [|now left].
        apply Z.eqb_eq in R1; subst rc. right. exists out. cbn. auto.
    + eexists _, _. split; [reflexivity|]. cbn [info_process_id info_process_name info_process_command].
      split; [lookups|]. repeat split; auto.
Qed.

Lemma command_or_placeholder_more i ev before after :
  command_or_placeholder i ev ->
  command_or_placeholder i (before ++ ev ++ after)%list.
Proof.
  intros [H|(out & Hin & H)]; [now left|right].
  exists out. split; [|assumption]. apply in_or_app. right. apply in_or_app. now left.
Qed.

Lemma listener_lines_run needle lines h :
  exists o ev,
    listener_lines pf needle lines h = (Return o, ev)
    /\ Forall lookup_event ev
    /\ forall i, o = Some i ->
         command_or_placeholder i ev
         /\ (info_process_name i = unknown
             \/ (exists out, In (EvRun (ps_comm (info_process_id i)) (Ok (0, out))) ev
                             /\ info_process_name i = PyStr.strip out)
             \/ (exists line, In line lines
                              /\ PyStr.split_once "/" (PyStr.last_item (PyStr.split line))
                                 = Some (info_process_id i, info_process_name i))).
Proof.
  induction lines as [|line rest IH]; cbn [listener_lines].
  - exists None, []. repeat split; [constructor | discriminate | discriminate].
  - assert (Hrest :
      exists o ev,
        listener_lines pf needle rest h = (Return o, ev)
        /\ Forall lookup_event ev
        /\ forall i, o = Some i ->
             command_or_placeholder i ev
             /\ (info_process_name i = unknown
                 \/ (exists out, In (EvRun (ps_comm (info_process_id i)) (Ok (0, out))) ev
                                 /\ info_process_name i = PyStr.strip out)
                 \/ (exists l, In l (line :: rest)
                               /\ PyStr.split_once "/" (PyStr.last_item (PyStr.split l))
                                  = Some (info_process_id i, info_process_name i)))).
    { destruct IH as (o & ev & E & F & P). exists o, ev. repeat split; auto.
      - now apply P.
      - destruct (P i H) as [_ [Hn|[Hn|(l & Hl & Hs)]]]; auto.
        right; right. exists l. split; [now right|assumption]. }
    destruct (PyStr.contains needle line); [|exact Hrest].
    destruct (6 <? Z.of_nat (List.length (PyStr.split line))); [|exact Hrest].
    clear Hrest IH.
    destruct (PyStr.split_once "/" (PyStr.last_item (PyStr.split line)))
      as [[pid name]|] eqn:Esplit.
    + destruct (listener_details_run pid name h) as (i & ev & E & F & Hid & Hc & Hn).
      exists (Some i), ev. unfold bind. rewrite E. unfold ret. rewrite app_nil_r.
      split; [reflexivity|]. split; [assumption|].
      intros i' Hi. injection Hi as <-. split; [assumption|].
      destruct Hn as [Hn|Hn].
      * right; right. exists line. split; [now left|]. now rewrite Hid, Hn.
      * right; left. now rewrite Hid.
    + destruct (listener_details_run (PyStr.last_item (PyStr.split line)) unknown h)
        as (i & ev & E & F & Hid & Hc & Hn).
      exists (Some i), ev. unfold bind. rewrite E. unfold ret. rewrite app_nil_r.
      split; [reflexivity|]. split; [assumption|].
      intros i' Hi. injection Hi as <-. split; [assumption|].
      destruct Hn as [Hn|Hn]; [now left|].
      right; left. now rewrite Hid.
Qed.

Lemma lsof_lookup_run p h :
  exists o ev,
    try_except (lsof_lookup pf p) (fun _ => ret None) h = (Return o, ev)
    /\ Forall lookup_event ev
    /\ forall i, o = Some i ->
         command_or_placeholder i ev
         /\ (info_process_name i = unknown
             \/ exists out, In (EvRun (ps_comm (info_process_id i)) (Ok (0, out))) ev
                            /\ info_process_name i = PyStr.strip out).
Proof.
  unfold lsof_lookup, command_or_placeholder. unmonad.
  destruct (subprocess_run pf h _) as [[rc out]|e] eqn:E0; reduce.
  2:{ exists None, [EvRun (Argv ["lsof"; "-i"; ":" ++ Py.str p; "-t"]) (Raise e)].
      repeat split; try discriminate. lookups. }
  destruct ((rc =? 0) && negb (PyStr.is_empty (PyStr.strip out))); reduce.
  2:{ eexists None, _. split; [reflexivity|]. repeat split; try discriminate.
      lookups. }
  set (pid := hd EmptyString (PyStr.split_on newline (PyStr.strip out))).
  destruct (subprocess_run pf _ (ps_comm pid)) as [[rc1 out1]|e1] eqn:E1; reduce.
  2:{ eexists None, _. split; [reflexivity|]. repeat split; try discriminate.
      lookups. }
  destruct (subprocess_run pf _ (ps_args pid)) as [[rc2 out2]|e2] eqn:E2; reduce.
  2:{ eexists None, _. split; [reflexivity|]. repeat split; try discriminate.
      lookups. }
  eexists (Some _), _. split; [reflexivity|]. split; [lookups|].
  intros i Hi. injection Hi as <-.
  cbn [info_process_id info_process_name info_process_command]. split.
  - destruct (rc2 =? 0) eqn:R; [|now left].
    apply Z.eqb_eq in R; subst rc2. right. exists out2. cbn. auto.
  - destruct (rc1 =? 0) eqn:R; [|now left].
    apply Z.eqb_eq in R; subst rc1. right. exists out1. cbn. auto.
Qed.

Lemma name_or_placeholder_more i ev before after :
  name_or_placeholder i ev ->
  name_or_placeholder i (before ++ ev ++ after)%list.
Proof.
  assert (Hin : forall e, In e ev -> In e (before ++ ev ++ after)%list).
  { intros e He. apply in_or_app. right. apply in_or_app. now left. }
  intros [H|[(out & Hi & H)|(cmd & out & line & Hi & H)]].
  - now left.
  - right; left. exists out. auto.
  - right; right. exists cmd, out, line. split; [auto|assumption].
Qed.

Lemma get_process_info_run p h :
  exists o ev,
    get_process_info pf p h = (Return o, ev)
    /\ Forall lookup_event ev
    /\ forall i, o = Some i -> command_or_placeholder i ev /\ name_or_placeholder i ev.
Proof.
  unfold get_process_info.
  set (cmd := if os_name_nt pf then _ else _).
  destruct (subprocess_run pf h (Shell cmd)) as [[rc out]|e] eqn:E0.
  2:{ exists None, [EvRun (Shell cmd) (Raise e)]. split.
      - replace [EvRun (Shell cmd) (Raise e)]
          with ([EvRun (Shell cmd) (Raise e)] ++ [])%list by reflexivity.
        eapply try_caught; [|reflexivity].
        apply bind_stop_throw. now rewrite run_eq, E0.
      - split; [lookups|discriminate]. }
  set (first := EvRun (Shell cmd) (Ok (rc, out))).
  assert (Hfound : exists o1 ev1,
    (if (fst (rc, out) =? 0) && negb (PyStr.is_empty (PyStr.strip (snd (rc, out))))
     then listener_lines pf (":" ++ Py.str p)
            (PyStr.split_on newline (PyStr.strip (snd (rc, out))))
     else ret None) (h ++ [first])%list = (Return o1, ev1)
    /\ Forall lookup_event ev1
    /\ forall i, o1 = Some i ->
         command_or_placeholder i ev1
         /\ name_or_placeholder i (first :: ev1)).
  { cbn [fst snd]. destruct (rc =? 0) eqn:R; cbn [andb].
    2:{ exists None, []. repeat split; try discriminate. constructor. }
    apply Z.eqb_eq in R; subst rc.
    destruct (negb (PyStr.is_empty (PyStr.strip out))).
    2:{ exists None, []. repeat split; try discriminate. constructor. }
    destruct (listener_lines_run (":" ++ Py.str p)
                (PyStr.split_on newline (PyStr.strip out)) (h ++ [first])%list)
      as (o1 & ev1 & E1 & F1 & P1).
    exists o1, ev1. split; [assumption|]. split; [assumption|].
    intros i Hi. destruct (P1 i Hi) as [Hc [Hn|[(o & Ho & Hn)|(line & Hl & Hs)]]].
    - split; [assumption|now left].
    - split; [assumption|]. right; left. exists o. split; [now right|assumption].
    - split; [assumption|]. right; right. exists cmd, out, line.
      split; [now left|]. split; assumption. }
  destruct Hfound as (o1 & ev1 & E1 & F1 & P1).
  assert (Hfirst : lookup_event first) by exact I.
  destruct o1 as [i1|].
  - exists (Some i1), (first :: ev1). split.
    + apply try_return.
      replace (first :: ev1) with ([first] ++ (ev1 ++ []))%list
        by (cbn; now rewrite app_nil_r).
      eapply bind_return; [now rewrite run_eq, E0|].
      eapply bind_return; [exact E1|reflexivity].
    + split; [now constructor|].
      intros i Hi. injection Hi as <-. destruct (P1 i1 eq_refl) as [Hc Hn].
      split; [|assumption].
      apply command_or_placeholder_more with (before := [first]) (after := []) in Hc.
      now rewrite app_nil_r in Hc.
  - destruct (os_name_nt pf) eqn:Ent.
    + exists None, (first :: ev1). split.
      * apply try_return.
        replace (first :: ev1) with ([first] ++ (ev1 ++ []))%list
          by (cbn; now rewrite app_nil_r).
        eapply bind_return; [now rewrite run_eq, E0|].
        eapply bind_return; [exact E1|]. reflexivity.
      * split; [now constructor|discriminate].
    + destruct (lsof_lookup_run p ((h ++ [first]) ++ ev1)%list)
        as (o2 & ev2 & E2 & F2 & P2).
      exists o2, (first :: ev1 ++ ev2)%list. split.
      * apply try_return.
        change (first :: ev1 ++ ev2)%list with ([first] ++ (ev1 ++ ev2))%list.
        eapply bind_return; [now rewrite run_eq, E0|].
        eapply bind_return; [exact E1|]. exact E2.
      * split.
        { constructor; [assumption|]. apply Forall_app. now split. }
        intros i Hi. destruct (P2 i Hi) as [Hc Hn]. split.
        -- apply command_or_placeholder_more with (before := first :: ev1) (after := []) in Hc.
           now rewrite app_nil_r in Hc.
        -- assert (Hn' : name_or_placeholder i ev2).
           { destruct Hn as [Hn|Hn]; [now left|right; now left]. }
           apply name_or_placeholder_more with (before := first :: ev1) (after := []) in Hn'.
           now rewrite app_nil_r in Hn'.
Qed.

End Resolver.

(* ================================================================== *)
(** ** The termination protocol *)

Section Closer.
Variable pf : platform.

Lemma graceful_step pid h :
  let m := if os_name_nt pf then run_checked pf ["taskkill"; "/PID"; PyStr.of_Z pid]
           else kill pf pid SIGTERM in
  exists g, graceful_request pid g
    /\ ((m h = (Return tt, [g]) /\ request_sent g)
        \/ exists x, m h = (Throw x, [g]) /\ request_failed g x).
Proof.
  cbv zeta. destruct (os_name_nt pf).
  - unfold run_checked. unmonad.
    destruct (subprocess_run pf h _) as [[rc out]|x] eqn:E; reduce.
    + destruct (rc =? 0) eqn:R.
      * eexists. split; [|left; split; [reflexivity|]]; cbn; auto.
        now apply Z.eqb_eq.
      * eexists. split; [|right; eexists; split; [reflexivity|]]; cbn; auto.
        right. exists ["taskkill"; "/PID"; PyStr.of_Z pid], rc, out.
        repeat split. now apply Z.eqb_neq.
    + eexists. split; [|right; eexists; split; [reflexivity|]]; cbn; auto.
      now left.
  - unfold kill, syscall.
    destruct (os_kill pf h pid SIGTERM) as [[]|x] eqn:E.
    + eexists. split; [|left; split; [reflexivity|]]; cbn; auto.
    + eexists. split; [|right; eexists; split; [reflexivity|]]; cbn; auto.
      now left.
Qed.

Lemma forced_step pid h :
  let m := if os_name_nt pf then run_checked pf ["taskkill"; "/F"; "/PID"; PyStr.of_Z pid]
           else kill pf pid SIGKILL in
  exists f, forced_request pid f
    /\ ((m h = (Return tt, [f]) /\ request_sent f)
        \/ exists x, m h = (Throw x, [f]) /\ request_failed f x).
Proof.
  cbv zeta. destruct (os_name_nt pf).
  - unfold run_checked. unmonad.
    destruct (subprocess_run pf h _) as [[rc out]|x] eqn:E; reduce.
    + destruct (rc =? 0) eqn:R.
      * eexists. split; [|left; split; [reflexivity|]]; cbn; auto.
        now apply Z.eqb_eq.
      * eexists. split; [|right; eexists; split; [reflexivity|]]; cbn; auto.
        right. exists ["taskkill"; "/F"; "/PID"; PyStr.of_Z pid], rc, out.
        repeat split. now apply Z.eqb_neq.
    + eexists. split; [|right; eexists; split; [reflexivity|]]; cbn; auto.
      now left.
  - unfold kill, syscall.
    destruct (os_kill pf h pid SIGKILL) as [[]|x] eqn:E.
    + eexists. split; [|left; split; [reflexivity|]]; cbn; auto.
    + eexists. split; [|right; eexists; split; [reflexivity|]]; cbn; auto.
      now left.
Qed.

Lemma sleep_run n h : sleep n h = (Return tt, [EvSleep n]).
Proof. reflexivity. Qed.

Lemma terminate_run p pid name h :
  exists r ev,
    try_except (terminate pf p pid name) (fun e => ret (terminate_failed p e)) h
      = (Return r, ev)
    /\ protocol_run p pid name r ev.
Proof.
  unfold terminate.
  destruct (graceful_step pid h) as (g & Hg & [[Eg Sg]|(x & Eg & Fg)]); cbv zeta in Eg.
  2:{ exists (terminate_failed p x), [g]. split; [|now constructor].
      replace [g] with ([g] ++ [])%list by reflexivity.
      eapply try_caught; [|reflexivity]. now apply bind_stop_throw. }
  set (a := socket_connect_ex pf ((h ++ [g]) ++ [EvSleep 1])%list "127.0.0.1" p default_timeout).
  destruct (answered_open a) eqn:Ea.
  2:{ eexists _, [g; EvSleep 1; reprobe p a]. split; [|now constructor].
      apply try_return.
      change [g; EvSleep 1; reprobe p a] with ([g] ++ [EvSleep 1] ++ [reprobe p a] ++ [])%list.
      eapply bind_return; [exact Eg|].
      eapply bind_return; [apply sleep_run|].
      eapply bind_return; [apply scan_port_run|].
      fold a. rewrite Ea. reflexivity. }
  set (h3 := (((h ++ [g]) ++ [EvSleep 1]) ++ [reprobe p a])%list).
  destruct (forced_step pid h3) as (f & Hf & [[Ef Sf]|(x & Ef & Ff)]); cbv zeta in Ef.
  2:{ exists (terminate_failed p x), [g; EvSleep 1; reprobe p a; f].
      split; [|now constructor].
      change [g; EvSleep 1; reprobe p a; f]
        with (([g] ++ [EvSleep 1] ++ [reprobe p a] ++ [f]) ++ [])%list.
      eapply try_caught; [|reflexivity].
      eapply bind_return; [exact Eg|].
      eapply bind_return; [apply sleep_run|].
      eapply bind_return; [apply scan_port_run|].
      fold a. rewrite Ea. cbn [negb]. now apply bind_stop_throw. }
  set (a' := socket_connect_ex pf ((h3 ++ [f]) ++ [EvSleep 1])%list "127.0.0.1" p default_timeout).
  exists (if answered_open a' then
            (false, "Failed to close port " ++ Py.str p ++ " - process may be protected")
          else
            (true, "Successfully closed port " ++ Py.str p ++ " (force killed "
                   ++ name ++ ", PID: " ++ PyStr.of_Z pid ++ ")")),
         [g; EvSleep 1; reprobe p a; f; EvSleep 1; reprobe p a'].
  split; [|now apply forced_sent].
  apply try_return.
  change [g; EvSleep 1; reprobe p a; f; EvSleep 1; reprobe p a']
    with ([g] ++ [EvSleep 1] ++ [reprobe p a] ++ [f] ++ [EvSleep 1] ++ [reprobe p a'] ++ [])%list.
  eapply bind_return; [exact Eg|].
  eapply bind_return; [apply sleep_run|].
  eapply bind_return; [apply scan_port_run|].
  fold a. rewrite Ea. cbn [negb].
  eapply bind_return; [exact Ef|].
  eapply bind_return; [apply sleep_run|].
  eapply bind_return; [apply scan_port_run|].
  subst a' h3.
  match goal with
  | |- context [negb (answered_open ?x)] => destruct (answered_open x)
  end; reflexivity.
Qed.


Lemma close_port_run p h :
  exists r ev, close_port pf p h = (Return r, ev) /\ close_run p r ev.
Proof.
  unfold close_port.
  destruct (get_process_info_run pf p h) as (o & ev & E & F & _).
  destruct o as [info|].
  2:{ eexists _, ev. split; [|now apply close_no_owner].
      apply try_return.
      eapply bind_return_quiet; [exact E|reflexivity]. }
  destruct (Py.int (fault_text pf) (info_process_id info)) as [pid|x] eqn:Ei.
  2:{ exists (false, "Error closing port " ++ Py.str p ++ ": " ++ exn_str x), ev.
      split; [|now apply close_bad_pid].
      eapply try_caught_quiet; [|reflexivity].
      eapply bind_return_quiet; [exact E|].
      cbv beta iota zeta. rewrite Ei. reflexivity. }
  destruct (terminate_run p pid (info_process_name info) (h ++ ev)%list)
    as (r & ev' & E' & R).
  exists r, (ev ++ ev')%list. split; [|now apply close_protocol with pid (info_process_name info)].
  apply try_return.
  eapply bind_return; [exact E|].
  cbv beta iota zeta. rewrite Ei, bind_lift_ok. exact E'.
Qed.

(** With no owner found, [close_port] answers at once. *)
Lemma close_port_no_owner p h ev :
  get_process_info pf p h = (Return None, ev) ->
  close_port pf p h
  = (Return (false, "No process found using port " ++ Py.str p), ev).
Proof.
  intros E. unfold close_port. apply try_return.
  eapply bind_return_quiet; [exact E|reflexivity].
Qed.

End Closer.

(* ================================================================== *)
(** ** The scan loop *)

Lemma probes_app ev ev' : probes (ev ++ ev') = (probes ev ++ probes ev')%list.
Proof.
  induction ev as [|e ev IH]; [reflexivity|].
  destruct e; cbn; now rewrite ?IH.
Qed.

Lemma stdout_app ev ev' : stdout (ev ++ ev') = (stdout ev ++ stdout ev')%list.
Proof.
  induction ev as [|e ev IH]; [reflexivity|].
  destruct e; cbn; now rewrite ?IH.
Qed.

Lemma lookup_events_quiet ev :
  Forall lookup_event ev -> probes ev = [] /\ stdout ev = [].
Proof.
  induction 1 as [|e ev He _ [IHp IHs]]; [now split|].
  destruct e; cbn in *; try contradiction. now split.
Qed.

Section Scanner.

Variable pf : platform.

Lemma entry_resolved_later host h pre ev r :
  entry_resolved pf host (h ++ pre)%list ev r ->
  entry_resolved pf host h (pre ++ ev)%list r.
Proof.
  intros (before & a & during & after & found & Hev & Ha & Hg & Hr & Hp).
  exists (pre ++ before)%list, a, during, after, found.
  repeat split; try assumption.
  - rewrite Hev. now rewrite <- app_assoc.
  - rewrite <- Hg. f_equal. now rewrite <- !app_assoc.
  - now apply Hp.
  - now apply Hp.
Qed.

Lemma scan_each_run host ports :
  forall acc h,
  exists entries ev,
    scan_each pf host ports acc h = (Return (acc ++ entries)%list, ev)
    /\ map fst (probes ev) = map VInt ports
    /\ map (fun r => VInt (port r)) entries = found_open ev
    /\ Forall (entry_resolved pf host h ev) entries
    /\ stdout ev = [].
Proof.
  induction ports as [|p rest IH]; intros acc h; cbn [scan_each].
  - exists [], []. rewrite app_nil_r. repeat split. constructor.
  - set (a := socket_connect_ex pf h host (VInt p) default_timeout).
    set (conn := EvConnect host (VInt p) default_timeout a).
    destruct (answered_open a) eqn:Ea.
    + destruct (get_process_info_run pf (VInt p) (h ++ [conn])%list)
        as (found & during & Eg & Fg & Pg).
      destruct (lookup_events_quiet _ Fg) as [Qp Qs].
      destruct (IH (acc ++ [entry_for p found])%list ((h ++ [conn]) ++ during)%list)
        as (entries & ev & E & Hp & Ho & Hr & Hs).
      exists (entry_for p found :: entries), ([conn] ++ during ++ ev)%list.
      unfold conn in *.
      split; [|split; [|split; [|split]]].
      * eapply bind_return; [apply scan_port_run|]. fold a. rewrite Ea.
        eapply bind_return; [exact Eg|].
        replace (acc ++ entry_for p found :: entries)%list
          with ((acc ++ [entry_for p found]) ++ entries)%list
          by (now rewrite <- app_assoc).
        destruct found; exact E.
      * cbn [app probes map fst]. rewrite probes_app, Qp. cbn [app].
        now rewrite Hp.
      * unfold found_open. cbn [app probes filter snd]. rewrite Ea.
        cbn [map fst]. rewrite probes_app, Qp. cbn [app].
        fold (found_open ev). rewrite <- Ho.
        destruct found; reflexivity.
      * constructor.
        -- exists [], a, during, ev, found.
           assert (Hport : port (entry_for p found) = p) by (destruct found; reflexivity).
           rewrite Hport. repeat split; try assumption.
           ++ now apply Pg.
           ++ now apply Pg.
        -- eapply Forall_impl; [|exact Hr].
           intros r Hr'. rewrite app_assoc.
           apply entry_resolved_later. now rewrite app_assoc.
      * rewrite !stdout_app, Qs, Hs. reflexivity.
    + destruct (IH acc (h ++ [conn])%list) as (entries & ev & E & Hp & Ho & Hr & Hs).
      exists entries, ([conn] ++ ev)%list.
      unfold conn in *.
      split; [|split; [|split; [|split]]].
      * eapply bind_return; [apply scan_port_run|]. fold a. rewrite Ea. exact E.
      * cbn [app probes map fst]. now rewrite Hp.
      * unfold found_open. cbn [app probes filter snd]. rewrite Ea. exact Ho.
      * eapply Forall_impl; [|exact Hr].
        intros r Hr'. now apply entry_resolved_later.
      * cbn. exact Hs.
Qed.

End Scanner.

(* ================================================================== *)
(** ** Numbers, the planner and the scan action *)

Section Numbers.

Variable ft : fault -> string.
Variables (x y : value) (a b : Z).
Hypothesis Hx : Py.as_number x = Some a.
Hypothesis Hy : Py.as_number y = Some b.

Lemma cmp_numbers : Py.cmp ft x y = Ok (a ?= b).
Proof.
  destruct x, y; try discriminate; cbn in *;
    injection Hx as <-; injection Hy as <-; reflexivity.
Qed.

Lemma gt_numbers : Py.gt ft x y = Ok (a >? b).
Proof.
  unfold Py.gt, Z.gtb. rewrite cmp_numbers. now destruct (a ?= b).
Qed.

Lemma le_numbers : Py.le ft x y = Ok (a <=? b).
Proof.
  unfold Py.le, Z.leb. rewrite cmp_numbers. now destruct (a ?= b).
Qed.

Lemma sub_numbers : Py.sub ft x y = Ok (VInt (a - b)).
Proof. unfold Py.sub. now rewrite Hx, Hy. Qed.

Lemma add_numbers : Py.add ft x y = Ok (VInt (a + b)).
Proof.
  destruct x, y; try discriminate; cbn in *;
    injection Hx as <-; injection Hy as <-; reflexivity.
Qed.

Lemma range_numbers : Py.range ft x y = Ok (Py.interval a b).
Proof. unfold Py.range. now rewrite Hx, Hy. Qed.

End Numbers.

Lemma min_ints ft n m : Py.min ft (VInt n) (VInt m) = Ok (VInt (Z.min n m)).
Proof.
  unfold Py.min. cbn. unfold Z.min.
  rewrite (Z.compare_antisym n m). destruct (n ?= m); reflexivity.
Qed.

Lemma interval_length lo hi : List.length (Py.interval lo hi) = Z.to_nat (hi - lo).
Proof. unfold Py.interval. now rewrite length_map, length_seq. Qed.

Section Planner.

Variable pf : platform.
Variables (x y : value) (a b : Z).
Hypothesis Hx : Py.as_number x = Some a.
Hypothesis Hy : Py.as_number y = Some b.

Lemma ports_within_run ports h :
  ports_within pf (VList [x; y]) ports h
  = (Return (filter (within a b) ports), []).
Proof.
  induction ports as [|p rest IH]; [reflexivity|].
  cbn [ports_within filter].
  change (Py.index (fault_text pf) (VList [x; y]) 0) with (Ok (A:=value) x).
  change (Py.index (fault_text pf) (VList [x; y]) 1) with (Ok (A:=value) y).
  rewrite bind_lift_ok.
  rewrite (le_numbers (fault_text pf) x (VInt p) a p Hx eq_refl).
  rewrite bind_lift_ok. unfold within.
  destruct (a <=? p); cbn [andb].
  - unfold bind at 1. rewrite bind_lift_ok.
    rewrite (le_numbers (fault_text pf) (VInt p) y p b eq_refl Hy).
    cbn [lift]. rewrite app_nil_r. unfold bind. rewrite IH.
    destruct (p <=? b); reflexivity.
  - rewrite bind_ret. unfold bind. rewrite IH. reflexivity.
Qed.

Lemma range_rejected_pair h :
  range_rejected pf (VList [x; y]) h = (Return (a >? b), []).
Proof.
  unfold range_rejected.
  change (Py.len (fault_text pf) (VList [x; y])) with (Ok (A:=Z) 2).
  rewrite bind_lift_ok. cbn [Z.eqb Pos.eqb negb].
  change (Py.index (fault_text pf) (VList [x; y]) 0) with (Ok (A:=value) x).
  change (Py.index (fault_text pf) (VList [x; y]) 1) with (Ok (A:=value) y).
  rewrite !bind_lift_ok. now rewrite (gt_numbers (fault_text pf) x y a b Hx Hy).
Qed.

Lemma limit_range_pair common h :
  limit_range pf (VList [x; y]) common h
  = (Return (limited_range x y a b common), []).
Proof.
  unfold limit_range, limited_range, limit_applies.
  change (Py.index (fault_text pf) (VList [x; y]) 0) with (Ok (A:=value) x).
  change (Py.index (fault_text pf) (VList [x; y]) 1) with (Ok (A:=value) y).
  rewrite !bind_lift_ok. rewrite (sub_numbers (fault_text pf) y x b a Hy Hx), bind_lift_ok.
  rewrite (gt_numbers (fault_text pf) (VInt (b - a)) (VInt 10000) _ _ eq_refl eq_refl).
  rewrite bind_lift_ok.
  destruct ((b - a >? 10000) && negb (Py.truth common)); [|reflexivity].
  rewrite bind_lift_ok.
  rewrite (add_numbers (fault_text pf) x (VInt 10000) _ _ Hx eq_refl).
  rewrite bind_lift_ok. reflexivity.
Qed.

Lemma ports_to_scan_pair common h :
  ports_to_scan pf (VList [x; y]) common h = (Return (planned_ports a b common), []).
Proof.
  unfold ports_to_scan, planned_ports.
  destruct (Py.truth common); [apply ports_within_run|].
  change (Py.index (fault_text pf) (VList [x; y]) 0) with (Ok (A:=value) x).
  change (Py.index (fault_text pf) (VList [x; y]) 1) with (Ok (A:=value) y).
  rewrite !bind_lift_ok.
  rewrite (add_numbers (fault_text pf) y (VInt 1) _ _ Hy eq_refl), bind_lift_ok.
  now rewrite (range_numbers (fault_text pf) x (VInt (b + 1)) _ _ Hx eq_refl).
Qed.

Lemma count_scanned_pair common h :
  count_scanned pf (VList [x; y]) common h = (Return (counted a b common), []).
Proof.
  unfold count_scanned, counted.
  destruct (Py.truth common).
  - unfold bind. now rewrite ports_within_run.
  - change (Py.index (fault_text pf) (VList [x; y]) 0) with (Ok (A:=value) x).
    change (Py.index (fault_text pf) (VList [x; y]) 1) with (Ok (A:=value) y).
    rewrite !bind_lift_ok. rewrite (sub_numbers (fault_text pf) y x b a Hy Hx), bind_lift_ok.
    rewrite (add_numbers (fault_text pf) (VInt (b - a)) (VInt 1) _ _ eq_refl eq_refl).
    rewrite bind_lift_ok. now rewrite min_ints.
Qed.

End Planner.

Lemma limited_range_pair x y a b common :
  Py.as_number y = Some b ->
  exists y', limited_range x y a b common = VList [x; y']
             /\ Py.as_number y' = Some (limited_end a b common).
Proof.
  intros Hy. unfold limited_range, limited_end.
  destruct (limit_applies a b common); eexists; split; eauto.
Qed.

Section ScanAction.

Variable pf : platform.

Lemma time_run h : time pf h = (Return (time_time pf h), [EvClock (time_time pf h)]).
Proof. reflexivity. Qed.

Lemma scan_action_valid d x y a b h :
  requested_range d = VList [x; y] ->
  Py.as_number x = Some a -> Py.as_number y = Some b -> a <= b ->
  let common := requested_common d in
  let b' := limited_end a b common in
  exists entries ev t0 t1,
    scan_action pf (VDict d) h
    = (Return (ScanResult true "scan" entries (limited_range x y a b common)
                 (counted a b' common) (round pf (PrimFloat.sub t1 t0) 2) common),
       ([EvClock t0] ++ ev ++ [EvClock t1])%list)
    /\ map fst (probes ev) = map VInt (planned_ports a b' common)
    /\ map (fun r => VInt (port r)) entries = found_open ev
    /\ Forall (entry_resolved pf "127.0.0.1" (h ++ [EvClock t0])%list ev) entries
    /\ stdout ev = [].
Proof.
  intros Hr Hx Hy Hab common b'.
  destruct (limited_range_pair x y a b common Hy) as (y' & Hl & Hy').
  fold b' in Hy'.
  set (t0 := time_time pf h).
  destruct (scan_each_run pf "127.0.0.1" (planned_ports a b' common) []
              (h ++ [EvClock t0])%list) as (entries & ev & E & Hp & Ho & He & Hs).
  set (t1 := time_time pf ((h ++ [EvClock t0]) ++ ev)%list).
  exists entries, ev, t0, t1. split; [|now repeat split].
  unfold scan_action.
  change (Py.get (fault_text pf) (VDict d) "port_range" (VList [VInt 1; VInt 65535]))
    with (Ok (A:=value) (requested_range d)).
  change (Py.get (fault_text pf) (VDict d) "common_ports_only" (VBool false))
    with (Ok (A:=value) common).
  rewrite !bind_lift_ok, Hr.
  rewrite (bind_quiet _ _ _ _ (range_rejected_pair pf x y a b Hx Hy h)).
  replace (a >? b) with false by (symmetry; rewrite Z.gtb_ltb; apply Z.ltb_ge; lia).
  rewrite (bind_quiet _ _ _ _ (limit_range_pair pf x y a b Hx Hy common h)).
  rewrite Hl.
  assert (Hrun :
    (start_time <- time pf;;
     open_ports <- scan_ports pf "127.0.0.1" (VList [x; y']) common;;
     end_time <- time pf;;
     total_scanned <- count_scanned pf (VList [x; y']) common;;
     ret (ScanResult true "scan" open_ports (VList [x; y']) total_scanned
            (round pf (PrimFloat.sub end_time start_time) 2) common)) h
    = (Return (ScanResult true "scan" entries (VList [x; y'])
                 (counted a b' common) (round pf (PrimFloat.sub t1 t0) 2) common),
       ([EvClock t0] ++ (ev ++ [EvClock t1]))%list)).
  { eapply bind_return; [apply time_run|].
    eapply bind_return.
    { unfold scan_ports.
      rewrite (bind_quiet _ _ _ _ (ports_to_scan_pair pf x y' a b' Hx Hy' common _)).
      exact E. }
    eapply bind_return_quiet; [apply time_run|].
    rewrite (bind_quiet _ _ _ _ (count_scanned_pair pf x y' a b' Hx Hy' common _)).
    reflexivity. }
  exact Hrun.
Qed.

End ScanAction.

(* ================================================================== *)
(** ** What every computation of the program does: no print, no exit *)

Section Behaviour.

Context {A B : Type}.

Lemma behaves_ret (P : A -> Prop) (a : A) : P a -> behaves P (ret a).
Proof. intros Ha h. now split. Qed.

Lemma behaves_throw (P : A -> Prop) (e : exn) : behaves P (throw e).
Proof. intros h. reflexivity. Qed.

Lemma behaves_lift (o : outcome A) : behaves (fun _ => True) (lift o).
Proof. intros h. destruct o; cbn; auto. Qed.

Lemma behaves_any (P : A -> Prop) (m : M A) :
  behaves P m -> behaves (fun _ => True) m.
Proof.
  intros Hm h. specialize (Hm h). destruct (m h) as [[a|e|c] ev]; tauto.
Qed.

Lemma behaves_bind (P : B -> Prop) (m : M A) (k : A -> M B) :
  behaves (fun _ => True) m -> (forall a, behaves P (k a)) -> behaves P (bind m k).
Proof.
  intros Hm Hk h. unfold bind. specialize (Hm h).
  destruct (m h) as [[a|e|c] ev]; try assumption.
  destruct Hm as [_ Hev].
  specialize (Hk a (h ++ ev)%list).
  destruct (k a (h ++ ev)%list) as [[b|e|c] ev']; rewrite ?stdout_app, ?Hev;
    cbn [app]; assumption.
Qed.

Lemma behaves_try (P : A -> Prop) (m : M A) (handler : exn -> M A) :
  behaves P m -> (forall e, behaves P (handler e)) -> behaves P (try_except m handler).
Proof.
  intros Hm Hh h. unfold try_except. specialize (Hm h).
  destruct (m h) as [[a|e|c] ev]; try assumption.
  specialize (Hh e (h ++ ev)%list).
  destruct (handler e (h ++ ev)%list) as [[b|e'|c] ev']; rewrite ?stdout_app, ?Hm;
    cbn [app]; assumption.
Qed.

End Behaviour.

Lemma error_message_shape e : failure_shape (ErrorResult false (error_message e)).
Proof. now exists (error_message e). Qed.

Lemma silent_events ev :
  Forall (fun e => forall r, e <> EvPrint r) ev -> stdout ev = [].
Proof.
  induction 1 as [|e ev He _ IH]; [reflexivity|].
  destruct e; cbn; try assumption. now destruct (He r).
Qed.

Lemma protocol_run_quiet p pid name r ev :
  protocol_run p pid name r ev -> stdout ev = [].
Proof.
  assert (Hg : forall g, graceful_request pid g -> forall r, g <> EvPrint r).
  { intros g Hg r' ->. exact Hg. }
  assert (Hf : forall f, forced_request pid f -> forall r, f <> EvPrint r).
  { intros f Hf r' ->. exact Hf. }
  intros R. apply silent_events.
  destruct R; repeat constructor; auto; discriminate.
Qed.

Lemma close_run_quiet p r ev : close_run p r ev -> stdout ev = [].
Proof.
  destruct 1 as [ev F|ev text F|ev pid name r ev' F R].
  - now apply lookup_events_quiet.
  - now apply lookup_events_quiet.
  - rewrite stdout_app. apply lookup_events_quiet in F as [_ ->].
    now rewrite (protocol_run_quiet _ _ _ _ _ R).
Qed.

Section Dispatcher.

Variable pf : platform.

Lemma behaves_time : behaves (fun _ => True) (time pf).
Proof. intros h. now split. Qed.

Lemma behaves_close_port p : behaves (fun _ => True) (close_port pf p).
Proof.
  intros h. destruct (close_port_run pf p h) as (r & ev & -> & R).
  split; [exact I|]. now apply close_run_quiet in R.
Qed.

Lemma behaves_scan_each host ports acc :
  behaves (fun _ => True) (scan_each pf host ports acc).
Proof.
  intros h. destruct (scan_each_run pf host ports acc h) as (r & ev & -> & _ & _ & _ & Hs).
  now split.
Qed.

Ltac behave :=
  repeat first
    [ apply behaves_throw
    | apply behaves_lift
    | apply behaves_time
    | apply behaves_close_port
    | apply behaves_scan_each
    | apply behaves_ret; exact I
    | apply behaves_bind; [|intros ?]
    | match goal with
      | |- behaves _ (if ?c then _ else _) => destruct c
      end ].

Lemma behaves_ports_within port_range ports :
  behaves (fun _ => True) (ports_within pf port_range ports).
Proof.
  induction ports as [|p rest IH]; cbn [ports_within].
  - now apply behaves_ret.
  - behave; try exact IH.
Qed.

Lemma behaves_ports_to_scan port_range common :
  behaves (fun _ => True) (ports_to_scan pf port_range common).
Proof.
  unfold ports_to_scan. destruct (Py.truth common).
  - apply behaves_ports_within.
  - behave.
Qed.

Lemma behaves_scan_action data : behaves result_shape (scan_action pf data).
Proof.
  unfold scan_action.
  apply behaves_bind; [apply behaves_lift|intros port_range].
  apply behaves_bind; [apply behaves_lift|intros common].
  apply behaves_bind; [unfold range_rejected; behave|intros rejected].
  destruct rejected; [apply behaves_throw|].
  apply behaves_bind; [unfold limit_range; behave|intros limited].
  apply behaves_bind; [apply behaves_time|intros start_time].
  apply behaves_bind.
  { unfold scan_ports. apply behaves_bind; [apply behaves_ports_to_scan|intros ports].
    apply behaves_scan_each. }
  intros open_ports.
  apply behaves_bind; [apply behaves_time|intros end_time].
  apply behaves_bind.
  { unfold count_scanned. destruct (Py.truth common).
    - apply behaves_bind; [apply behaves_ports_within|intros ports].
      now apply behaves_ret.
    - behave. }
  intros total. apply behaves_ret. now split.
Qed.

Lemma behaves_close_action data : behaves result_shape (close_action pf data).
Proof.
  unfold close_action. behave. now apply behaves_ret.
Qed.

End Dispatcher.

(* ================================================================== *)
(** ** The script as a whole *)

Section Script.

Variable pf : platform.

Lemma print_after (P : response -> Prop) (m : M response) (h : history) :
  behaves P m ->
  (exists r ev0, m h = (Return r, ev0)
                 /\ bind m print h = (Return tt, (ev0 ++ [EvPrint r])%list)
                 /\ stdout ev0 = [] /\ P r)
  \/ (exists e ev0, m h = (Throw e, ev0)
                    /\ bind m print h = (Throw e, ev0) /\ stdout ev0 = []).
Proof.
  intros Hm. specialize (Hm h). unfold bind.
  destruct (m h) as [[r|e|c] ev]; [left|right|contradiction].
  - exists r, ev. destruct Hm. now repeat split.
  - exists e, ev. now repeat split.
Qed.

Lemma main_failed_run e h :
  main_failed e h = (Exit 1, [EvPrint (ErrorResult false (error_message e))]).
Proof. destruct e as [c text]; destruct c; reflexivity. Qed.

Lemma main_body_outcome stdin h :
  (exists r ev0, main_body pf stdin h = (Return tt, (ev0 ++ [EvPrint r])%list)
                 /\ stdout ev0 = [] /\ result_shape r)
  \/ (exists e ev0, main_body pf stdin h = (Throw e, ev0) /\ stdout ev0 = []).
Proof.
  unfold main_body.
  destruct (PyStr.is_empty (PyStr.strip stdin)).
  { right. now eexists _, []. }
  destruct (json_loads pf (PyStr.strip stdin)) as [data|e].
  2:{ right. now exists e, []. }
  rewrite bind_lift_ok.
  destruct (Py.contains (fault_text pf) "action" data) as [present|e].
  2:{ right. now exists e, []. }
  rewrite bind_lift_ok. destruct present; cbn [negb].
  2:{ right. now eexists _, []. }
  destruct (Py.getitem (fault_text pf) data "action") as [action|e].
  2:{ right. now exists e, []. }
  rewrite bind_lift_ok.
  match goal with
  | |- context [bind ?m (fun x => print x)] =>
      destruct (print_after result_shape m h) as [(r & ev0 & _ & E & Hs & Hr)|(e & ev0 & _ & E & Hs)];
        [|change (bind m print h) with (bind m (fun x => print x) h) in E
         |change (bind m print h) with (bind m (fun x => print x) h) in E]
  end.
  - destruct (Py.eq action (VStr "scan")); [apply behaves_scan_action|].
    destruct (Py.eq action (VStr "close")); [apply behaves_close_action|].
    apply behaves_throw.
  - left. now exists r, ev0.
  - right. now exists e, ev0.
Qed.

Lemma run_script_outcome stdin :
  (exists r ev0,
      main_body pf stdin [] = (Return tt, (ev0 ++ [EvPrint r])%list)
      /\ run_script pf stdin = (ExitStatus 0, (ev0 ++ [EvPrint r])%list)
      /\ stdout ev0 = [] /\ result_shape r)
  \/ (exists e ev0,
        main_body pf stdin [] = (Throw e, ev0)
        /\ run_script pf stdin
           = (ExitStatus 1, (ev0 ++ [EvPrint (ErrorResult false (error_message e))])%list)
        /\ stdout ev0 = []).
Proof.
  unfold run_script, main, try_except.
  destruct (main_body_outcome stdin []) as [(r & ev0 & E & Hs & Hr)|(e & ev0 & E & Hs)];
    rewrite E.
  - left. now exists r, ev0.
  - right. exists e, ev0. rewrite main_failed_run. now repeat split.
Qed.

End Script.

(* ================================================================== *)
(** ** Rejected requests *)

Lemma bind_assoc {A B C : Type} (m : M A) (k : A -> M B) (k' : B -> M C) (h : history) :
  bind (bind m k) k' h = bind m (fun a => bind (k a) k') h.
Proof.
  unfold bind. destruct (m h) as [[a|e|c] ev]; try reflexivity.
  destruct (k a (h ++ ev)%list) as [[b|e|c] ev']; try reflexivity.
  rewrite <- app_assoc.
  destruct (k' b (h ++ ev ++ ev')%list) as [r ev'']. now rewrite app_assoc.
Qed.

Lemma eq_str_true a s : Py.eq a (VStr s) = true -> a = VStr s.
Proof.
  destruct a; cbn; try discriminate. intros H. now apply String.eqb_eq in H as ->.
Qed.

Lemma eq_str_false a s : a <> VStr s -> Py.eq a (VStr s) = false.
Proof.
  intros Hn. destruct (Py.eq a (VStr s)) eqn:E; [|reflexivity].
  now apply eq_str_true in E.
Qed.

Ltac pure_step :=
  repeat first
    [ rewrite bind_assoc
    | rewrite bind_lift_ok
    | rewrite bind_lift_raise
    | rewrite bind_throw
    | rewrite bind_ret ].

Section Gate.

Variable pf : platform.

Lemma range_gate pr common (k : value -> M response) h :
  ~ ascending_pair pr ->
  exists e,
    (rejected <- range_rejected pf pr ;;
     if rejected then
       throw (Exn ValueError "Invalid port_range: must be [start_port, end_port]")
     else
       port_range <- limit_range pf pr common ;;
       k port_range) h = (Throw e, []).
Proof.
  intros Hn. unfold range_rejected, limit_range.
  destruct pr as [| |z|s|l|d]; try (pure_step; eexists; reflexivity).
  - (* a string *)
    cbn [Py.len]. pure_step.
    destruct (Z.of_nat (String.length s) =? 2) eqn:El; cbn [negb];
      [|pure_step; eexists; reflexivity].
    apply Z.eqb_eq in El.
    destruct s as [|c0 [|c1 [|c2 s]]]; cbn [String.length] in El; try lia.
    pure_step.
    change (Py.index (fault_text pf) (VStr (String c0 (String c1 ""))) 0)
      with (Ok (A:=value) (VStr (String c0 ""))).
    change (Py.index (fault_text pf) (VStr (String c0 (String c1 ""))) 1)
      with (Ok (A:=value) (VStr (String c1 ""))).
    pure_step.
    destruct (Py.gt (fault_text pf) (VStr (String c0 "")) (VStr (String c1 "")))
      as [[|]|e]; pure_step; eexists; reflexivity.
  - (* a list *)
    cbn [Py.len]. pure_step.
    destruct (Z.of_nat (List.length l) =? 2) eqn:El; cbn [negb];
      [|pure_step; eexists; reflexivity].
    apply Z.eqb_eq in El.
    destruct l as [|x [|y [|z l]]]; cbn [List.length] in El; try lia.
    pure_step.
    change (Py.index (fault_text pf) (VList [x; y]) 0) with (Ok (A:=value) x).
    change (Py.index (fault_text pf) (VList [x; y]) 1) with (Ok (A:=value) y).
    pure_step.
    destruct (Py.gt (fault_text pf) x y) as [[|]|e] eqn:Eg; pure_step;
      try (eexists; reflexivity).
    destruct (Py.as_number x) as [a|] eqn:Hx, (Py.as_number y) as [b|] eqn:Hy.
    + exfalso. apply Hn. exists x, y, a, b. repeat split; try assumption.
      rewrite (gt_numbers (fault_text pf) x y a b Hx Hy) in Eg.
      injection Eg as Eg. rewrite Z.gtb_ltb in Eg. now apply Z.ltb_ge in Eg.
    + unfold Py.sub. rewrite Hx, Hy. pure_step. eexists; reflexivity.
    + unfold Py.sub. rewrite Hx, Hy. pure_step. eexists; reflexivity.
    + unfold Py.sub. rewrite Hx, Hy. pure_step. eexists; reflexivity.
  - (* a dict *)
    cbn [Py.len]. pure_step.
    destruct (Z.of_nat (List.length d) =? 2); cbn [negb]; pure_step;
      eexists; reflexivity.
Qed.

Lemma scan_action_invalid d h :
  ~ ascending_pair (requested_range d) ->
  exists e, scan_action pf (VDict d) h = (Throw e, []).
Proof.
  intros Hn. unfold scan_action.
  change (Py.get (fault_text pf) (VDict d) "port_range" (VList [VInt 1; VInt 65535]))
    with (Ok (A:=value) (requested_range d)).
  change (Py.get (fault_text pf) (VDict d) "common_ports_only" (VBool false))
    with (Ok (A:=value) (requested_common d)).
  rewrite !bind_lift_ok.
  apply (range_gate (requested_range d) (requested_common d)). exact Hn.
Qed.

Lemma contains_dict d k :
  Py.contains (fault_text pf) k (VDict d)
  = Ok (match Py.lookup k d with Some _ => true | None => false end).
Proof. reflexivity. Qed.

Lemma main_body_invalid stdin :
  invalid_request pf stdin -> exists e ev, main_body pf stdin [] = (Throw e, ev).
Proof.
  intros [text He Hl|d [He Hl] Ha|d [He Hl] Ha Hr|d [He Hl] Ha Hp|d action [He Hl] Ha H1 H2];
    unfold main_body; rewrite He, Hl.
  - eexists _, _. reflexivity.
  - rewrite bind_lift_ok, contains_dict, Ha, bind_lift_ok. eexists _, _. reflexivity.
  - rewrite bind_lift_ok, contains_dict, Ha, bind_lift_ok. cbn [negb].
    unfold Py.getitem. rewrite Ha, bind_lift_ok. cbn [Py.eq String.eqb Ascii.eqb Bool.eqb].
    destruct (scan_action_invalid d [] Hr) as (e & E).
    exists e, []. now apply bind_stop_throw.
  - rewrite bind_lift_ok, contains_dict, Ha, bind_lift_ok. cbn [negb].
    unfold Py.getitem. rewrite Ha, bind_lift_ok. cbn [Py.eq String.eqb Ascii.eqb Bool.eqb].
    eexists _, []. apply bind_stop_throw. unfold close_action.
    rewrite contains_dict, Hp, bind_lift_ok. reflexivity.
  - rewrite bind_lift_ok, contains_dict, Ha, bind_lift_ok. cbn [negb].
    unfold Py.getitem. rewrite Ha, bind_lift_ok.
    rewrite (eq_str_false _ _ H1), (eq_str_false _ _ H2).
    eexists _, []. apply bind_stop_throw. reflexivity.
Qed.

End Gate.

(* ================================================================== *)
(** ** Properties of the close operation *)

Lemma lookup_not_kill e : lookup_event e -> kill_call e -> False.
Proof.
  destruct e as [[line|[|program args]] r| | | | |]; cbn; try tauto.
  intros [-> | ->]; discriminate.
Qed.

Lemma lookup_not_forced e : lookup_event e -> forced_kill e -> False.
Proof.
  destruct e as [[line|[|program args]] r| | | | |]; cbn; try tauto.
  intros [-> | ->] [p Hp]; discriminate.
Qed.

Lemma graceful_not_forced pid g : graceful_request pid g -> forced_kill g -> False.
Proof.
  destruct g as [[line|args] r| |p [|] r| | |]; cbn; try tauto.
  intros -> [p Hp]. discriminate.
Qed.

Lemma graceful_is_kill_call pid g : graceful_request pid g -> kill_call g.
Proof.
  destruct g as [[line|args] r| |p [|] r| | |]; cbn; try tauto.
  now intros ->.
Qed.

Lemma forced_is_kill_call pid f : forced_request pid f -> kill_call f.
Proof.
  destruct f as [[line|args] r| |p [|] r| | |]; cbn; try tauto.
  now intros ->.
Qed.

Lemma forced_is_forced_kill pid f : forced_request pid f -> forced_kill f.
Proof.
  destruct f as [[line|args] r| |p [|] r| | |]; cbn; try tauto.
  intros ->. now exists (PyStr.of_Z pid).
Qed.

Lemma sent_not_raised e : request_sent e -> raised_by e = None.
Proof.
  destruct e as [c [[rc out]|x]| |p s [u|x]| | |]; cbn; tauto.
Qed.

Lemma failed_and_raised e x y :
  request_failed e x -> raised_by e = Some y -> x = y.
Proof.
  intros [H|(argv & rc & out & -> & _)] Hy.
  - congruence.
  - discriminate.
Qed.

Lemma failed_class e x :
  request_failed e x -> class_of x <> CalledProcessError -> raised_by e = Some x.
Proof. intros [H|(argv & rc & out & _ & _ & Hc)] Hn; [assumption|contradiction]. Qed.

(** Where an event of a two-part trace sits. *)
Lemma app_position {T : Type} (l1 l2 before after : list T) (e : T) :
  (l1 ++ l2 = before ++ e :: after)%list ->
  (exists mid, l1 = (before ++ e :: mid)%list)
  \/ (exists mid, before = (l1 ++ mid)%list /\ l2 = (mid ++ e :: after)%list).
Proof.
  revert before. induction l1 as [|t l1 IH]; intros before H.
  - right. now exists before.
  - destruct before as [|b before]; cbn in H; injection H as -> H.
    + left. now exists l1.
    + destruct (IH before H) as [(mid & ->)|(mid & -> & ->)].
      * left. now exists mid.
      * right. now exists mid.
Qed.

Section CloseFacts.

Variables (p : value) (r : bool * string) (ev : list event).
Hypothesis R : close_run p r ev.

(** A termination request that raised [x] decides the outcome. *)
Lemma raised_request_decides e x :
  In e ev -> kill_call e -> raised_by e = Some x -> r = terminate_failed p x.
Proof.
  intros He Hk Hx.
  assert (Hl : forall l, Forall lookup_event l -> In e l -> False).
  { intros l F Hin. rewrite Forall_forall in F. exact (lookup_not_kill e (F e Hin) Hk). }
  destruct R as [l F|l text F|l pid name r' l' F P].
  - destruct (Hl l F He).
  - destruct (Hl l F He).
  - apply in_app_or in He as [He|He]; [destruct (Hl l F He)|].
    assert (Hs : forall g, request_sent g -> g = e -> False).
    { intros g Hg ->. apply sent_not_raised in Hg. congruence. }
    destruct P as [g y Hg Hf|g a Hg Hsent Ha|g a f y Hg Hsent Ha Hf Hfail
                  |g a f a' Hg Hsent Ha Hf Hsent'];
      cbn in He; unfold reprobe in He;
      repeat match goal with
             | H : _ \/ _ |- _ => destruct H as [H|H]
             | H : False |- _ => destruct H
             end;
      try (subst e; cbn in Hk; contradiction);
      try (exfalso; exact (Hs g Hsent He));
      try (exfalso; exact (Hs f Hsent' He)).
    all: try (subst e; now rewrite (failed_and_raised g y x Hf Hx)).
    all: try (subst e; now rewrite (failed_and_raised f y x Hfail Hx)).
Qed.

End CloseFacts.
Lemma cons_position {T : Type} (x e : T) (l mid after : list T) :
  (x :: l = mid ++ e :: after)%list ->
  (mid = [] /\ x = e /\ l = after)
  \/ (exists mid', mid = x :: mid' /\ l = (mid' ++ e :: after)%list).
Proof.
  destruct mid as [|y mid]; cbn; intros H; injection H as -> ->.
  - now left.
  - right. now exists mid.
Qed.

Lemma nil_position {T : Type} (e : T) (mid after : list T) :
  ([] = mid ++ e :: after)%list -> False.
Proof. destruct mid; discriminate. Qed.

Ltac locate H :=
  repeat first
    [ apply nil_position in H; destruct H
    | apply cons_position in H;
      destruct H as [(? & ? & ?)|(? & ? & H)]; subst ].

Section ScriptRuns.
Variable pf : platform.

(** The script on a [close] request, given what [close_port] does. *)
Lemma run_close stdin d p r ev :
  parsed pf stdin (VDict d) ->
  Py.lookup "action" d = Some (VStr "close") ->
  Py.lookup "port_to_close" d = Some p ->
  close_port pf p [] = (Return r, ev) ->
  run_script pf stdin
  = (ExitStatus 0, (ev ++ [EvPrint (CloseResult (fst r) "close" p (snd r))])%list).
Proof.
  intros [He Hl] Ha Hp Hc.
  assert (Hb : main_body pf stdin []
               = (Return tt, (ev ++ [EvPrint (CloseResult (fst r) "close" p (snd r))])%list)).
  { unfold main_body. rewrite He, Hl.
    rewrite bind_lift_ok, contains_dict, Ha, bind_lift_ok. cbn [negb].
    unfold Py.getitem. rewrite Ha, bind_lift_ok. cbn [Py.eq String.eqb Ascii.eqb Bool.eqb].
    eapply bind_return; [|reflexivity].
    unfold close_action. rewrite contains_dict, Hp, bind_lift_ok. cbn [negb].
    unfold Py.getitem. rewrite Hp, bind_lift_ok.
    eapply bind_return_quiet; [exact Hc|reflexivity]. }
  unfold run_script, main, try_except. now rewrite Hb.
Qed.

(** The script on a [scan] request, given what the scan action does. *)
Lemma run_scan stdin d r ev :
  parsed pf stdin (VDict d) ->
  Py.lookup "action" d = Some (VStr "scan") ->
  scan_action pf (VDict d) [] = (Return r, ev) ->
  run_script pf stdin = (ExitStatus 0, (ev ++ [EvPrint r])%list).
Proof.
  intros [He Hl] Ha Hc.
  assert (Hb : main_body pf stdin [] = (Return tt, (ev ++ [EvPrint r])%list)).
  { unfold main_body. rewrite He, Hl.
    rewrite bind_lift_ok, contains_dict, Ha, bind_lift_ok. cbn [negb].
    unfold Py.getitem. rewrite Ha, bind_lift_ok. cbn [Py.eq String.eqb Ascii.eqb Bool.eqb].
    eapply bind_return; [exact Hc|reflexivity]. }
  unfold run_script, main, try_except. now rewrite Hb.
Qed.

End ScriptRuns.

(** C5.  In every close operation in which a kill call (the graceful or
    the forced request) raises [ProcessLookupError] because the process
    vanished after it was resolved, [close_port] returns success with the
    message that the process was already terminated. *)
Theorem vanished_process_counts_as_closed :
  forall (pf : platform) (p : value) (h : history)
         (result : result (bool * string)) (ev : list event),
    close_port pf p h = (result, ev) ->
    (exists e text,
        In e ev /\ kill_call e /\ raised_by e = Some (Exn ProcessLookupError text)) ->
    result = Return (true, "Process using port " ++ Py.str p ++ " was already terminated").
Proof.
  intros pf p h result ev Hc (e & text & He & Hk & Hx).
  destruct (close_port_run pf p h) as (r & ev' & E & R).
  rewrite E in Hc. injection Hc as <- <-.
  now rewrite (raised_request_decides p r ev' R e _ He Hk Hx).
Qed.

Lemma permission_message_origin p success ev :
  close_run p
    (success, "Permission denied - cannot terminate process using port " ++ Py.str p) ev ->
  success = false
  /\ exists e text,
       In e ev /\ kill_call e /\ raised_by e = Some (Exn PermissionError text).
Proof.
  assert (Hfail : forall l k y,
    kill_call k -> request_failed k y ->
    terminate_failed p y
    = (success, "Permission denied - cannot terminate process using port " ++ Py.str p) ->
    In k l ->
    success = false
    /\ exists e text,
         In e l /\ kill_call e /\ raised_by e = Some (Exn PermissionError text)).
  { intros l k [c text] Hk Hf Ht Hin.
    destruct c; cbn in Ht; try discriminate Ht.
    injection Ht as <-. split; [reflexivity|].
    exists k, text. repeat split; try assumption.
    apply failed_class; [assumption|discriminate]. }
  intros R.
  remember (success, "Permission denied - cannot terminate process using port " ++ Py.str p)
    as r eqn:Hr.
  destruct R as [l F|l text F|l pid name r l' F P]; try discriminate Hr.
  destruct P as [g y Hg Hf|g a Hg Hs Ha|g a f y Hg Hs Ha Hf Hfy|g a f a' Hg Hs Ha Hf Hs'];
    try discriminate Hr.
  - apply (Hfail (l ++ [g])%list g y (graceful_is_kill_call pid g Hg) Hf eq_refl).
    apply in_or_app. right. now left.
  - apply (Hfail (l ++ [g; EvSleep 1; reprobe p a; f])%list f y
             (forced_is_kill_call pid f Hf) Hfy eq_refl).
    apply in_or_app. right. cbn. auto.
  - destruct (answered_open a'); discriminate.
Qed.
(** C6.  In every close operation in which either kill attempt raises
    [PermissionError], [close_port] returns the failure outcome
    (success false) with the permission-denied message.  The message is
    distinct: [close_port] reports it for no other reason.  The invocation
    does not fail: run as a script on that close request, the program
    prints the close result and ends with status 0. *)
Theorem permission_denied_is_a_close_failure :
  forall (pf : platform) (p : value) (h : history)
         (result : result (bool * string)) (ev : list event),
    close_port pf p h = (result, ev) ->
    (exists e text,
        In e ev /\ kill_call e /\ raised_by e = Some (Exn PermissionError text)) ->
    let message :=
      "Permission denied - cannot terminate process using port " ++ Py.str p in
    result = Return (false, message)
    /\ (forall pf' h' success' ev',
          close_port pf' p h' = (Return (success', message), ev') ->
          success' = false
          /\ exists e text,
               In e ev' /\ kill_call e
               /\ raised_by e = Some (Exn PermissionError text))
    /\ (forall stdin d,
          h = [] ->
          parsed pf stdin (VDict d) ->
          Py.lookup "action" d = Some (VStr "close") ->
          Py.lookup "port_to_close" d = Some p ->
          run_script pf stdin
          = (ExitStatus 0, (ev ++ [EvPrint (CloseResult false "close" p message)])%list)).
Proof.
  intros pf p h result ev Hc (e & text & He & Hk & Hx) message.
  destruct (close_port_run pf p h) as (r & ev0 & E & R).
  rewrite E in Hc. injection Hc as <- <-.
  assert (Hr : r = (false, message)).
  { now rewrite (raised_request_decides p r ev0 R e _ He Hk Hx). }
  split; [now rewrite Hr|]. split.
  - intros pf' h' success' ev' Hc'.
    destruct (close_port_run pf' p h') as (r' & ev1 & E' & R').
    rewrite E' in Hc'. injection Hc' as Hr' Hev'. subst r' ev1.
    exact (permission_message_origin p success' ev' R').
  - intros stdin d -> Hp Ha Hport.
    rewrite (run_close pf stdin d p r ev0 Hp Ha Hport E). now rewrite Hr.
Qed.

(** C2, as amended.  Every close operation returns an outcome, and in the
    events it performed: a forced kill comes only directly after a graceful
    request to the same process that went through, the one-second settle
    wait and a re-probe that found the port still open; and success is
    reported only directly after a kill request, the settle wait and a
    re-probe that found the port closed, or else directly after a kill
    request that raised [ProcessLookupError], with the already-terminated
    message and no re-probe. *)
Theorem close_port_escalates_in_order :
  forall (pf : platform) (p : value) (h : history),
  exists (success : bool) (message : string) (ev : list event),
    close_port pf p h = (Return (success, message), ev)
    /\ (forall before e after,
          ev = (before ++ e :: after)%list -> forced_kill e ->
          exists earlier pid g a,
            before = (earlier ++ [g; EvSleep 1; reprobe p a])%list
            /\ graceful_request pid g /\ request_sent g
            /\ forced_request pid e /\ answered_open a = true)
    /\ (success = true ->
        (exists earlier k a,
            ev = (earlier ++ [k; EvSleep 1; reprobe p a])%list
            /\ kill_call k /\ request_sent k /\ answered_open a = false)
        \/ (exists earlier k text,
              ev = (earlier ++ [k])%list /\ kill_call k
              /\ raised_by k = Some (Exn ProcessLookupError text)
              /\ message
                 = "Process using port " ++ Py.str p ++ " was already terminated")).
Proof.
  intros pf p h.
  destruct (close_port_run pf p h) as ([success message] & ev & E & R).
  exists success, message, ev. split; [exact E|]. clear E. split.
  - intros before e after Hev Hforced.
    assert (Hl : forall l, Forall lookup_event l -> In e l -> False).
    { intros l F Hin. rewrite Forall_forall in F.
      exact (lookup_not_forced e (F e Hin) Hforced). }
    destruct R as [l F|l text F|l pid name r l' F P];
      try (exfalso; apply (Hl l F); rewrite Hev; apply in_or_app; right; now left).
    apply app_position in Hev as [(mid & ->)|(mid & -> & Hmid)].
    { exfalso. apply (Hl _ F). apply in_or_app. right. now left. }
    destruct P as [g y Hg Hf|g a Hg Hs Ha|g a f y Hg Hs Ha Hf Hfy
                  |g a f a' Hg Hs Ha Hf Hs'];
      unfold reprobe in Hmid; locate Hmid;
      try (exfalso; exact (graceful_not_forced pid _ Hg Hforced));
      try contradiction.
    + exists l, pid, g, a. now repeat split.
    + exists l, pid, g, a. now repeat split.
  - intros ->.
    assert (Hfail : forall k y,
      kill_call k -> request_failed k y ->
      terminate_failed p y = (true, message) ->
      exists text,
        raised_by k = Some (Exn ProcessLookupError text)
        /\ message = "Process using port " ++ Py.str p ++ " was already terminated").
    { intros k [c text] Hk Hf Ht.
      destruct c; cbn in Ht; try discriminate Ht.
      injection Ht as <-. exists text. split; [|reflexivity].
      apply failed_class; [assumption|discriminate]. }
    remember (true, message) as r eqn:Hr in R.
    destruct R as [l F|l text F|l pid name r l' F P]; try discriminate Hr.
    destruct P as [g y Hg Hf|g a Hg Hs Ha|g a f y Hg Hs Ha Hf Hfy
                  |g a f a' Hg Hs Ha Hf Hs'].
    + right.
      destruct (Hfail g y (graceful_is_kill_call pid g Hg) Hf Hr) as (text & Hx & Hm).
      exists l, g, text. repeat split; eauto using graceful_is_kill_call.
    + left. exists l, g, a. repeat split; eauto using graceful_is_kill_call.
    + right.
      destruct (Hfail f y (forced_is_kill_call pid f Hf) Hfy Hr) as (text & Hx & Hm).
      exists (l ++ [g; EvSleep 1; reprobe p a])%list, f, text.
      rewrite <- app_assoc. repeat split; eauto using forced_is_kill_call.
    + left. destruct (answered_open a') eqn:Ea'; [discriminate Hr|].
      exists (l ++ [g; EvSleep 1; reprobe p a])%list, f, a'.
      rewrite <- app_assoc. repeat split; eauto using forced_is_kill_call.
Qed.

(** C4.  When owner resolution finds no process for the port,
    [close_port] returns the failure outcome whose message is exactly
    "No process found using port " followed by the port; and the script,
    on that close request, prints the close result with [success] false
    and that message and ends normally (status 0), never by a fault. *)
Theorem close_without_owner_reports_no_process :
  forall (pf : platform) (stdin : string) (d : list (string * value))
         (p : value) (ev : list event),
    parsed pf stdin (VDict d) ->
    Py.lookup "action" d = Some (VStr "close") ->
    Py.lookup "port_to_close" d = Some p ->
    get_process_info pf p [] = (Return None, ev) ->
    let message := "No process found using port " ++ Py.str p in
    close_port pf p [] = (Return (false, message), ev)
    /\ run_script pf stdin
       = (ExitStatus 0, (ev ++ [EvPrint (CloseResult false "close" p message)])%list)
    /\ stdout (snd (run_script pf stdin)) = [CloseResult false "close" p message].
Proof.
  intros pf stdin d p ev Hp Ha Hport Hg message.
  pose proof (close_port_no_owner pf p [] ev Hg) as Hc.
  pose proof (run_close pf stdin d p _ ev Hp Ha Hport Hc) as Hs.
  cbn [fst snd] in Hs. fold message in Hs.
  split; [exact Hc|]. split; [exact Hs|].
  rewrite Hs. cbn [snd]. rewrite stdout_app.
  destruct (get_process_info_run pf p []) as (o & ev' & E & F & _).
  rewrite E in Hg. injection Hg as _ <-.
  apply lookup_events_quiet in F as [_ ->]. reflexivity.
Qed.

(* ================================================================== *)
(** ** Properties of the scan *)

Section ScanScript.

Variable pf : platform.

(** The script on a [scan] request with a valid range. *)
Lemma run_scan_valid stdin d x y a b :
  parsed pf stdin (VDict d) ->
  Py.lookup "action" d = Some (VStr "scan") ->
  requested_range d = VList [x; y] ->
  Py.as_number x = Some a -> Py.as_number y = Some b -> a <= b ->
  let common := requested_common d in
  let b' := limited_end a b common in
  exists entries t ev,
    run_script pf stdin = (ExitStatus 0, ev)
    /\ map fst (probes ev) = map VInt (planned_ports a b' common)
    /\ map (fun r => VInt (port r)) entries = found_open ev
    /\ stdout ev = [ScanResult true "scan" entries (limited_range x y a b common)
                      (counted a b' common) t common].
Proof.
  intros Hp Ha Hr Hx Hy Hab common b'.
  destruct (scan_action_valid pf d x y a b [] Hr Hx Hy Hab)
    as (entries & ev & t0 & t1 & E & Hprobes & Hopen & _ & Hquiet).
  fold common in E, Hprobes. fold b' in E, Hprobes.
  exists entries, (round pf (PrimFloat.sub t1 t0) 2).
  eexists. split; [exact (run_scan pf stdin d _ _ Hp Ha E)|].
  unfold found_open.
  rewrite !probes_app, !stdout_app, Hquiet. cbn [probes stdout app].
  rewrite !app_nil_r. now repeat split.
Qed.

End ScanScript.

Lemma planned_length_limited a b common :
  limit_applies a b common = true ->
  planned_ports a (limited_end a b common) common = Py.interval a (a + 10001)
  /\ counted a (limited_end a b common) common = VInt 10001
  /\ Z.of_nat (List.length (Py.interval a (a + 10001))) = 10001.
Proof.
  intros Hl. unfold planned_ports, counted, limited_end. rewrite Hl.
  unfold limit_applies in Hl. apply andb_prop in Hl as [_ Hc].
  apply negb_true_iff in Hc. rewrite Hc. repeat split.
  - f_equal. lia.
  - f_equal. lia.
  - rewrite interval_length. lia.
Qed.

(** C1, as amended.  For every scan request with [common_ports_only] false
    whose range has [end - start > 10000], the end is overwritten with
    [start + 10000]: the ports probed are exactly [start], [start + 1], ...,
    [start + 10000] in this order, which is 10,001 ports (a span
    [end - start] of 10,000), and the reported [total_scanned] is that
    count, 10001. *)
Theorem wide_scan_is_limited_to_10001_ports :
  forall (pf : platform) (stdin : string) (d : list (string * value)) (a b : Z),
    parsed pf stdin (VDict d) ->
    Py.lookup "action" d = Some (VStr "scan") ->
    requested_range d = VList [VInt a; VInt b] ->
    a <= b ->
    Py.truth (requested_common d) = false ->
    b - a > 10000 ->
    exists entries t ev,
      run_script pf stdin = (ExitStatus 0, ev)
      /\ map fst (probes ev) = map VInt (Py.interval a (a + 10001))
      /\ Z.of_nat (List.length (probes ev)) = 10001
      /\ stdout ev = [ScanResult true "scan" entries
                        (VList [VInt a; VInt (a + 10000)]) (VInt 10001) t
                        (requested_common d)].
Proof.
  intros pf stdin d a b Hp Ha Hr Hab Hc Hwide.
  assert (Hl : limit_applies a b (requested_common d) = true).
  { unfold limit_applies. rewrite Hc. cbn [negb]. rewrite andb_true_r.
    rewrite Z.gtb_ltb. apply Z.ltb_lt. lia. }
  destruct (run_scan_valid pf stdin d (VInt a) (VInt b) a b Hp Ha Hr eq_refl eq_refl Hab)
    as (entries & t & ev & E & Hprobes & _ & Hout).
  destruct (planned_length_limited a b _ Hl) as (Hplan & Hcount & Hlen).
  rewrite Hplan in Hprobes. rewrite Hcount in Hout.
  unfold limited_range in Hout. rewrite Hl in Hout.
  exists entries, t, ev. repeat split; try assumption.
  rewrite <- (length_map fst), Hprobes, length_map. exact Hlen.
Qed.

(** C8.  For every scan request with [common_ports_only] true, the ports
    probed are exactly the members of [COMMON_PORTS] that lie within the
    requested range, in the order of [COMMON_PORTS]; the range is reported
    as requested, however wide (the 10,000 limit is not applied); and
    [total_scanned] is the number of those ports. *)
Theorem common_scan_probes_common_ports_in_range :
  forall (pf : platform) (stdin : string) (d : list (string * value)) (a b : Z),
    parsed pf stdin (VDict d) ->
    Py.lookup "action" d = Some (VStr "scan") ->
    requested_range d = VList [VInt a; VInt b] ->
    a <= b ->
    Py.truth (requested_common d) = true ->
    let ports := filter (within a b) COMMON_PORTS in
    exists entries t ev,
      run_script pf stdin = (ExitStatus 0, ev)
      /\ map fst (probes ev) = map VInt ports
      /\ stdout ev = [ScanResult true "scan" entries (VList [VInt a; VInt b])
                        (VInt (Z.of_nat (List.length ports))) t
                        (requested_common d)].
Proof.
  intros pf stdin d a b Hp Ha Hr Hab Hc ports.
  assert (Hl : limit_applies a b (requested_common d) = false).
  { unfold limit_applies. rewrite Hc. apply andb_false_r. }
  destruct (run_scan_valid pf stdin d (VInt a) (VInt b) a b Hp Ha Hr eq_refl eq_refl Hab)
    as (entries & t & ev & E & Hprobes & _ & Hout).
  unfold planned_ports, counted, limited_range, limited_end in *.
  rewrite Hl, Hc in *.
  exists entries, t, ev. now repeat split.
Qed.

(** C10.  For every scan request with a valid range from [a] to [b]
    (given, or the default from 1 to 65535), the [scan_range] of the
    success response is the list [a, a + 10000] when [common_ports_only] is
    false and [b - a > 10000] (the requested end is overwritten and not
    reported), and is the requested range unchanged otherwise. *)
Theorem scan_range_reports_the_range_scanned :
  forall (pf : platform) (stdin : string) (d : list (string * value)) (a b : Z),
    parsed pf stdin (VDict d) ->
    Py.lookup "action" d = Some (VStr "scan") ->
    requested_range d = VList [VInt a; VInt b] ->
    a <= b ->
    exists entries total t ev,
      run_script pf stdin = (ExitStatus 0, ev)
      /\ stdout ev = [ScanResult true "scan" entries
                        (if (b - a >? 10000) && negb (Py.truth (requested_common d))
                         then VList [VInt a; VInt (a + 10000)]
                         else VList [VInt a; VInt b])
                        total t (requested_common d)]
      /\ (Py.lookup "port_range" d = None -> a = 1 /\ b = 65535).
Proof.
  intros pf stdin d a b Hp Ha Hr Hab.
  destruct (run_scan_valid pf stdin d (VInt a) (VInt b) a b Hp Ha Hr eq_refl eq_refl Hab)
    as (entries & t & ev & E & _ & _ & Hout).
  eexists entries, _, t, ev. split; [exact E|]. split; [exact Hout|].
  intros Hnone. unfold requested_range in Hr. rewrite Hnone in Hr.
  injection Hr as <- <-. now split.
Qed.

(** C9.  Whatever the platform answers (any tool may fail, raise or print
    nothing), a scan over a planned list of ports never raises and runs to
    the end of the list: every planned port is probed, in order; every port
    found open gets an entry, in order; and each entry is the blank entry,
    whose [process_name], [process_id] and [process_command] are
    ["unknown"], updated with what owner resolution returned for that port
    at that moment.  So an owner that could not be resolved leaves the
    three placeholders, and for an owner resolved in part the command is
    the placeholder unless [ps -o args=] succeeded, and the name is the
    placeholder unless [ps -o comm=] succeeded or the listener table gave
    one. *)
Theorem scan_completes_despite_unresolved_owners :
  forall (pf : platform) (host : string) (port_range common : value)
         (ports : list Z) (h : history),
    ports_to_scan pf port_range common h = (Return ports, []) ->
    exists entries ev,
      scan_ports pf host port_range common h = (Return entries, ev)
      /\ map fst (probes ev) = map VInt ports
      /\ map (fun r => VInt (port r)) entries = found_open ev
      /\ Forall (entry_resolved pf host h ev) entries
      /\ (forall r, In r entries ->
            protocol r = "tcp"
            /\ exists found,
                 r = entry_for (port r) found
                 /\ (found = None ->
                     process_name r = "unknown"
                     /\ process_id r = "unknown"
                     /\ process_command r = "unknown")).
Proof.
  intros pf host port_range common ports h Hplan.
  destruct (scan_each_run pf host ports [] h) as (entries & ev & E & Hp & Ho & Hr & _).
  exists entries, ev. split.
  { unfold scan_ports. now rewrite (bind_quiet _ _ _ _ Hplan). }
  split; [exact Hp|]. split; [exact Ho|]. split; [exact Hr|].
  intros r Hin. rewrite Forall_forall in Hr.
  destruct (Hr r Hin) as (_ & _ & _ & _ & found & _ & _ & _ & Hfound & _).
  split.
  - rewrite Hfound. now destruct found.
  - exists found. split; [exact Hfound|].
    intros ->. rewrite Hfound. now repeat split.
Qed.

(* ================================================================== *)
(** ** Properties of the dispatcher *)

(** C3.  Whatever the input and the platform, the script ends with an exit
    status and never with an unhandled fault, and it prints exactly one
    JSON object.  The status is 0 when the request was carried out (the
    object is a scan or close result) and 1 when an exception was raised
    while the input was read, parsed, validated or executed (the object
    then has the shape [success] false with a [message]); so a response
    with [success] true always comes with status 0.  Every invalid request
    (malformed JSON, no [action], a [port_range] that is not an ascending
    pair, [close] without [port_to_close], an unknown [action]) is among
    the failures. *)
Theorem every_request_gets_one_answer :
  forall (pf : platform) (stdin : string),
    (exists code r ev,
        run_script pf stdin = (ExitStatus code, ev)
        /\ stdout ev = [r]
        /\ ((code = 0 /\ result_shape r
             /\ fst (main_body pf stdin []) = Return tt)
            \/ (code = 1
                /\ exists e, fst (main_body pf stdin []) = Throw e
                             /\ r = ErrorResult false (error_message e)))
        /\ (response_success r = true -> code = 0))
    /\ (invalid_request pf stdin ->
        exists message ev,
          run_script pf stdin = (ExitStatus 1, ev)
          /\ stdout ev = [ErrorResult false message]).
Proof.
  intros pf stdin. split.
  - destruct (run_script_outcome pf stdin)
      as [(r & ev0 & Eb & Er & Hs & Hr)|(e & ev0 & Eb & Er & Hs)].
    + exists 0, r, (ev0 ++ [EvPrint r])%list. split; [exact Er|].
      rewrite stdout_app, Hs. split; [reflexivity|]. split; [|reflexivity].
      left. rewrite Eb. now repeat split.
    + exists 1, (ErrorResult false (error_message e)), (ev0 ++ [EvPrint (ErrorResult false (error_message e))])%list.
      split; [exact Er|]. rewrite stdout_app, Hs. split; [reflexivity|]. split.
      * right. split; [reflexivity|]. exists e. rewrite Eb. now split.
      * discriminate.
  - intros Hinv. destruct (main_body_invalid pf stdin Hinv) as (e & ev & Eb).
    destruct (run_script_outcome pf stdin)
      as [(r & ev0 & Eb' & _)|(e' & ev0 & Eb' & Er & Hs)].
    + rewrite Eb in Eb'. discriminate.
    + exists (error_message e'), (ev0 ++ [EvPrint (ErrorResult false (error_message e'))])%list.
      split; [exact Er|]. now rewrite stdout_app, Hs.
Qed.

(* ================================================================== *)
(** ** The properties on the example platforms *)

(** An instance of C7: with every connection refused, the probe of port
    8080 answers false. *)
Lemma refused_probe_answers_false :
  fst (scan_port (idle_machine scan_all_text scan_all_data)
                 "127.0.0.1" (VInt 8080) default_timeout []) = Return false.
Proof.
  destruct (scan_port_total_boolean (idle_machine scan_all_text scan_all_data)
              "127.0.0.1" (VInt 8080) default_timeout [])
    as (b & E & _ & _ & Hcode).
  rewrite E. cbn [fst]. f_equal. apply (Hcode 111); [reflexivity|discriminate].
Defined.

(** An instance of C1: the request for the whole default range on an idle
    machine. *)
Lemma default_scan_is_limited :
  exists entries t ev,
    run_script (idle_machine scan_all_text scan_all_data) scan_all_text
    = (ExitStatus 0, ev)
    /\ map fst (probes ev) = map VInt (Py.interval 1 (1 + 10001))
    /\ Z.of_nat (List.length (probes ev)) = 10001
    /\ stdout ev = [ScanResult true "scan" entries (VList [VInt 1; VInt (1 + 10000)])
                      (VInt 10001) t (VBool false)].
Proof.
  apply (wide_scan_is_limited_to_10001_ports
           (idle_machine scan_all_text scan_all_data) scan_all_text scan_all_data 1 65535).
  - split; reflexivity.
  - reflexivity.
  - reflexivity.
  - lia.
  - reflexivity.
  - lia.
Defined.

(** The claim C1 as written fails on the default range: 10,001 ports are
    probed and reported, not 10,000. *)
Lemma default_scan_probes_10001_ports :
  exists entries t ev,
    run_script (idle_machine scan_all_text scan_all_data) scan_all_text
    = (ExitStatus 0, ev)
    /\ Z.of_nat (List.length (probes ev)) = 10001
    /\ Z.of_nat (List.length (probes ev)) <> 10000
    /\ stdout ev = [ScanResult true "scan" entries (VList [VInt 1; VInt 10001])
                      (VInt 10001) t (VBool false)]
    /\ VInt 10001 <> VInt 10000.
Proof.
  destruct (run_scan_valid (idle_machine scan_all_text scan_all_data)
              scan_all_text scan_all_data (VInt 1) (VInt 65535) 1 65535)
    as (entries & t & ev & E & Hprobes & _ & Hout);
    try reflexivity; try lia; [split; reflexivity|].
  destruct (planned_length_limited 1 65535 (requested_common scan_all_data) eq_refl)
    as (Hplan & Hcount & Hlen).
  rewrite Hplan in Hprobes. rewrite Hcount in Hout.
  assert (Hn : Z.of_nat (List.length (probes ev)) = 10001).
  { rewrite <- (length_map fst), Hprobes, length_map. exact Hlen. }
  exists entries, t, ev. repeat split; try assumption.
  - rewrite Hn. discriminate.
  - discriminate.
Qed.

(** An instance of C2: the listener exits at the graceful signal. *)
Lemma obedient_node_is_closed_gracefully :
  exists success message ev,
    close_port machine_with_obedient_node (VInt 8080) []
    = (Return (success, message), ev)
    /\ (forall before e after,
          ev = (before ++ e :: after)%list -> forced_kill e ->
          exists earlier pid g a,
            before = (earlier ++ [g; EvSleep 1; reprobe (VInt 8080) a])%list
            /\ graceful_request pid g /\ request_sent g
            /\ forced_request pid e /\ answered_open a = true)
    /\ (success = true ->
        (exists earlier k a,
            ev = (earlier ++ [k; EvSleep 1; reprobe (VInt 8080) a])%list
            /\ kill_call k /\ request_sent k /\ answered_open a = false)
        \/ (exists earlier k text,
              ev = (earlier ++ [k])%list /\ kill_call k
              /\ raised_by k = Some (Exn ProcessLookupError text)
              /\ message
                 = "Process using port " ++ Py.str (VInt 8080) ++ " was already terminated")).
Proof. exact (close_port_escalates_in_order machine_with_obedient_node (VInt 8080) []). Defined.

(** The claim C2 as written fails when the listener has vanished: success
    is reported and the port was never probed again. *)
Lemma vanished_node_success_without_reprobe :
  close_port machine_with_vanished_node (VInt 8080) []
  = (Return (true, "Process using port 8080 was already terminated"),
     [EvRun (Shell "netstat -tlnp 2>/dev/null | grep :8080")
        (node_on_8080 [] (Shell "netstat -tlnp 2>/dev/null | grep :8080"));
      EvRun (ps_comm "4242") (Ok (1, ""));
      EvRun (ps_args "4242") (Ok (1, ""));
      EvKill 4242 SIGTERM (Raise (Exn ProcessLookupError "[Errno 3] No such process"))])
  /\ probes (snd (close_port machine_with_vanished_node (VInt 8080) [])) = [].
Proof. split; vm_compute; reflexivity. Qed.

(** An instance of C3: the descending range is answered with the failure
    object and status 1. *)
Lemma descending_range_is_rejected :
  exists message ev,
    run_script (idle_machine scan_descending_text scan_descending_data)
               scan_descending_text = (ExitStatus 1, ev)
    /\ stdout ev = [ErrorResult false message].
Proof.
  apply (proj2 (every_request_gets_one_answer
                  (idle_machine scan_descending_text scan_descending_data)
                  scan_descending_text)).
  apply bad_port_range with (d := scan_descending_data).
  - split; reflexivity.
  - reflexivity.
  - intros (x & y & a & b & Hr & Hx & Hy & Hab).
    cbn in Hr. injection Hr as <- <-.
    cbn in Hx, Hy. injection Hx as <-. injection Hy as <-. lia.
Defined.

(** An instance of C4: the end-to-end example of the specification. *)
Lemma close_65534_reports_no_process :
  run_script (idle_machine close_65534_text close_65534_data) close_65534_text
  = (ExitStatus 0,
     [EvRun (Shell "netstat -tlnp 2>/dev/null | grep :65534") (Ok (1, ""));
      EvRun (Argv ["lsof"; "-i"; ":65534"; "-t"]) (Ok (1, ""));
      EvPrint (CloseResult false "close" (VInt 65534)
                 "No process found using port 65534")]).
Proof.
  apply (close_without_owner_reports_no_process
           (idle_machine close_65534_text close_65534_data)
           close_65534_text close_65534_data (VInt 65534)
           [EvRun (Shell "netstat -tlnp 2>/dev/null | grep :65534") (Ok (1, ""));
            EvRun (Argv ["lsof"; "-i"; ":65534"; "-t"]) (Ok (1, ""))]).
  - split; reflexivity.
  - reflexivity.
  - reflexivity.
  - reflexivity.
Defined.

(** An instance of C5: the listener has vanished before the signal. *)
Lemma vanished_node_counts_as_closed :
  fst (close_port machine_with_vanished_node (VInt 8080) [])
  = Return (true, "Process using port 8080 was already terminated").
Proof.
  apply (vanished_process_counts_as_closed machine_with_vanished_node (VInt 8080) []
           _ (snd (close_port machine_with_vanished_node (VInt 8080) []))).
  - apply surjective_pairing.
  - exists (EvKill 4242 SIGTERM (Raise (Exn ProcessLookupError "[Errno 3] No such process"))),
           "[Errno 3] No such process".
    split; [|split; [exact I|reflexivity]].
    vm_compute. tauto.
Defined.

(** An instance of C6: the listener may not be signalled. *)
Lemma foreign_node_is_a_close_failure :
  fst (close_port machine_with_foreign_node (VInt 8080) [])
  = Return (false, "Permission denied - cannot terminate process using port 8080")
  /\ run_script machine_with_foreign_node close_8080_text
     = (ExitStatus 0,
        (snd (close_port machine_with_foreign_node (VInt 8080) [])
         ++ [EvPrint (CloseResult false "close" (VInt 8080)
                        "Permission denied - cannot terminate process using port 8080")])%list).
Proof.
  destruct (permission_denied_is_a_close_failure machine_with_foreign_node (VInt 8080) []
              (fst (close_port machine_with_foreign_node (VInt 8080) []))
              (snd (close_port machine_with_foreign_node (VInt 8080) [])))
    as (Hr & _ & Hs).
  - apply surjective_pairing.
  - exists (EvKill 4242 SIGTERM (Raise (Exn PermissionError "[Errno 1] Operation not permitted"))),
           "[Errno 1] Operation not permitted".
    split; [|split; [exact I|reflexivity]].
    vm_compute. tauto.
  - split; [exact Hr|].
    apply (Hs close_8080_text close_8080_data); try reflexivity. split; reflexivity.
Defined.

(** An instance of C8: the common ports of the whole port space. *)
Lemma common_scan_of_everything :
  exists entries t ev,
    run_script (machine_with_listener scan_common_text scan_common_data) scan_common_text
    = (ExitStatus 0, ev)
    /\ map fst (probes ev) = map VInt (filter (within 1 65535) COMMON_PORTS)
    /\ stdout ev = [ScanResult true "scan" entries (VList [VInt 1; VInt 65535])
                      (VInt (Z.of_nat (List.length (filter (within 1 65535) COMMON_PORTS))))
                      t (requested_common scan_common_data)].
Proof.
  apply (common_scan_probes_common_ports_in_range
           (machine_with_listener scan_common_text scan_common_data)
           scan_common_text scan_common_data 1 65535).
  - split; reflexivity.
  - reflexivity.
  - reflexivity.
  - lia.
  - reflexivity.
Defined.

(** An instance of C9: a listener on 8080 whose owner no tool can name. *)
Lemma unnamed_listener_is_still_listed :
  exists entries ev,
    scan_ports (machine_with_listener scan_three_text scan_three_data) "127.0.0.1"
               (VList [VInt 8079; VInt 8081]) (VBool false) []
    = (Return entries, ev)
    /\ map fst (probes ev) = map VInt [8079; 8080; 8081]
    /\ map (fun r => VInt (port r)) entries = found_open ev.
Proof.
  destruct (scan_completes_despite_unresolved_owners
              (machine_with_listener scan_three_text scan_three_data) "127.0.0.1"
              (VList [VInt 8079; VInt 8081]) (VBool false) [8079; 8080; 8081] [])
    as (entries & ev & E & Hp & Ho & _).
  - reflexivity.
  - exists entries, ev. now repeat split.
Defined.

(** An instance of C10: a narrow range is reported as requested. *)
Lemma narrow_range_is_reported_unchanged :
  exists entries total t ev,
    run_script (machine_with_listener scan_three_text scan_three_data) scan_three_text
    = (ExitStatus 0, ev)
    /\ stdout ev = [ScanResult true "scan" entries (VList [VInt 8079; VInt 8081])
                      total t (VBool false)].
Proof.
  destruct (scan_range_reports_the_range_scanned
              (machine_with_listener scan_three_text scan_three_data)
              scan_three_text scan_three_data 8079 8081)
    as (entries & total & t & ev & E & Hout & _).
  - split; reflexivity.
  - reflexivity.
  - reflexivity.
  - lia.
  - exists entries, total, t, ev. split; [exact E|exact Hout].
Defined.

(* ================================================================== *)
(** ** Requests that are turned down *)

Section DispatcherErrors.

Variable pf : platform.

(** The script when the body of [main] raises. *)
Lemma run_script_throw stdin e ev :
  main_body pf stdin [] = (Throw e, ev) ->
  run_script pf stdin
  = (ExitStatus 1, (ev ++ [EvPrint (ErrorResult false (error_message e))])%list).
Proof.
  intros E. unfold run_script, main, try_except. now rewrite E, main_failed_run.
Qed.

(** The body of [main] up to the dispatch on [action], for a request
    object. *)
Lemma main_body_dispatch stdin d action :
  parsed pf stdin (VDict d) ->
  Py.lookup "action" d = Some action ->
  main_body pf stdin []
  = bind (if Py.eq action (VStr "scan") then scan_action pf (VDict d)
          else if Py.eq action (VStr "close") then close_action pf (VDict d)
          else throw (Exn ValueError ("Invalid action: " ++ Py.str action
                                      ++ ". Must be 'scan' or 'close'")))
         (fun result => print result) [].
Proof.
  intros [He Hl] Ha. unfold main_body. rewrite He, Hl.
  rewrite bind_lift_ok, contains_dict, Ha, bind_lift_ok. cbn [negb].
  unfold Py.getitem. now rewrite Ha, bind_lift_ok.
Qed.

Lemma main_body_invalid_quiet stdin :
  invalid_request pf stdin -> exists e, main_body pf stdin [] = (Throw e, []).
Proof.
  intros [text He Hl|d [He Hl] Ha|d Hp Ha Hr|d Hp Ha Hport|d action Hp Ha H1 H2].
  - unfold main_body. rewrite He, Hl. eexists. reflexivity.
  - unfold main_body. rewrite He, Hl.
    rewrite bind_lift_ok, contains_dict, Ha, bind_lift_ok. eexists. reflexivity.
  - rewrite (main_body_dispatch stdin d _ Hp Ha). cbn [Py.eq String.eqb Ascii.eqb Bool.eqb].
    destruct (scan_action_invalid pf d [] Hr) as (e & E).
    exists e. now apply bind_stop_throw.
  - rewrite (main_body_dispatch stdin d _ Hp Ha). cbn [Py.eq String.eqb Ascii.eqb Bool.eqb].
    eexists. apply bind_stop_throw. unfold close_action.
    rewrite contains_dict, Hport, bind_lift_ok. reflexivity.
  - rewrite (main_body_dispatch stdin d _ Hp Ha).
    rewrite (eq_str_false _ _ H1), (eq_str_false _ _ H2).
    eexists. apply bind_stop_throw. reflexivity.
Qed.

End DispatcherErrors.

(** X1.  An invalid request (malformed JSON, no [action], a [port_range]
    that is not an ascending pair, [close] without [port_to_close], an
    unknown [action]) is refused before anything is done: the only event of
    the run is the print of the failure object, so no port is probed, no
    child process is started, no signal is sent and the clock is not
    read. *)
Theorem invalid_request_touches_nothing :
  forall (pf : platform) (stdin : string),
    invalid_request pf stdin ->
    exists message,
      run_script pf stdin = (ExitStatus 1, [EvPrint (ErrorResult false message)]).
Proof.
  intros pf stdin Hinv.
  destruct (main_body_invalid_quiet pf stdin Hinv) as (e & E).
  exists (error_message e). exact (run_script_throw pf stdin e [] E).
Qed.

Lemma descending_range_touches_nothing :
  exists message,
    run_script (idle_machine scan_descending_text scan_descending_data)
               scan_descending_text
    = (ExitStatus 1, [EvPrint (ErrorResult false message)]).
Proof.
  apply invalid_request_touches_nothing.
  apply bad_port_range with (d := scan_descending_data).
  - split; reflexivity.
  - reflexivity.
  - intros (x & y & a & b & Hr & Hx & Hy & Hab).
    cbn in Hr. injection Hr as <- <-.
    cbn in Hx, Hy. injection Hx as <-. injection Hy as <-. lia.
Defined.

(** X2.  A [port_range] list that does not have exactly two items, or whose
    two integers are in descending order, is answered with the message
    "Error: Invalid port_range: must be [start_port, end_port]" and status
    1, and nothing else is done. *)
Theorem misshapen_range_is_named_in_the_message :
  forall (pf : platform) (stdin : string) (d : list (string * value))
         (l : list value),
    parsed pf stdin (VDict d) ->
    Py.lookup "action" d = Some (VStr "scan") ->
    requested_range d = VList l ->
    (List.length l <> 2%nat \/ exists a b, l = [VInt a; VInt b] /\ a > b) ->
    run_script pf stdin
    = (ExitStatus 1,
       [EvPrint (ErrorResult false
                   "Error: Invalid port_range: must be [start_port, end_port]")]).
Proof.
  intros pf stdin d l Hp Ha Hr Hbad.
  apply (run_script_throw pf stdin
           (Exn ValueError "Invalid port_range: must be [start_port, end_port]") []).
  rewrite (main_body_dispatch pf stdin d _ Hp Ha). cbn [Py.eq String.eqb Ascii.eqb Bool.eqb].
  apply bind_stop_throw. unfold scan_action.
  change (Py.get (fault_text pf) (VDict d) "port_range" (VList [VInt 1; VInt 65535]))
    with (Ok (A:=value) (requested_range d)).
  change (Py.get (fault_text pf) (VDict d) "common_ports_only" (VBool false))
    with (Ok (A:=value) (requested_common d)).
  rewrite !bind_lift_ok, Hr.
  assert (Hrej : range_rejected pf (VList l) [] = (Return true, [])).
  { unfold range_rejected. cbn [Py.len]. rewrite bind_lift_ok.
    destruct Hbad as [Hlen|(a & b & -> & Hab)].
    - replace (Z.of_nat (List.length l) =? 2) with false; [reflexivity|].
      symmetry. apply Z.eqb_neq. lia.
    - cbn [List.length Z.of_nat Pos.of_succ_nat Pos.succ Z.eqb Pos.eqb negb].
      change (Py.index (fault_text pf) (VList [VInt a; VInt b]) 0) with (Ok (A:=value) (VInt a)).
      change (Py.index (fault_text pf) (VList [VInt a; VInt b]) 1) with (Ok (A:=value) (VInt b)).
      rewrite !bind_lift_ok.
      rewrite (gt_numbers (fault_text pf) (VInt a) (VInt b) a b eq_refl eq_refl).
      replace (a >? b) with true; [reflexivity|].
      symmetry. rewrite Z.gtb_ltb. apply Z.ltb_lt. lia. }
  rewrite (bind_quiet _ _ _ _ Hrej). reflexivity.
Qed.

Lemma three_item_range_is_named_in_the_message :
  run_script (unix_platform
                (loads_only scan_all_text
                   (VDict [("action", VStr "scan");
                           ("port_range", VList [VInt 1; VInt 2; VInt 3])]))
                no_tool_output all_refused signal_delivered)
             scan_all_text
  = (ExitStatus 1,
     [EvPrint (ErrorResult false
                 "Error: Invalid port_range: must be [start_port, end_port]")]).
Proof.
  apply (misshapen_range_is_named_in_the_message _ scan_all_text
           [("action", VStr "scan"); ("port_range", VList [VInt 1; VInt 2; VInt 3])]
           [VInt 1; VInt 2; VInt 3]).
  - split; reflexivity.
  - reflexivity.
  - reflexivity.
  - left. discriminate.
Defined.

Lemma lstrip_blank s : blank s = true -> PyStr.lstrip s = EmptyString.
Proof.
  induction s as [|c r IH]; [reflexivity|].
  cbn [blank PyStr.lstrip]. intros H. apply andb_prop in H as [-> Hr]. auto.
Qed.

(** X3.  An input that is empty or consists of whitespace only is answered
    with the message "Error: No input data received" and status 1; the JSON
    reader is not consulted and nothing else is done. *)
Theorem blank_input_is_reported :
  forall (pf : platform) (stdin : string),
    blank stdin = true ->
    run_script pf stdin
    = (ExitStatus 1, [EvPrint (ErrorResult false "Error: No input data received")]).
Proof.
  intros pf stdin Hb.
  apply (run_script_throw pf stdin (Exn ValueError "No input data received") []).
  unfold main_body, PyStr.strip. now rewrite (lstrip_blank stdin Hb).
Qed.

Lemma spaces_and_newline_are_blank_input :
  run_script (idle_machine scan_all_text scan_all_data)
             (String " " (String newline (String " " EmptyString)))
  = (ExitStatus 1, [EvPrint (ErrorResult false "Error: No input data received")]).
Proof. apply blank_input_is_reported. reflexivity. Defined.

(** X4.  A request object whose [action] is neither "scan" nor "close" is
    answered with "Error: Invalid action: " followed by the action as
    [str] renders it and ". Must be 'scan' or 'close'", with status 1, and
    nothing else is done. *)
Theorem unknown_action_is_quoted_in_the_message :
  forall (pf : platform) (stdin : string) (d : list (string * value))
         (action : value),
    parsed pf stdin (VDict d) ->
    Py.lookup "action" d = Some action ->
    action <> VStr "scan" -> action <> VStr "close" ->
    run_script pf stdin
    = (ExitStatus 1,
       [EvPrint (ErrorResult false
                   ("Error: Invalid action: " ++ Py.str action
                    ++ ". Must be 'scan' or 'close'"))]).
Proof.
  intros pf stdin d action Hp Ha H1 H2.
  apply (run_script_throw pf stdin
           (Exn ValueError ("Invalid action: " ++ Py.str action
                            ++ ". Must be 'scan' or 'close'")) []).
  rewrite (main_body_dispatch pf stdin d _ Hp Ha).
  rewrite (eq_str_false _ _ H1), (eq_str_false _ _ H2).
  now apply bind_stop_throw.
Qed.

Lemma list_action_is_quoted_in_the_message :
  run_script (unix_platform
                (loads_only scan_all_text
                   (VDict [("action", VList [VStr "scan"; VInt 1])]))
                no_tool_output all_refused signal_delivered)
             scan_all_text
  = (ExitStatus 1,
     [EvPrint (ErrorResult false
                 "Error: Invalid action: ['scan', 1]. Must be 'scan' or 'close'")]).
Proof.
  apply (unknown_action_is_quoted_in_the_message _ scan_all_text
           [("action", VList [VStr "scan"; VInt 1])] (VList [VStr "scan"; VInt 1])).
  - split; reflexivity.
  - reflexivity.
  - discriminate.
  - discriminate.
Defined.

(** X5.  When [json.loads] raises, the message is [str(e)] after
    "Invalid JSON input: " for a [JSONDecodeError] and after "Error: " for
    any other exception; the status is 1 and nothing else is done. *)
Theorem parse_failure_is_reported_by_class :
  forall (pf : platform) (stdin : string) (c : exn_class) (text : string),
    PyStr.is_empty (PyStr.strip stdin) = false ->
    json_loads pf (PyStr.strip stdin) = Raise (Exn c text) ->
    run_script pf stdin
    = (ExitStatus 1, [EvPrint (ErrorResult false (error_prefix c ++ text))]).
Proof.
  intros pf stdin c text He Hl.
  replace (error_prefix c ++ text) with (error_message (Exn c text))
    by (now destruct c).
  apply (run_script_throw pf stdin (Exn c text) []).
  unfold main_body. now rewrite He, Hl.
Qed.

Lemma not_json_is_reported_as_invalid_json :
  run_script (idle_machine scan_all_text scan_all_data) "not json"
  = (ExitStatus 1,
     [EvPrint (ErrorResult false
                 "Invalid JSON input: Expecting value: line 1 column 1 (char 0)")]).
Proof.
  apply (parse_failure_is_reported_by_class
           (idle_machine scan_all_text scan_all_data) "not json" JSONDecodeError
           "Expecting value: line 1 column 1 (char 0)").
  - reflexivity.
  - reflexivity.
Defined.

(** X6.  A parsed input in which [action] is not found (an object without
    that key, a list without that item, a string without that substring)
    is answered with "Error: Missing required field: action"; a [close]
    request object without [port_to_close] is answered with
    "Error: Missing required field for close action: port_to_close".  Both
    end with status 1 and nothing else is done. *)
Theorem missing_fields_are_named_in_the_message :
  forall (pf : platform) (stdin : string) (data : value),
    parsed pf stdin data ->
    (Py.contains (fault_text pf) "action" data = Ok false ->
     run_script pf stdin
     = (ExitStatus 1,
        [EvPrint (ErrorResult false "Error: Missing required field: action")]))
    /\ (forall d,
          data = VDict d ->
          Py.lookup "action" d = Some (VStr "close") ->
          Py.lookup "port_to_close" d = None ->
          run_script pf stdin
          = (ExitStatus 1,
             [EvPrint (ErrorResult false
                         "Error: Missing required field for close action: port_to_close")])).
Proof.
  intros pf stdin data Hp. split.
  - intros Hc. destruct Hp as [He Hl].
    apply (run_script_throw pf stdin (Exn ValueError "Missing required field: action") []).
    unfold main_body. rewrite He, Hl, bind_lift_ok, Hc, bind_lift_ok. reflexivity.
  - intros d -> Ha Hport.
    apply (run_script_throw pf stdin
             (Exn ValueError "Missing required field for close action: port_to_close") []).
    rewrite (main_body_dispatch pf stdin d _ Hp Ha). cbn [Py.eq String.eqb Ascii.eqb Bool.eqb].
    apply bind_stop_throw. unfold close_action.
    rewrite contains_dict, Hport, bind_lift_ok. reflexivity.
Qed.

Lemma list_input_misses_action :
  run_script (unix_platform (loads_only scan_all_text (VList [VStr "scan"]))
                no_tool_output all_refused signal_delivered)
             scan_all_text
  = (ExitStatus 1,
     [EvPrint (ErrorResult false "Error: Missing required field: action")]).
Proof.
  refine (proj1 (missing_fields_are_named_in_the_message _ scan_all_text
                   (VList [VStr "scan"]) _) _).
  - split; reflexivity.
  - reflexivity.
Defined.

(* ================================================================== *)
(** ** What a scan does and reports *)

Section Emission.

Context {A B : Type}.
Variable K : event -> Prop.

Lemma emits_ret (a : A) : emits K (ret a).
Proof. intros h. constructor. Qed.

Lemma emits_throw (e : exn) : emits K (throw (A:=A) e).
Proof. intros h. constructor. Qed.

Lemma emits_lift (o : outcome A) : emits K (lift o).
Proof. intros h. constructor. Qed.

Lemma emits_bind (m : M A) (k : A -> M B) :
  emits K m -> (forall a, emits K (k a)) -> emits K (bind m k).
Proof.
  intros Hm Hk h. unfold bind. specialize (Hm h).
  destruct (m h) as [[a|e|c] ev]; cbn [snd] in *; try assumption.
  specialize (Hk a (h ++ ev)%list).
  destruct (k a (h ++ ev)%list) as [r ev']. cbn [snd] in *.
  apply Forall_app. now split.
Qed.

End Emission.

Section ScanEvents.

Variable pf : platform.

Lemma scan_each_kinds host ports :
  forall acc h, Forall (probe_or_lookup host) (snd (scan_each pf host ports acc h)).
Proof.
  induction ports as [|p rest IH]; intros acc h; cbn [scan_each].
  - constructor.
  - unfold bind at 1. rewrite scan_port_run.
    set (a := socket_connect_ex pf h host (VInt p) default_timeout).
    assert (Hc : probe_or_lookup host (EvConnect host (VInt p) default_timeout a)).
    { right. now exists p, a. }
    destruct (answered_open a).
    + unfold bind at 1.
      destruct (get_process_info_run pf (VInt p)
                  (h ++ [EvConnect host (VInt p) default_timeout a])%list)
        as (found & during & -> & F & _).
      match goal with
      | |- context [scan_each pf host rest ?acc' ?h'] =>
          specialize (IH acc' h'); destruct (scan_each pf host rest acc' h') as [r ev]
      end.
      cbn [snd app] in *. constructor; [exact Hc|].
      apply Forall_app. split; [|exact IH].
      eapply Forall_impl; [|exact F]. intros e He. now left.
    + specialize (IH acc (h ++ [EvConnect host (VInt p) default_timeout a])%list).
      destruct (scan_each pf host rest acc _) as [r ev].
      cbn [snd app] in *. now constructor.
Qed.

Lemma probe_or_lookup_is_scan_event e :
  probe_or_lookup "127.0.0.1" e -> scan_event e.
Proof.
  intros [Hl|(p & a & ->)]; [|now split].
  destruct e as [c r| | | | |]; cbn in *; try contradiction. exact Hl.
Qed.

Lemma emits_scan_each ports acc :
  emits scan_event (scan_each pf "127.0.0.1" ports acc).
Proof.
  intros h. eapply Forall_impl; [|apply scan_each_kinds].
  exact probe_or_lookup_is_scan_event.
Qed.

Lemma emits_time : emits scan_event (time pf).
Proof. intros h. now repeat constructor. Qed.

Lemma emits_ports_within port_range ports :
  emits scan_event (ports_within pf port_range ports).
Proof.
  induction ports as [|p rest IH]; cbn [ports_within].
  - apply emits_ret.
  - apply emits_bind; [apply emits_lift|intros lo].
    apply emits_bind; [apply emits_lift|intros above].
    apply emits_bind.
    { destruct above; [|apply emits_ret].
      apply emits_bind; [apply emits_lift|intros hi]. apply emits_lift. }
    intros keep. apply emits_bind; [exact IH|intros kept]. apply emits_ret.
Qed.

Ltac quiet_steps :=
  repeat first
    [ apply emits_lift
    | apply emits_ret
    | apply emits_throw
    | apply emits_bind; [|intros ?]
    | match goal with
      | |- emits _ (if ?c then _ else _) => destruct c
      end ].

Lemma emits_scan_action data : emits scan_event (scan_action pf data).
Proof.
  unfold scan_action.
  apply emits_bind; [apply emits_lift|intros port_range].
  apply emits_bind; [apply emits_lift|intros common].
  apply emits_bind; [unfold range_rejected; quiet_steps|intros rejected].
  destruct rejected; [apply emits_throw|].
  apply emits_bind; [unfold limit_range; quiet_steps|intros limited].
  apply emits_bind; [apply emits_time|intros start_time].
  apply emits_bind.
  { unfold scan_ports. apply emits_bind; [|intros ports; apply emits_scan_each].
    unfold ports_to_scan. destruct (Py.truth common); [apply emits_ports_within|].
    quiet_steps. }
  intros open_ports.
  apply emits_bind; [apply emits_time|intros end_time].
  apply emits_bind; [|intros total; apply emits_ret].
  unfold count_scanned. destruct (Py.truth common).
  - apply emits_bind; [apply emits_ports_within|intros ports]. apply emits_ret.
  - quiet_steps.
Qed.

End ScanEvents.

(** X7.  A scan request never sends a signal, never runs [taskkill] and
    never sleeps: whatever the range and the platform, and whether the
    scan succeeds or fails, every event of the run is a reading of the
    clock, a probe of 127.0.0.1 with the default timeout of 0.1 seconds, a
    tool of owner resolution (the listener table, [ps], [lsof]) or the
    print of the response. *)
Theorem scan_only_probes_and_looks_up :
  forall (pf : platform) (stdin : string) (d : list (string * value)),
    parsed pf stdin (VDict d) ->
    Py.lookup "action" d = Some (VStr "scan") ->
    Forall scan_event (snd (run_script pf stdin))
    /\ forall e, In e (snd (run_script pf stdin)) ->
                 ~ kill_call e /\ forall n, e <> EvSleep n.
Proof.
  intros pf stdin d Hp Ha.
  assert (Hall : Forall scan_event (snd (run_script pf stdin))).
  { pose proof (emits_scan_action pf (VDict d) []) as Hs.
    unfold run_script, main, try_except.
    rewrite (main_body_dispatch pf stdin d _ Hp Ha).
    cbn [Py.eq String.eqb Ascii.eqb Bool.eqb]. unfold bind.
    destruct (scan_action pf (VDict d) []) as [[r|e|c] ev]; cbn [snd app] in *.
    - apply Forall_app. split; [exact Hs|now repeat constructor].
    - rewrite main_failed_run. cbn [snd].
      apply Forall_app. split; [exact Hs|now repeat constructor].
    - exact Hs. }
  split; [exact Hall|].
  intros e He. rewrite Forall_forall in Hall. specialize (Hall e He).
  split.
  - intros Hk. destruct e as [c r| | | | |]; cbn in Hall, Hk; try contradiction.
    exact (lookup_not_kill (EvRun c r) Hall Hk).
  - intros n ->. exact Hall.
Qed.

Lemma scan_of_three_ports_only_probes_and_looks_up :
  Forall scan_event
    (snd (run_script (machine_with_listener scan_three_text scan_three_data)
                     scan_three_text)).
Proof.
  apply (scan_only_probes_and_looks_up
           (machine_with_listener scan_three_text scan_three_data)
           scan_three_text scan_three_data).
  - split; reflexivity.
  - reflexivity.
Defined.

Lemma limited_end_bounds a b common :
  a <= b ->
  a <= limited_end a b common <= b
  /\ (Py.truth common = false -> limited_end a b common - a <= 10000).
Proof.
  intros Hab. unfold limited_end, limit_applies.
  destruct (b - a >? 10000) eqn:Hw; cbn [andb].
  - rewrite Z.gtb_ltb in Hw. apply Z.ltb_lt in Hw.
    destruct (Py.truth common); cbn [negb]; split; try lia; discriminate.
  - rewrite Z.gtb_ltb in Hw. apply Z.ltb_ge in Hw. split; [lia|]. intros _. lia.
Qed.

Lemma counted_is_planned_length a b' common :
  a <= b' -> (Py.truth common = false -> b' - a <= 10000) ->
  counted a b' common = VInt (Z.of_nat (List.length (planned_ports a b' common))).
Proof.
  intros Hab Hn. unfold counted, planned_ports.
  destruct (Py.truth common); [reflexivity|].
  specialize (Hn eq_refl). rewrite interval_length. f_equal. lia.
Qed.

(** X8.  For every scan request with [common_ports_only] false whose range
    from [a] to [b] has [b - a <= 10000], the ports probed are exactly
    [a], [a + 1], ..., [b] in this order, the range is reported as
    requested and [total_scanned] is [b - a + 1] (so a range of one port
    is probed once). *)
Theorem narrow_scan_probes_the_requested_range :
  forall (pf : platform) (stdin : string) (d : list (string * value)) (a b : Z),
    parsed pf stdin (VDict d) ->
    Py.lookup "action" d = Some (VStr "scan") ->
    requested_range d = VList [VInt a; VInt b] ->
    a <= b -> b - a <= 10000 ->
    Py.truth (requested_common d) = false ->
    exists entries t ev,
      run_script pf stdin = (ExitStatus 0, ev)
      /\ map fst (probes ev) = map VInt (Py.interval a (b + 1))
      /\ stdout ev = [ScanResult true "scan" entries (VList [VInt a; VInt b])
                        (VInt (b - a + 1)) t (requested_common d)].
Proof.
  intros pf stdin d a b Hp Ha Hr Hab Hn Hc.
  assert (Hl : limit_applies a b (requested_common d) = false).
  { unfold limit_applies. replace (b - a >? 10000) with false; [reflexivity|].
    symmetry. rewrite Z.gtb_ltb. apply Z.ltb_ge. lia. }
  destruct (run_scan_valid pf stdin d (VInt a) (VInt b) a b Hp Ha Hr eq_refl eq_refl Hab)
    as (entries & t & ev & E & Hprobes & _ & Hout).
  unfold planned_ports, counted, limited_range, limited_end in *.
  rewrite Hl, Hc in *.
  exists entries, t, ev. split; [exact E|]. split; [exact Hprobes|].
  rewrite Hout. do 3 f_equal. lia.
Qed.

Lemma three_port_scan_reports_three :
  exists entries t ev,
    run_script (machine_with_listener scan_three_text scan_three_data) scan_three_text
    = (ExitStatus 0, ev)
    /\ map fst (probes ev) = map VInt (Py.interval 8079 (8081 + 1))
    /\ stdout ev = [ScanResult true "scan" entries (VList [VInt 8079; VInt 8081])
                      (VInt (8081 - 8079 + 1)) t (requested_common scan_three_data)].
Proof.
  apply (narrow_scan_probes_the_requested_range
           (machine_with_listener scan_three_text scan_three_data)
           scan_three_text scan_three_data 8079 8081).
  - split; reflexivity.
  - reflexivity.
  - reflexivity.
  - lia.
  - lia.
  - reflexivity.
Defined.

(** X9.  In every successful scan the reported [total_scanned] is the
    number of ports that were actually probed, in either mode and whether
    or not the range was limited. *)
Theorem total_scanned_counts_the_probes :
  forall (pf : platform) (stdin : string) (d : list (string * value))
         (x y : value) (a b : Z),
    parsed pf stdin (VDict d) ->
    Py.lookup "action" d = Some (VStr "scan") ->
    requested_range d = VList [x; y] ->
    Py.as_number x = Some a -> Py.as_number y = Some b -> a <= b ->
    exists entries range t ev,
      run_script pf stdin = (ExitStatus 0, ev)
      /\ stdout ev = [ScanResult true "scan" entries range
                        (VInt (Z.of_nat (List.length (probes ev)))) t
                        (requested_common d)].
Proof.
  intros pf stdin d x y a b Hp Ha Hr Hx Hy Hab.
  destruct (run_scan_valid pf stdin d x y a b Hp Ha Hr Hx Hy Hab)
    as (entries & t & ev & E & Hprobes & _ & Hout).
  destruct (limited_end_bounds a b (requested_common d) Hab) as [[Hlo _] Hn].
  rewrite (counted_is_planned_length _ _ _ Hlo Hn) in Hout.
  exists entries, (limited_range x y a b (requested_common d)), t, ev.
  split; [exact E|].
  rewrite Hout. do 3 f_equal.
  now rewrite <- (length_map fst (probes ev)), Hprobes, length_map.
Qed.

Lemma common_scan_total_counts_the_probes :
  exists entries range t ev,
    run_script (machine_with_listener scan_common_text scan_common_data) scan_common_text
    = (ExitStatus 0, ev)
    /\ stdout ev = [ScanResult true "scan" entries range
                      (VInt (Z.of_nat (List.length (probes ev)))) t
                      (requested_common scan_common_data)].
Proof.
  apply (total_scanned_counts_the_probes
           (machine_with_listener scan_common_text scan_common_data)
           scan_common_text scan_common_data (VInt 1) (VInt 65535) 1 65535).
  - split; reflexivity.
  - reflexivity.
  - reflexivity.
  - reflexivity.
  - reflexivity.
  - lia.
Defined.

(** The ports kept by a filter of the probes are among the planned ports,
    in the same order. *)
Lemma kept_probes (keep : value * outcome Z -> bool) :
  forall (l : list (value * outcome Z)) (planned : list Z),
    map fst l = map VInt planned ->
    exists kept,
      map fst (filter keep l) = map VInt kept
      /\ (forall p, In p kept -> In p planned)
      /\ (StronglySorted Z.lt planned -> StronglySorted Z.lt kept).
Proof.
  induction l as [|[v r] l IH]; intros planned Hmap.
  - exists []. repeat split; [contradiction|constructor].
  - destruct planned as [|p planned]; [discriminate|].
    cbn in Hmap. injection Hmap as -> Hmap.
    destruct (IH planned Hmap) as (kept & Hk & Hin & Hs).
    cbn [filter]. destruct (keep (VInt p, r)).
    + exists (p :: kept). split; [cbn; now rewrite Hk|]. split.
      * intros q [->|Hq]; [now left|right; auto].
      * intros Hsorted. inversion Hsorted as [|? ? Ht Hf]; subst.
        constructor; [auto|].
        rewrite Forall_forall in *. auto.
    + exists kept. split; [exact Hk|]. split.
      * intros q Hq. right. auto.
      * intros Hsorted. inversion Hsorted; subst. auto.
Qed.

Lemma interval_sorted lo hi : StronglySorted Z.lt (Py.interval lo hi).
Proof.
  unfold Py.interval. generalize (Z.to_nat (hi - lo)) as n. generalize 0%nat as s.
  intros s n. revert s. induction n as [|n IH]; intros s; cbn [seq map].
  - constructor.
  - constructor; [apply IH|].
    rewrite Forall_forall. intros q Hq.
    apply in_map_iff in Hq as (k & <- & Hk). apply in_seq in Hk. lia.
Qed.

Lemma interval_bounds lo hi p : In p (Py.interval lo hi) -> lo <= p < hi.
Proof.
  unfold Py.interval. intros Hp.
  apply in_map_iff in Hp as (k & <- & Hk). apply in_seq in Hk. lia.
Qed.

Lemma VInt_map_injective l l' : map VInt l = map VInt l' -> l = l'.
Proof.
  revert l'. induction l as [|x l IH]; intros [|x' l'] H; try discriminate.
  - reflexivity.
  - cbn in H. injection H as -> H. f_equal. auto.
Qed.

(** X10.  In every successful scan of a range from [a] to [b], every entry
    of [open_ports] has a port between [a] and the end of the reported
    [scan_range]; in common-ports mode every such port is a member of
    [COMMON_PORTS]; and otherwise the entries are in strictly ascending
    order of port, so no port is listed twice. *)
Theorem open_ports_lie_in_the_scanned_range :
  forall (pf : platform) (stdin : string) (d : list (string * value)) (a b : Z),
    parsed pf stdin (VDict d) ->
    Py.lookup "action" d = Some (VStr "scan") ->
    requested_range d = VList [VInt a; VInt b] ->
    a <= b ->
    let common := requested_common d in
    let last := if limit_applies a b common then a + 10000 else b in
    exists entries total t ev,
      run_script pf stdin = (ExitStatus 0, ev)
      /\ stdout ev = [ScanResult true "scan" entries (VList [VInt a; VInt last])
                        total t common]
      /\ Forall (fun r => a <= port r <= last) entries
      /\ (Py.truth common = true -> Forall (fun r => In (port r) COMMON_PORTS) entries)
      /\ (Py.truth common = false -> StronglySorted Z.lt (map port entries)).
Proof.
  intros pf stdin d a b Hp Ha Hr Hab common last.
  destruct (run_scan_valid pf stdin d (VInt a) (VInt b) a b Hp Ha Hr eq_refl eq_refl Hab)
    as (entries & t & ev & E & Hprobes & Hopen & Hout).
  fold common in Hprobes, Hout.
  assert (Hlast : limited_end a b common = last) by reflexivity.
  rewrite Hlast in Hprobes, Hout.
  assert (Hrange : limited_range (VInt a) (VInt b) a b common = VList [VInt a; VInt last]).
  { unfold limited_range, last. now destruct (limit_applies a b common). }
  rewrite Hrange in Hout.
  destruct (kept_probes (fun pa => answered_open (snd pa)) (probes ev) _ Hprobes)
    as (kept & Hk & Hin & Hsorted).
  unfold found_open in Hopen. rewrite Hk, <- map_map in Hopen.
  apply VInt_map_injective in Hopen.
  exists entries, (counted a last common), t, ev.
  split; [exact E|]. split; [exact Hout|].
  assert (Hmember : forall r, In r entries -> In (port r) (planned_ports a last common)).
  { intros r Hr'. apply Hin. rewrite <- Hopen. now apply in_map. }
  split; [|split].
  - rewrite Forall_forall. intros r Hr'. specialize (Hmember r Hr').
    unfold planned_ports in Hmember. destruct (Py.truth common).
    + apply filter_In in Hmember as [_ Hw]. unfold within in Hw.
      apply andb_prop in Hw as [H1 H2]. apply Z.leb_le in H1, H2. lia.
    + apply interval_bounds in Hmember. lia.
  - intros Hc. rewrite Forall_forall. intros r Hr'. specialize (Hmember r Hr').
    unfold planned_ports in Hmember. rewrite Hc in Hmember.
    now apply filter_In in Hmember.
  - intros Hc. rewrite Hopen. apply Hsorted.
    unfold planned_ports. rewrite Hc. apply interval_sorted.
Qed.

Lemma listener_found_lies_in_the_scanned_range :
  exists entries total t ev,
    run_script (machine_with_listener scan_three_text scan_three_data) scan_three_text
    = (ExitStatus 0, ev)
    /\ stdout ev = [ScanResult true "scan" entries (VList [VInt 8079; VInt 8081])
                      total t (VBool false)]
    /\ Forall (fun r => 8079 <= port r <= 8081) entries.
Proof.
  destruct (open_ports_lie_in_the_scanned_range
              (machine_with_listener scan_three_text scan_three_data)
              scan_three_text scan_three_data 8079 8081)
    as (entries & total & t & ev & E & Hout & Hin & _).
  - split; reflexivity.
  - reflexivity.
  - reflexivity.
  - lia.
  - exists entries, total, t, ev. split; [exact E|]. split; [exact Hout|exact Hin].
Defined.

Section ScanTiming.

Variable pf : platform.

Lemma scan_action_timed d x y a b h :
  requested_range d = VList [x; y] ->
  Py.as_number x = Some a -> Py.as_number y = Some b -> a <= b ->
  let common := requested_common d in
  let b' := limited_end a b common in
  let t0 := time_time pf h in
  let run := scan_each pf "127.0.0.1" (planned_ports a b' common) []
               (h ++ [EvClock t0])%list in
  let t1 := time_time pf ((h ++ [EvClock t0]) ++ snd run)%list in
  exists entries,
    scan_action pf (VDict d) h
    = (Return (ScanResult true "scan" entries (limited_range x y a b common)
                 (counted a b' common) (round pf (PrimFloat.sub t1 t0) 2) common),
       ([EvClock t0] ++ snd run ++ [EvClock t1])%list).
Proof.
  intros Hr Hx Hy Hab common b' t0 run t1.
  destruct (limited_range_pair x y a b common Hy) as (y' & Hl & Hy').
  fold b' in Hy'.
  destruct (scan_each_run pf "127.0.0.1" (planned_ports a b' common) []
              (h ++ [EvClock t0])%list) as (entries & ev & E & _).
  assert (Hev : snd run = ev) by (unfold run; now rewrite E).
  unfold t1. rewrite Hev. clear t1 Hev run.
  exists entries.
  unfold scan_action.
  change (Py.get (fault_text pf) (VDict d) "port_range" (VList [VInt 1; VInt 65535]))
    with (Ok (A:=value) (requested_range d)).
  change (Py.get (fault_text pf) (VDict d) "common_ports_only" (VBool false))
    with (Ok (A:=value) common).
  rewrite !bind_lift_ok, Hr.
  rewrite (bind_quiet _ _ _ _ (range_rejected_pair pf x y a b Hx Hy h)).
  replace (a >? b) with false by (symmetry; rewrite Z.gtb_ltb; apply Z.ltb_ge; lia).
  rewrite (bind_quiet _ _ _ _ (limit_range_pair pf x y a b Hx Hy common h)).
  rewrite Hl.
  eapply bind_return; [apply time_run|].
  eapply bind_return.
  { unfold scan_ports.
    rewrite (bind_quiet _ _ _ _ (ports_to_scan_pair pf x y' a b' Hx Hy' common _)).
    exact E. }
  eapply bind_return_quiet; [apply time_run|].
  rewrite (bind_quiet _ _ _ _ (count_scanned_pair pf x y' a b' Hx Hy' common _)).
  reflexivity.
Qed.

End ScanTiming.

(** X18.  A valid scan reads the clock exactly twice, as the first event
    of the run and as the last one before the result is printed; between
    the two readings it only probes 127.0.0.1 and looks up owners, and the
    reported [scan_time] is [round] of the difference of the two readings
    to two places. *)
Theorem scan_time_spans_the_probing :
  forall (pf : platform) (stdin : string) (d : list (string * value))
         (x y : value) (a b : Z),
    parsed pf stdin (VDict d) ->
    Py.lookup "action" d = Some (VStr "scan") ->
    requested_range d = VList [x; y] ->
    Py.as_number x = Some a -> Py.as_number y = Some b -> a <= b ->
    exists entries range total t0 t1 between,
      run_script pf stdin
      = (ExitStatus 0,
         (EvClock t0 :: between
          ++ [EvClock t1;
              EvPrint (ScanResult true "scan" entries range total
                         (round pf (PrimFloat.sub t1 t0) 2) (requested_common d))])%list)
      /\ Forall (probe_or_lookup "127.0.0.1") between.
Proof.
  intros pf stdin d x y a b Hp Ha Hr Hx Hy Hab.
  destruct (scan_action_timed pf d x y a b [] Hr Hx Hy Hab) as (entries & E).
  cbv zeta in E.
  eexists entries, _, _, _, _, _. split.
  - rewrite (run_scan pf stdin d _ _ Hp Ha E).
    cbn [app]. now rewrite <- app_assoc.
  - apply scan_each_kinds.
Qed.

Lemma three_port_scan_is_timed :
  exists entries range total t0 t1 between,
    run_script (machine_with_listener scan_three_text scan_three_data) scan_three_text
    = (ExitStatus 0,
       (EvClock t0 :: between
        ++ [EvClock t1;
            EvPrint (ScanResult true "scan" entries range total
                       (round (machine_with_listener scan_three_text scan_three_data)
                          (PrimFloat.sub t1 t0) 2)
                       (requested_common scan_three_data))])%list)
    /\ Forall (probe_or_lookup "127.0.0.1") between.
Proof.
  apply (scan_time_spans_the_probing (machine_with_listener scan_three_text scan_three_data)
           scan_three_text scan_three_data (VInt 8079) (VInt 8081) 8079 8081);
    try reflexivity.
  - split; reflexivity.
  - lia.
Defined.

(* ================================================================== *)
(** ** What a close operation does *)

Lemma protocol_kill_calls p pid name r ev :
  protocol_run p pid name r ev ->
  forall e, In e ev -> kill_call e -> graceful_request pid e \/ forced_request pid e.
Proof.
  intros P e He Hk.
  destruct P; cbn in He; unfold reprobe in He;
    repeat match goal with
           | H : _ \/ _ |- _ => destruct H as [H|H]
           | H : False |- _ => destruct H
           end;
    subst e; auto; cbn in Hk; contradiction.
Qed.

(** X11.  [close_port] signals no process but the owner it resolved: every
    termination request of a close operation ([os.kill] or [taskkill],
    graceful or forced) is addressed to the pid that [int] reads from the
    [process_id] that owner resolution returned for the port.  When no
    owner is found, or its [process_id] is not a number, nothing is
    signalled. *)
Theorem close_signals_only_the_resolved_owner :
  forall (pf : platform) (p : value) (h : history),
  exists outcome ev,
    close_port pf p h = (Return outcome, ev)
    /\ forall e, In e ev -> kill_call e ->
         exists info lookups pid,
           get_process_info pf p h = (Return (Some info), lookups)
           /\ Py.int (fault_text pf) (info_process_id info) = Ok pid
           /\ (graceful_request pid e \/ forced_request pid e).
Proof.
  intros pf p h. unfold close_port.
  destruct (get_process_info_run pf p h) as (o & ev & E & F & _).
  assert (Hl : forall e, In e ev -> kill_call e -> False).
  { intros e He Hk. rewrite Forall_forall in F. exact (lookup_not_kill e (F e He) Hk). }
  destruct o as [info|].
  2:{ eexists _, ev. split.
      - apply try_return. eapply bind_return_quiet; [exact E|reflexivity].
      - intros e He Hk. destruct (Hl e He Hk). }
  destruct (Py.int (fault_text pf) (info_process_id info)) as [pid|x] eqn:Ei.
  2:{ eexists _, ev. split.
      - eapply try_caught_quiet; [|reflexivity].
        eapply bind_return_quiet; [exact E|].
        cbv beta iota zeta. rewrite Ei. reflexivity.
      - intros e He Hk. destruct (Hl e He Hk). }
  destruct (terminate_run pf p pid (info_process_name info) (h ++ ev)%list)
    as (r & ev' & E' & R).
  exists r, (ev ++ ev')%list. split.
  - apply try_return. eapply bind_return; [exact E|].
    cbv beta iota zeta. rewrite Ei, bind_lift_ok. exact E'.
  - intros e He Hk. apply in_app_or in He as [He|He]; [destruct (Hl e He Hk)|].
    exists info, ev, pid. repeat split; try assumption.
    exact (protocol_kill_calls p pid _ r ev' R e He Hk).
Qed.

Lemma slept_app ev ev' : slept (ev ++ ev') = slept ev + slept ev'.
Proof.
  induction ev as [|e ev IH]; [reflexivity|].
  destruct e; cbn [app slept]; lia.
Qed.

Lemma signals_app ev ev' :
  filter is_signal (ev ++ ev') = (filter is_signal ev ++ filter is_signal ev')%list.
Proof. apply filter_app. Qed.

Lemma lookups_idle ev :
  Forall lookup_event ev -> slept ev = 0 /\ filter is_signal ev = [].
Proof.
  induction 1 as [|e ev He _ [IHs IHf]]; [now split|].
  destruct e as [[line|[|program args]] r| | | | |]; cbn in *; try contradiction;
    try (now split).
  destruct He as [-> | ->]; now split.
Qed.

Lemma request_alone pid e :
  graceful_request pid e \/ forced_request pid e ->
  slept [e] = 0
  /\ (List.length (filter is_signal [e]) <= 1)%nat
  /\ probes [e] = [].
Proof.
  intros [H|H]; destruct e as [[line|args] r| |q [|] r| | |]; cbn in *;
    try contradiction; repeat split; try lia;
    destruct args as [|program args]; cbn; try lia;
    destruct (String.eqb program "taskkill"); cbn; lia.
Qed.

Ltac tally :=
  rewrite ?slept_app, ?signals_app, ?probes_app, ?length_app;
  repeat match goal with
         | H : slept _ = 0 |- _ => rewrite H; clear H
         | H : probes _ = [] |- _ => rewrite H; clear H
         | H : (List.length (filter is_signal _) <= 1)%nat |- _ => clear H
         end;
  cbn [slept filter is_signal reprobe probes app];
  repeat match goal with
         | |- context [is_signal ?e] => destruct (is_signal e)
         end;
  cbn [List.length app fst];
  repeat split; try lia; repeat (constructor; try reflexivity).

(** X12.  A close operation is bounded: it sleeps at most two seconds in
    all, sends at most two termination requests, and probes at most twice,
    each time the port it was asked to close. *)
Theorem close_port_is_bounded :
  forall (pf : platform) (p : value) (h : history),
  exists outcome ev,
    close_port pf p h = (Return outcome, ev)
    /\ 0 <= slept ev <= 2
    /\ (List.length (filter is_signal ev) <= 2)%nat
    /\ (List.length (probes ev) <= 2)%nat
    /\ Forall (fun answer => fst answer = p) (probes ev).
Proof.
  intros pf p h.
  destruct (close_port_run pf p h) as (r & ev & E & R).
  exists r, ev. split; [exact E|]. clear E.
  destruct R as [l F|l text F|l pid name r l' F P].
  - destruct (lookups_idle l F) as [-> ->].
    destruct (lookup_events_quiet l F) as [-> _]. cbn. repeat split; try lia. constructor.
  - destruct (lookups_idle l F) as [-> ->].
    destruct (lookup_events_quiet l F) as [-> _]. cbn. repeat split; try lia. constructor.
  - rewrite slept_app, signals_app, probes_app.
    destruct (lookups_idle l F) as [-> ->].
    destruct (lookup_events_quiet l F) as [-> _]. cbn [app].
    destruct P as [g y Hg Hf|g a Hg Hs Ha|g a f y Hg Hs Ha Hf Hfy
                  |g a f a' Hg Hs Ha Hf Hs'].
    + destruct (request_alone pid g (or_introl Hg)) as (Sg & Ng & Pg).
      tally.
    + destruct (request_alone pid g (or_introl Hg)) as (Sg & Ng & Pg).
      change [g; EvSleep 1; reprobe p a] with ([g] ++ [EvSleep 1; reprobe p a])%list.
      tally.
    + destruct (request_alone pid g (or_introl Hg)) as (Sg & Ng & Pg).
      destruct (request_alone pid f (or_intror Hf)) as (Sf & Nf & Pf).
      change [g; EvSleep 1; reprobe p a; f]
        with ([g] ++ [EvSleep 1; reprobe p a] ++ [f])%list.
      tally.
    + destruct (request_alone pid g (or_introl Hg)) as (Sg & Ng & Pg).
      destruct (request_alone pid f (or_intror Hf)) as (Sf & Nf & Pf).
      change [g; EvSleep 1; reprobe p a; f; EvSleep 1; reprobe p a']
        with ([g] ++ [EvSleep 1; reprobe p a] ++ [f] ++ [EvSleep 1; reprobe p a'])%list.
      tally.
Qed.

(** X13.  A close request that passes validation always ends with status
    0 and prints one close result carrying the requested port and what
    [close_port] returned: whether the port was closed is told by the
    [success] field, not by the exit status. *)
Theorem close_request_always_exits_zero :
  forall (pf : platform) (stdin : string) (d : list (string * value)) (p : value),
    parsed pf stdin (VDict d) ->
    Py.lookup "action" d = Some (VStr "close") ->
    Py.lookup "port_to_close" d = Some p ->
    exists success message ev,
      close_port pf p [] = (Return (success, message), ev)
      /\ run_script pf stdin
         = (ExitStatus 0, (ev ++ [EvPrint (CloseResult success "close" p message)])%list).
Proof.
  intros pf stdin d p Hp Ha Hport.
  destruct (close_port_run pf p []) as ([success message] & ev & E & _).
  exists success, message, ev. split; [exact E|].
  exact (run_close pf stdin d p (success, message) ev Hp Ha Hport E).
Qed.

Lemma failed_close_exits_zero :
  exists success message ev,
    close_port machine_with_foreign_node (VInt 8080) [] = (Return (success, message), ev)
    /\ run_script machine_with_foreign_node close_8080_text
       = (ExitStatus 0,
          (ev ++ [EvPrint (CloseResult success "close" (VInt 8080) message)])%list).
Proof.
  apply (close_request_always_exits_zero machine_with_foreign_node close_8080_text
           close_8080_data (VInt 8080)).
  - split; reflexivity.
  - reflexivity.
  - reflexivity.
Defined.

(** X14.  When owner resolution names an owner whose [process_id] is not a
    number (the listener table shows a dash for a process of another
    user), [close_port] gives up before sending anything: it returns
    failure with "Error closing port ", the port, and the [ValueError] of
    [int], and the run consists of the lookups alone. *)
Theorem unreadable_pid_stops_the_close :
  forall (pf : platform) (p : value) (h : history) (info : process_info)
         (lookups : list event) (e : exn),
    get_process_info pf p h = (Return (Some info), lookups) ->
    Py.int (fault_text pf) (info_process_id info) = Raise e ->
    close_port pf p h
    = (Return (false, "Error closing port " ++ Py.str p ++ ": " ++ exn_str e), lookups)
    /\ forall e', In e' lookups -> ~ kill_call e'.
Proof.
  intros pf p h info lookups e E Ei. split.
  - unfold close_port. eapply try_caught_quiet; [|reflexivity].
    eapply bind_return_quiet; [exact E|].
    cbv beta iota zeta. rewrite Ei. reflexivity.
  - destruct (get_process_info_run pf p h) as (o & ev & E' & F & _).
    rewrite E' in E. injection E as _ <-.
    intros e' He Hk. rewrite Forall_forall in F.
    exact (lookup_not_kill e' (F e' He) Hk).
Qed.

Lemma dash_in_the_pid_column_stops_the_close :
  fst (close_port machine_with_unnamed_owner (VInt 8080) [])
  = Return (false, "Error closing port 8080: fault").
Proof.
  rewrite (proj1 (unreadable_pid_stops_the_close machine_with_unnamed_owner (VInt 8080) []
             {| info_process_id := "-"; info_process_name := "unknown";
                info_process_command := "unknown" |}
             (snd (get_process_info machine_with_unnamed_owner (VInt 8080) []))
             (Exn ValueError "fault") eq_refl eq_refl)).
  reflexivity.
Defined.

(* ================================================================== *)
(** ** Owner resolution *)

Section Listener.

Variable pf : platform.

Lemma listener_lines_skip needle skipped tail h :
  forallb (fun line => negb (accepted_line needle line)) skipped = true ->
  listener_lines pf needle (skipped ++ tail) h = listener_lines pf needle tail h.
Proof.
  induction skipped as [|line rest IH]; intros Hs; [reflexivity|].
  cbn [forallb] in Hs. apply andb_prop in Hs as [Hl Hr].
  cbn [app listener_lines]. unfold accepted_line in Hl.
  destruct (PyStr.contains needle line); [|exact (IH Hr)].
  destruct (6 <? Z.of_nat (List.length (PyStr.split line))); [discriminate|exact (IH Hr)].
Qed.

Lemma listener_lines_accept needle line rest h :
  accepted_line needle line = true ->
  exists i ev,
    listener_lines pf needle (line :: rest) h = (Return (Some i), ev)
    /\ info_process_id i = pid_column line.
Proof.
  intros Ha. unfold accepted_line in Ha. apply andb_prop in Ha as [Hc Hn].
  cbn [listener_lines]. rewrite Hc, Hn. unfold pid_column.
  destruct (PyStr.split_once "/" (PyStr.last_item (PyStr.split line))) as [[pid name]|].
  - destruct (listener_details_run pf pid name h) as (i & ev & E & _ & Hid & _).
    exists i, ev. split; [|exact Hid].
    eapply bind_return_quiet; [exact E|reflexivity].
  - destruct (listener_details_run pf (PyStr.last_item (PyStr.split line)) unknown h)
      as (i & ev & E & _ & Hid & _).
    exists i, ev. split; [|exact Hid].
    eapply bind_return_quiet; [exact E|reflexivity].
Qed.

Lemma listener_details_length pid name h :
  (List.length (snd (listener_details pf pid name h)) <= 2)%nat
  /\ (os_name_nt pf = true -> snd (listener_details pf pid name h) = []).
Proof.
  unfold listener_details.
  destruct (os_name_nt pf); cbn [negb]; unmonad.
  - split; [cbn; lia|reflexivity].
  - split; [|discriminate].
    destruct (subprocess_run pf h (ps_comm pid)) as [[rc out]|e]; reduce; [|cbn; lia].
    destruct (subprocess_run pf _ (ps_args pid)) as [[rc2 out2]|e2]; reduce; cbn; lia.
Qed.

Lemma listener_lines_length needle lines h :
  exists o ev,
    listener_lines pf needle lines h = (Return o, ev)
    /\ (List.length ev <= 2)%nat
    /\ (o = None -> ev = [])
    /\ (os_name_nt pf = true -> ev = []).
Proof.
  induction lines as [|line rest IH]; cbn [listener_lines].
  - exists None, []. repeat split. cbn; lia.
  - destruct (PyStr.contains needle line); [|exact IH].
    destruct (6 <? Z.of_nat (List.length (PyStr.split line))); [|exact IH].
    set (pair := match PyStr.split_once "/" _ with Some (pid, name) => (pid, name)
                                              | None => _ end).
    destruct pair as [pid name].
    destruct (listener_details_run pf pid name h) as (i & ev & E & _).
    destruct (listener_details_length pid name h) as [Hl Hnt].
    rewrite E in Hl, Hnt. cbn [snd] in Hl, Hnt.
    exists (Some i), ev. split; [|split; [exact Hl|split; [discriminate|exact Hnt]]].
    eapply bind_return_quiet; [exact E|reflexivity].
Qed.

Lemma lsof_lookup_length p h :
  (List.length (snd (try_except (lsof_lookup pf p) (fun _ => ret None) h)) <= 3)%nat.
Proof.
  unfold lsof_lookup. unmonad.
  destruct (subprocess_run pf h _) as [[rc out]|e]; reduce; [|cbn; lia].
  destruct ((rc =? 0) && negb (PyStr.is_empty (PyStr.strip out))); reduce; [|cbn; lia].
  set (pid := hd EmptyString (PyStr.split_on newline (PyStr.strip out))).
  destruct (subprocess_run pf _ (ps_comm pid)) as [[rc1 out1]|e1]; reduce; [|cbn; lia].
  destruct (subprocess_run pf _ (ps_args pid)) as [[rc2 out2]|e2]; reduce; cbn; lia.
Qed.

Lemma table_is_not_empty needle out skipped line rest :
  PyStr.split_on newline (PyStr.strip out) = (skipped ++ line :: rest)%list ->
  accepted_line needle line = true ->
  PyStr.is_empty (PyStr.strip out) = false.
Proof.
  intros Hs Ha. destruct (PyStr.strip out) as [|c r]; [|reflexivity].
  cbn in Hs. destruct skipped as [|s [|s' skipped]]; try discriminate.
  injection Hs as <- _. unfold accepted_line in Ha.
  cbn in Ha. now rewrite andb_false_r in Ha.
Qed.

Lemma get_process_info_from_table p h rc out :
  subprocess_run pf h (listener_table pf p) = Ok (rc, out) ->
  forall i ev,
    (if (rc =? 0) && negb (PyStr.is_empty (PyStr.strip out))
     then listener_lines pf (":" ++ Py.str p) (PyStr.split_on newline (PyStr.strip out))
     else ret None) (h ++ [EvRun (listener_table pf p) (Ok (rc, out))])%list
    = (Return (Some i), ev) ->
    get_process_info pf p h = (Return (Some i), EvRun (listener_table pf p) (Ok (rc, out)) :: ev).
Proof.
  intros E0 i ev E1. unfold get_process_info. apply try_return.
  replace (EvRun (listener_table pf p) (Ok (rc, out)) :: ev)
    with ([EvRun (listener_table pf p) (Ok (rc, out))] ++ (ev ++ []))%list
    by (cbn; now rewrite app_nil_r).
  eapply bind_return; [unfold listener_table in E0; now rewrite run_eq, E0|].
  eapply bind_return; [exact E1|reflexivity].
Qed.

Lemma get_process_info_nt_none p h rc out :
  os_name_nt pf = true ->
  subprocess_run pf h (listener_table pf p) = Ok (rc, out) ->
  (if (rc =? 0) && negb (PyStr.is_empty (PyStr.strip out))
   then listener_lines pf (":" ++ Py.str p) (PyStr.split_on newline (PyStr.strip out))
   else ret None) (h ++ [EvRun (listener_table pf p) (Ok (rc, out))])%list
  = (Return None, []) ->
  get_process_info pf p h = (Return None, [EvRun (listener_table pf p) (Ok (rc, out))]).
Proof.
  intros Hnt E0 E1. unfold get_process_info. apply try_return.
  eapply bind_return_quiet; [unfold listener_table in E0; now rewrite run_eq, E0|].
  eapply bind_return_quiet; [exact E1|].
  rewrite Hnt. reflexivity.
Qed.

End Listener.

(** X15.  On Windows, owner resolution rests on the listener table alone:
    when no line of the table both contains ":<port>" and has more than
    six columns (the lines of [netstat -ano] have five), it runs that one
    child process and finds no owner, and [close_port] then reports "No
    process found using port <port>" without signalling anything. *)
Theorem short_windows_table_names_no_owner :
  forall (pf : platform) (p : value) (h : history) (rc : Z) (out : string),
    os_name_nt pf = true ->
    subprocess_run pf h (listener_table pf p) = Ok (rc, out) ->
    forallb (fun line => negb (accepted_line (":" ++ Py.str p) line))
            (PyStr.split_on newline (PyStr.strip out)) = true ->
    get_process_info pf p h
    = (Return None, [EvRun (listener_table pf p) (Ok (rc, out))])
    /\ close_port pf p h
       = (Return (false, "No process found using port " ++ Py.str p),
          [EvRun (listener_table pf p) (Ok (rc, out))]).
Proof.
  intros pf p h rc out Hnt E0 Hs.
  assert (E : get_process_info pf p h
              = (Return None, [EvRun (listener_table pf p) (Ok (rc, out))])).
  { apply (get_process_info_nt_none pf p h rc out Hnt E0).
    destruct ((rc =? 0) && negb (PyStr.is_empty (PyStr.strip out))); [|reflexivity].
    rewrite <- (app_nil_r (PyStr.split_on newline (PyStr.strip out))).
    now rewrite (listener_lines_skip pf _ _ [] _ Hs). }
  split; [exact E|].
  unfold close_port. apply try_return.
  eapply bind_return_quiet; [exact E|reflexivity].
Qed.

Lemma windows_listener_is_not_resolved :
  get_process_info windows_machine (VInt 8080) []
  = (Return None,
     [EvRun (Shell "netstat -ano | findstr :8080")
            (windows_listener_on_8080 [] (Shell "netstat -ano | findstr :8080"))])
  /\ close_port windows_machine (VInt 8080) []
     = (Return (false, "No process found using port 8080"),
        [EvRun (Shell "netstat -ano | findstr :8080")
               (windows_listener_on_8080 [] (Shell "netstat -ano | findstr :8080"))]).
Proof.
  apply (short_windows_table_names_no_owner windows_machine (VInt 8080) [] 0
           ("  TCP    0.0.0.0:8080           0.0.0.0:0              LISTENING       4242"
            ++ String newline EmptyString)); reflexivity.
Defined.

(** X16.  When the listener table is printed with status 0, the owner is
    read off its first line that contains ":<port>" anywhere and has more
    than six columns: the reported [process_id] is the text of that line's
    last column before its first slash (the whole column when it has no
    slash).  The line is not checked to be about this very port. *)
Theorem first_accepted_line_names_the_owner :
  forall (pf : platform) (p : value) (h : history) (out : string)
         (skipped : list string) (line : string) (rest : list string),
    subprocess_run pf h (listener_table pf p) = Ok (0, out) ->
    PyStr.split_on newline (PyStr.strip out) = (skipped ++ line :: rest)%list ->
    forallb (fun l => negb (accepted_line (":" ++ Py.str p) l)) skipped = true ->
    accepted_line (":" ++ Py.str p) line = true ->
    exists info ev,
      get_process_info pf p h = (Return (Some info), ev)
      /\ info_process_id info = pid_column line.
Proof.
  intros pf p h out skipped line rest E0 Hlines Hs Ha.
  destruct (listener_lines_accept pf (":" ++ Py.str p) line rest
              (h ++ [EvRun (listener_table pf p) (Ok (0, out))])%list Ha)
    as (i & ev & E & Hid).
  exists i, (EvRun (listener_table pf p) (Ok (0, out)) :: ev). split; [|exact Hid].
  apply (get_process_info_from_table pf p h 0 out E0).
  rewrite (table_is_not_empty _ out skipped line rest Hlines Ha). cbn [Z.eqb andb negb].
  rewrite Hlines, (listener_lines_skip pf _ _ _ _ Hs). exact E.
Qed.

Lemma port_80_is_resolved_from_the_line_of_8080 :
  exists info ev,
    get_process_info machine_with_obedient_node (VInt 80) [] = (Return (Some info), ev)
    /\ info_process_id info = "4242".
Proof.
  apply (first_accepted_line_names_the_owner machine_with_obedient_node (VInt 80) []
           ("tcp        0      0 0.0.0.0:8080            0.0.0.0:*               LISTEN      4242/node"
            ++ String newline EmptyString)
           []
           "tcp        0      0 0.0.0.0:8080            0.0.0.0:*               LISTEN      4242/node"
           []); reflexivity.
Defined.

(** X17.  Resolving the owner of one port starts at most four child
    processes (the listener table and two [ps] calls, or the table, [lsof]
    and two [ps] calls), and on Windows exactly one; it does nothing else. *)
Theorem owner_resolution_runs_at_most_four_tools :
  forall (pf : platform) (p : value) (h : history),
    Forall lookup_event (snd (get_process_info pf p h))
    /\ (List.length (snd (get_process_info pf p h)) <= 4)%nat
    /\ (os_name_nt pf = true ->
        List.length (snd (get_process_info pf p h)) = 1%nat).
Proof.
  intros pf p h. split.
  { destruct (get_process_info_run pf p h) as (o & ev & E & F & _). now rewrite E. }
  destruct (subprocess_run pf h (listener_table pf p)) as [[rc out]|e] eqn:E0.
  2:{ assert (E : get_process_info pf p h
                  = (Return None, ([EvRun (listener_table pf p) (Raise e)] ++ [])%list)).
      { unfold get_process_info. eapply try_caught; [|reflexivity].
        apply bind_stop_throw. unfold listener_table in E0. now rewrite run_eq, E0. }
      rewrite E. split; [cbn; lia|reflexivity]. }
  set (first := EvRun (listener_table pf p) (Ok (rc, out))).
  assert (Hfound : exists o ev,
    (if (fst (rc, out) =? 0) && negb (PyStr.is_empty (PyStr.strip (snd (rc, out))))
     then listener_lines pf (":" ++ Py.str p)
            (PyStr.split_on newline (PyStr.strip (snd (rc, out))))
     else ret None) (h ++ [first])%list = (Return o, ev)
    /\ (List.length ev <= 2)%nat
    /\ (o = None -> ev = [])
    /\ (os_name_nt pf = true -> ev = [])).
  { destruct ((fst (rc, out) =? 0) && negb (PyStr.is_empty (PyStr.strip (snd (rc, out))))).
    - apply listener_lines_length.
    - exists None, []. repeat split. cbn; lia. }
  destruct Hfound as (o & ev & E & Hl & Hnone & Hnt).
  destruct o as [i|].
  - rewrite (get_process_info_from_table pf p h rc out E0 i ev E).
    cbn [snd List.length]. split; [lia|]. intros Ent. now rewrite (Hnt Ent).
  - rewrite (Hnone eq_refl) in E.
    destruct (os_name_nt pf) eqn:Ent.
    + rewrite (get_process_info_nt_none pf p h rc out Ent E0 E).
      split; [cbn; lia|reflexivity].
    + split; [|discriminate].
      destruct (lsof_lookup_run pf p ((h ++ [first]) ++ [])%list) as (o2 & ev2 & E2 & _).
      pose proof (lsof_lookup_length pf p ((h ++ [first]) ++ [])%list) as Hlsof.
      rewrite E2 in Hlsof. cbn [snd] in Hlsof.
      assert (Eg : get_process_info pf p h = (Return o2, ([first] ++ ([] ++ ev2))%list)).
      { unfold get_process_info. apply try_return.
        eapply bind_return; [unfold first, listener_table in *; now rewrite run_eq, E0|].
        eapply bind_return; [exact E|]. rewrite Ent. exact E2. }
      rewrite Eg. cbn [snd app List.length]. lia.
Qed.
